(** * AutoPkg macOS installer processors: catalog resolution, version
    extraction and caching

    A shallow embedding of the three processors of the repository

    - [macOS/macOSReleaseProvider.py] (the standalone resolver),
    - [macOS/macOSDownloader.py]      (the cache manager),
    - [macOS/DownloadMacOS.py]        (the combined resolver and downloader),

    together with the properties their specification states.

    Conventions of the embedding.

    - Python [str] values are [string]s; a character is read as the code
      point of the same number (0..255), so the whitespace and digit
      classes below are Python's, restricted to that range. The standard
      output of a command is given as the text it decodes to.
    - Python [int] is [Z]; [int()] is modelled without the bound that
      recent interpreters put on the number of digits of a literal (4300
      by default).
    - A Python call that may raise returns a [result]; a method that talks
      to the operating system is a computation in the monad [M], which
      threads the [World] and an outcome.
    - The external tools ([softwareupdate], [hdiutil]), the file system
      and the asset descriptors are part of the [World]: whether a command
      fails and what it leaves on disk is the environment's choice
      ([react]), and every command that is run is recorded in the world's
      [trace].
    - The structured output of [hdiutil] and the asset descriptor are typed
      records: the keys that the code reads are fields, optional where the
      code tests or guards their presence. *)

From Stdlib Require Import String Ascii List ZArith Bool Lia DecimalString.
Import ListNotations.

Local Open Scope string_scope.
Local Open Scope Z_scope.

Set Implicit Arguments.

(** ** Exceptions and outcomes *)

(** The exceptions that the modelled code can raise or let through.
    [ProcessorError(err)], built from a caught exception [err], keeps the
    exception it wraps. *)
Inductive exn : Type :=
| ProcessorError (msg : string)
| ProcessorErrorFrom (cause : exn)
| IndexError
| KeyError
| ValueError
| TypeError
| AttributeError
| CalledProcessError
| FileExistsError
| FileNotFoundError
| OSError (msg : string).

Definition is_ProcessorError (e : exn) : bool :=
  match e with
  | ProcessorError _ | ProcessorErrorFrom _ => true
  | _ => false
  end.

Inductive result (A : Type) : Type :=
| Ok (a : A)
| Raise (e : exn).

Arguments Ok {A} a.
Arguments Raise {A} e.

Definition rbind {A B} (r : result A) (k : A -> result B) : result B :=
  match r with
  | Ok a => k a
  | Raise e => Raise e
  end.

Declare Scope result_scope.
Delimit Scope result_scope with res.
Notation "'let?' x ':=' r 'in' k" := (rbind r (fun x => k))
  (at level 10, x name, r at level 100, k at level 200) : result_scope.

Definition is_raise {A} (r : result A) : bool :=
  match r with Ok _ => false | Raise _ => true end.

(** [[f(x) for x in l]] where [f] may raise: the first exception wins. *)
Fixpoint map_result {A B} (f : A -> result B) (l : list A) : result (list B) :=
  match l with
  | [] => Ok []
  | x :: t =>
      match f x with
      | Raise e => Raise e
      | Ok y =>
          match map_result f t with
          | Raise e => Raise e
          | Ok ys => Ok (y :: ys)
          end
      end
  end.

(** ** Python built-ins used by the processors *)

Module Py.

(** [len(l) > i and l[i]], with Python's [IndexError] out of range. *)
Definition getitem {A} (l : list A) (i : nat) : result A :=
  match nth_error l i with
  | Some a => Ok a
  | None => Raise IndexError
  end.

(** [s.split(sep)] for a one-character separator: never empty. *)
Fixpoint split (sep : ascii) (s : string) : list string :=
  match s with
  | EmptyString => [EmptyString]
  | String c r =>
      if Ascii.eqb c sep then EmptyString :: split sep r
      else match split sep r with
           | h :: t => String c h :: t
           | [] => [String c EmptyString]
           end
  end.

(** [needle in s] on strings. *)
Fixpoint contains (needle s : string) : bool :=
  String.prefix needle s ||
  match s with
  | EmptyString => false
  | String _ r => contains needle r
  end.

(** [str.isspace] on one character: code points 9..13, 28..32, 0x85 and
    0xA0 are the whitespace of the range. *)
Definition isspace (c : ascii) : bool :=
  let n := N.of_nat (nat_of_ascii c) in
  ((9 <=? n) && (n <=? 13) || (28 <=? n) && (n <=? 32)
   || (n =? 133) || (n =? 160))%N.

Fixpoint lstrip_by (p : ascii -> bool) (s : string) : string :=
  match s with
  | EmptyString => EmptyString
  | String c r => if p c then lstrip_by p r else s
  end.

Fixpoint rstrip_by (p : ascii -> bool) (s : string) : string :=
  match s with
  | EmptyString => EmptyString
  | String c r =>
      match rstrip_by p r with
      | EmptyString => if p c then EmptyString else String c EmptyString
      | r' => String c r'
      end
  end.

(** [s.strip()] *)
Definition strip (s : string) : string :=
  rstrip_by isspace (lstrip_by isspace s).

(** [s.rstrip('K')] *)
Definition rstrip_K (s : string) : string :=
  rstrip_by (Ascii.eqb "K"%char) s.

Definition isdigit (c : ascii) : bool :=
  let n := N.of_nat (nat_of_ascii c) in ((48 <=? n) && (n <=? 57))%N.

Definition digit_val (c : ascii) : Z :=
  Z.of_nat (nat_of_ascii c) - 48.

(** The digit part of an integer literal: decimal digits, with single
    underscores allowed between two digits. [seen] tells whether the
    previous character was a digit. *)
Fixpoint int_digits (acc : Z) (seen : bool) (s : string) : option Z :=
  match s with
  | EmptyString => if seen then Some acc else None
  | String c r =>
      if isdigit c then int_digits (10 * acc + digit_val c) true r
      else if Ascii.eqb c "_"%char then
             if seen then int_digits acc false r else None
      else None
  end.

(** The whitespace that [int] drops around a literal. [int] first turns
    the whitespace above the ASCII range (0x85 and 0xA0 here) into spaces
    and leaves every character below 127 as it is, then skips C's
    [isspace] set at both ends: tab to carriage return, and the space. The
    separators 0x1C..0x1F, which [str.strip] removes, are not part of it. *)
Definition int_space (c : ascii) : bool :=
  let n := N.of_nat (nat_of_ascii c) in
  ((9 <=? n) && (n <=? 13) || (n =? 32) || (n =? 133) || (n =? 160))%N.

(** [int(s)]: surrounding whitespace, an optional sign, then the digits;
    [ValueError] otherwise. *)
Definition int (s : string) : result Z :=
  let body := rstrip_by int_space (lstrip_by int_space s) in
  let parsed :=
    match body with
    | String "-"%char r => option_map Z.opp (int_digits 0 false r)
    | String "+"%char r => int_digits 0 false r
    | _ => int_digits 0 false body
    end in
  match parsed with
  | Some z => Ok z
  | None => Raise ValueError
  end.

(** [startswith('/')] and [endswith('/')] *)
Definition startswith_sep (s : string) : bool :=
  match s with
  | String "/"%char _ => true
  | _ => false
  end.

Fixpoint endswith_sep (s : string) : bool :=
  match s with
  | EmptyString => false
  | String c EmptyString => Ascii.eqb c "/"%char
  | String _ r => endswith_sep r
  end.

(** One step of [posixpath.join]: an absolute component restarts the
    path, otherwise it is appended after exactly one separator. *)
Definition join2 (path b : string) : string :=
  if startswith_sep b then b
  else if (String.eqb path EmptyString || endswith_sep path)%bool
       then path ++ b
       else path ++ "/" ++ b.

(** [os.path.join(a, *p)] *)
Definition path_join (a : string) (p : list string) : string :=
  fold_left join2 p a.

(** [x < y] on strings: lexicographic on code points. *)
Definition str_lt (x y : string) : bool := String.ltb x y.

(** [sorted(l, key=key, reverse=True)] with string keys: descending and
    stable, elements with equal keys keep their relative order. *)
Section Sorted.
Context {A : Type} (key : A -> string).

Fixpoint insert_desc (x : A) (l : list A) : list A :=
  match l with
  | [] => [x]
  | y :: t =>
      if str_lt (key x) (key y) then y :: insert_desc x t
      else x :: y :: t
  end.

Definition sorted_reverse (l : list A) : list A :=
  fold_right insert_desc [] l.
End Sorted.

(** Truth value of a string, and of a string-or-[None]. *)
Definition truthy (s : string) : bool :=
  negb (String.eqb s EmptyString).

Definition truthy_opt (o : option string) : bool :=
  match o with
  | Some s => truthy s
  | None => false
  end.

(** [str(n)] for an [int]. *)
Definition str_of_int (n : Z) : string :=
  NilZero.string_of_int (Z.to_int n).

Definition newline : ascii := ascii_of_nat 10.

Definition dquote : string := String (ascii_of_nat 34) EmptyString.

Definition backslash : string := String (ascii_of_nat 92) EmptyString.

(** *** [json.dumps(..., indent=4)] on a list of flat dictionaries *)

Definition hex_digit (n : nat) : ascii :=
  if Nat.ltb n 10 then ascii_of_nat (48 + n) else ascii_of_nat (87 + n).

(** One character inside a JSON string, with [ensure_ascii] on: the
    backslash and the quote are escaped, printable ASCII is kept, the rest
    is a short escape or a four-digit code point. *)
Definition json_escape_char (c : ascii) : string :=
  let n := nat_of_ascii c in
  if Nat.eqb n 92 then backslash ++ backslash
  else if Nat.eqb n 34 then backslash ++ dquote
  else if (Nat.leb 32 n && Nat.leb n 126)%bool then String c EmptyString
  else if Nat.eqb n 8 then backslash ++ "b"
  else if Nat.eqb n 12 then backslash ++ "f"
  else if Nat.eqb n 10 then backslash ++ "n"
  else if Nat.eqb n 13 then backslash ++ "r"
  else if Nat.eqb n 9 then backslash ++ "t"
  else backslash ++ "u00" ++ String (hex_digit (Nat.div n 16))
                   (String (hex_digit (Nat.modulo n 16)) EmptyString).

Fixpoint json_escape (s : string) : string :=
  match s with
  | EmptyString => EmptyString
  | String c r => json_escape_char c ++ json_escape r
  end.

Definition json_str (s : string) : string :=
  dquote ++ json_escape s ++ dquote.

Definition json_indent (level : nat) : string :=
  String newline (String.concat EmptyString (repeat "    " level)).

(** A dictionary is given by its items, the values already rendered. *)
Definition json_dict (level : nat) (items : list (string * string)) : string :=
  match items with
  | [] => "{}"
  | _ =>
      "{" ++ json_indent (S level)
      ++ String.concat ("," ++ json_indent (S level))
           (map (fun kv => json_str (fst kv) ++ ": " ++ snd kv) items)
      ++ json_indent level ++ "}"
  end.

Definition json_list_of_dicts (dicts : list (list (string * string))) : string :=
  match dicts with
  | [] => "[]"
  | _ =>
      "[" ++ json_indent 1
      ++ String.concat ("," ++ json_indent 1) (map (json_dict 1) dicts)
      ++ json_indent 0 ++ "]"
  end.

End Py.

(** ** [distutils.version.LooseVersion] *)

Module LooseVersion.

(** A parsed component is an [int] or a [str]. *)
Inductive component : Type :=
| CInt (n : Z)
| CStr (s : string).

(** The classes of the pattern [(\d+ | [a-z]+ | \.)], and the text between
    its matches. *)
Inductive cclass : Type := Digits | Lower | Dot | Other.

Definition cclass_eqb (a b : cclass) : bool :=
  match a, b with
  | Digits, Digits | Lower, Lower | Dot, Dot | Other, Other => true
  | _, _ => false
  end.

Definition classify (c : ascii) : cclass :=
  let n := nat_of_ascii c in
  if Py.isdigit c then Digits
  else if (Nat.leb 97 n && Nat.leb n 122)%bool then Lower
  else if Nat.eqb n 46 then Dot
  else Other.

(** [component_re.split(vstring)] without its empty pieces: maximal runs of
    digits, of lower-case letters and of other text, and every dot alone. *)
Fixpoint re_split (s : string) : list (cclass * string) :=
  match s with
  | EmptyString => []
  | String c r =>
      let k := classify c in
      match k, re_split r with
      | Dot, ts => (Dot, String c EmptyString) :: ts
      | _, (k', t) :: ts =>
          if cclass_eqb k k' then (k, String c t) :: ts
          else (k, String c EmptyString) :: (k', t) :: ts
      | _, [] => [(k, String c EmptyString)]
      end
  end.

(** [components[i] = int(obj)], keeping [obj] on [ValueError]. *)
Definition convert (obj : string) : component :=
  match Py.int obj with
  | Ok n => CInt n
  | Raise _ => CStr obj
  end.

(** [parse]: the pieces other than ['.'], converted. *)
Definition parse (vstring : string) : list component :=
  map (fun t => convert (snd t))
      (filter (fun t => negb (cclass_eqb (fst t) Dot)) (re_split vstring)).

(** [LooseVersion(vstring)]: the [version] attribute is set only when
    [vstring] is non-empty. *)
Definition make (vstring : string) : option (list component) :=
  if Py.truthy vstring then Some (parse vstring) else None.

Definition component_eqb (a b : component) : bool :=
  match a, b with
  | CInt x, CInt y => Z.eqb x y
  | CStr x, CStr y => String.eqb x y
  | _, _ => false
  end.

Fixpoint version_eqb (l1 l2 : list component) : bool :=
  match l1, l2 with
  | [], [] => true
  | a :: r1, b :: r2 => component_eqb a b && version_eqb r1 r2
  | _, _ => false
  end.

Definition mixed (a b : component) : bool :=
  match a, b with
  | CInt _, CStr _ | CStr _, CInt _ => true
  | _, _ => false
  end.

(** Whether [l1 < l2] on lists raises: the first pair that differs holds an
    [int] and a [str]. *)
Fixpoint lt_raises (l1 l2 : list component) : bool :=
  match l1, l2 with
  | a :: r1, b :: r2 =>
      if component_eqb a b then lt_raises r1 r2 else mixed a b
  | _, _ => false
  end.

(** [LooseVersion(a) == LooseVersion(b)], through [_cmp]: the [version]
    attributes are read first, then compared for equality and, when they
    differ, for order. *)
Definition eq (a b : string) : result bool :=
  match make a, make b with
  | Some l1, Some l2 =>
      if version_eqb l1 l2 then Ok true
      else if lt_raises l1 l2 then Raise TypeError
      else Ok false
  | _, _ => Raise AttributeError
  end.

End LooseVersion.

(** ** The machine the processors run on *)

(** An entry of [system-entities] in the disk-image utility's structured
    output: a dictionary whose ['mount-point'] key may be absent. *)
Record entity : Type := {
  dev_entry : string;
  mount_point : option string
}.

(** An entry of [images] in the output of [hdiutil info -plist]. *)
Record image : Type := {
  image_path : string;
  system_entities : list entity
}.

(** The asset descriptor inside a support image, as far as it is read:
    [info['Assets'][i]['OSVersion']], every key possibly absent. *)
Record asset : Type := {
  OSVersion : option string
}.

Record asset_catalog : Type := {
  Assets : option (list asset)
}.

(** What the file system answers. [asset_plist] is the outcome of
    [plistlib.readPlist] ([None] when the read or the parse fails);
    [dmg_entities] is what attaching the image file at a path reports. *)
Record FS : Type := {
  path_exists : string -> bool;
  isfile : string -> bool;
  listdir : string -> result (list string);
  asset_plist : string -> option asset_catalog;
  dmg_entities : string -> list entity
}.

(** The external commands and library calls that act on the machine. *)
Inductive event : Type :=
| Softwareupdate_list
| Softwareupdate_fetch (version : string)
| Hdiutil_info
| Hdiutil_attach (path : string)
| Hdiutil_detach (path : string)
| Makedirs (path : string)
| Copytree (src dst : string)
| Output (msg : string).

(** What [subprocess.run] on the catalog-listing command gives: it raises
    when the command cannot be executed, and otherwise completes with an
    exit status and the decoded standard output. *)
Inductive run_outcome : Type :=
| LaunchFailed (err : exn)
| Completed (returncode : Z) (stdout : string).

(** The processor's [env] dictionary: the keys that the processors read
    and write. *)
Record Env : Type := {
  RECIPE_CACHE_DIR : string;
  verbose : Z;
  version : string;
  release : string;
  size : string;
  cache_dir : option string;
  pathname : option string;
  changed : option bool;
  macOSDownloader_summary_result : option (string * list (string * string))
}.

(** [env[key] = value], key by key. *)
Definition with_version (v : string) (e : Env) : Env :=
  {| RECIPE_CACHE_DIR := RECIPE_CACHE_DIR e; verbose := verbose e;
     version := v; release := release e; size := size e;
     cache_dir := cache_dir e; pathname := pathname e; changed := changed e;
     macOSDownloader_summary_result := macOSDownloader_summary_result e |}.

Definition with_release (v : string) (e : Env) : Env :=
  {| RECIPE_CACHE_DIR := RECIPE_CACHE_DIR e; verbose := verbose e;
     version := version e; release := v; size := size e;
     cache_dir := cache_dir e; pathname := pathname e; changed := changed e;
     macOSDownloader_summary_result := macOSDownloader_summary_result e |}.

Definition with_size (v : string) (e : Env) : Env :=
  {| RECIPE_CACHE_DIR := RECIPE_CACHE_DIR e; verbose := verbose e;
     version := version e; release := release e; size := v;
     cache_dir := cache_dir e; pathname := pathname e; changed := changed e;
     macOSDownloader_summary_result := macOSDownloader_summary_result e |}.

Definition with_cache_dir (v : string) (e : Env) : Env :=
  {| RECIPE_CACHE_DIR := RECIPE_CACHE_DIR e; verbose := verbose e;
     version := version e; release := release e; size := size e;
     cache_dir := Some v; pathname := pathname e; changed := changed e;
     macOSDownloader_summary_result := macOSDownloader_summary_result e |}.

Definition with_pathname (v : string) (e : Env) : Env :=
  {| RECIPE_CACHE_DIR := RECIPE_CACHE_DIR e; verbose := verbose e;
     version := version e; release := release e; size := size e;
     cache_dir := cache_dir e; pathname := Some v; changed := changed e;
     macOSDownloader_summary_result := macOSDownloader_summary_result e |}.

Definition with_changed (v : bool) (e : Env) : Env :=
  {| RECIPE_CACHE_DIR := RECIPE_CACHE_DIR e; verbose := verbose e;
     version := version e; release := release e; size := size e;
     cache_dir := cache_dir e; pathname := pathname e; changed := Some v;
     macOSDownloader_summary_result := macOSDownloader_summary_result e |}.

Definition with_summary (v : string * list (string * string)) (e : Env) : Env :=
  {| RECIPE_CACHE_DIR := RECIPE_CACHE_DIR e; verbose := verbose e;
     version := version e; release := release e; size := size e;
     cache_dir := cache_dir e; pathname := pathname e; changed := changed e;
     macOSDownloader_summary_result := Some v |}.

(** The state of a run. [react] is the environment: given the commands run
    so far, a command and the file system, it tells whether the command
    fails, and what the file system is afterwards. *)
Record World : Type := {
  env : Env;
  fs : FS;
  images : list image;
  catalog : run_outcome;
  react : list event -> event -> FS -> option exn * FS;
  trace : list event
}.

Definition set_env (e : Env) (w : World) : World :=
  {| env := e; fs := fs w; images := images w; catalog := catalog w;
     react := react w; trace := trace w |}.

Definition set_fs (f : FS) (w : World) : World :=
  {| env := env w; fs := f; images := images w; catalog := catalog w;
     react := react w; trace := trace w |}.

Definition set_images (l : list image) (w : World) : World :=
  {| env := env w; fs := fs w; images := l; catalog := catalog w;
     react := react w; trace := trace w |}.

Definition set_catalog (o : run_outcome) (w : World) : World :=
  {| env := env w; fs := fs w; images := images w; catalog := o;
     react := react w; trace := trace w |}.

Definition log_event (ev : event) (w : World) : World :=
  {| env := env w; fs := fs w; images := images w; catalog := catalog w;
     react := react w; trace := trace w ++ [ev] |}.

(** *** Computations *)

Definition M (A : Type) : Type := World -> result A * World.

Definition ret {A} (a : A) : M A := fun w => (Ok a, w).

Definition raise {A} (e : exn) : M A := fun w => (Raise e, w).

Definition bind {A B} (c : M A) (k : A -> M B) : M B :=
  fun w =>
    match c w with
    | (Ok a, w') => k a w'
    | (Raise e, w') => (Raise e, w')
    end.

Declare Scope m_scope.
Delimit Scope m_scope with M.
Notation "x <- c ;; k" := (bind c (fun x => k))
  (at level 61, c at next level, right associativity) : m_scope.
Notation "c ;; k" := (bind c (fun _ => k))
  (at level 61, right associativity) : m_scope.
Local Open Scope m_scope.

Definition lift {A} (r : result A) : M A := fun w => (r, w).

Definition gets {A} (f : World -> A) : M A := fun w => (Ok (f w), w).

Definition modify (f : World -> World) : M unit := fun w => (Ok tt, f w).

(** [try: body / except: handler] with a bare [except]. *)
Definition try_except {A} (body handler : M A) : M A :=
  fun w =>
    match body w with
    | (Ok a, w') => (Ok a, w')
    | (Raise _, w') => handler w'
    end.

(** [try: body / except Exception as err: raise ProcessorError(err)] *)
Definition try_wrap {A} (body : M A) : M A :=
  fun w =>
    match body w with
    | (Ok a, w') => (Ok a, w')
    | (Raise e, w') => (Raise (ProcessorErrorFrom e), w')
    end.

(** [try: body / finally: cleanup]: the cleanup always runs, and an
    exception it raises replaces the outcome of the body. *)
Definition try_finally {A B} (body : M A) (cleanup : M B) : M A :=
  fun w =>
    match body w with
    | (r, w') =>
        match cleanup w' with
        | (Ok _, w'') => (r, w'')
        | (Raise e, w'') => (Raise e, w'')
        end
    end.

(** A computation that leaves the [env] dictionary alone. *)
Definition env_stable {A} (c : M A) : Prop :=
  forall w, env (snd (c w)) = env w.

(** A computation that keeps a view of the [env] dictionary. *)
Definition env_keeps {A T} (view : Env -> T) (c : M A) : Prop :=
  forall w, view (env (snd (c w))) = view (env w).

(** A computation that only adds events of a kind to the trace. *)
Definition emits {A} (kind : event -> bool) (c : M A) : Prop :=
  forall w, exists evs,
    trace (snd (c w)) = (trace w ++ evs)%list /\ forallb kind evs = true.

(** The fault of a command in a world, if any, and the world after it:
    the command is recorded and the file system is what the environment
    makes of it. *)
Definition fault_of (ev : event) (w : World) : option exn :=
  fst (react w (trace w) ev (fs w)).

Definition after (ev : event) (w : World) : World :=
  log_event ev (set_fs (snd (react w (trace w) ev (fs w))) w).

(** Running an external command. *)
Definition run_cmd (ev : event) : M unit :=
  fun w =>
    (match fault_of ev w with Some e => Raise e | None => Ok tt end,
     after ev w).

(** [self.output(msg)] *)
Definition output (msg : string) : M unit :=
  modify (log_event (Output msg)).

(** [self.env[key] = value] through one of the setters above. *)
Definition set_key (f : Env -> Env) : M unit :=
  modify (fun w => set_env (f (env w)) w).

(** *** File system calls *)

Definition os_path_exists (p : string) : M bool :=
  gets (fun w => path_exists (fs w) p).

Definition os_path_isfile (p : string) : M bool :=
  gets (fun w => isfile (fs w) p).

Definition os_listdir (p : string) : M (list string) :=
  fun w => (listdir (fs w) p, w).

(** After a successful call the target exists; what else changed is the
    environment's answer. *)
Definition force_exists (p : string) (f : FS) : FS :=
  {| path_exists := fun q => (String.eqb q p || path_exists f q)%bool;
     isfile := isfile f; listdir := listdir f;
     asset_plist := asset_plist f; dmg_entities := dmg_entities f |}.

(** [os.makedirs(p, exist_ok=True)] *)
Definition os_makedirs (p : string) : M unit :=
  run_cmd (Makedirs p) ;;
  modify (fun w => set_fs (force_exists p (fs w)) w).

(** [shutil.copytree(src, dst)] *)
Definition shutil_copytree (src dst : string) : M unit :=
  run_cmd (Copytree src dst) ;;
  modify (fun w => set_fs (force_exists dst (fs w)) w).

(** *** The disk-image utility *)

(** [hdiutil info -plist], read at ['images']. *)
Definition hdiutil_info : M (list image) :=
  run_cmd Hdiutil_info ;;
  gets images.

(** [hdiutil attach path -nobrowse -plist]: the image is listed from then
    on, with the entities reported. *)
Definition hdiutil_attach (path : string) : M (list entity) :=
  run_cmd (Hdiutil_attach path) ;;
  ents <- gets (fun w => dmg_entities (fs w) path) ;;
  modify (fun w =>
    set_images (images w ++ [{| image_path := path;
                                system_entities := ents |}]) w) ;;
  ret ents.

Definition mounted_at (mp : string) (e : entity) : bool :=
  match mount_point e with
  | Some p => String.eqb p mp
  | None => false
  end.

(** [hdiutil detach path -force]: the images mounted there are gone. *)
Definition hdiutil_detach (path : string) : M unit :=
  run_cmd (Hdiutil_detach path) ;;
  modify (fun w =>
    set_images
      (filter (fun i => negb (existsb (mounted_at path) (system_entities i)))
              (images w)) w).

(** ** Helpers shared by [DownloadMacOS] and [macOSDownloader]

    The disk-image helpers and the installer functions have the same text
    in [DownloadMacOS.py] and in [macOSDownloader.py]; they are embedded
    once. *)

Module Installer.

(** The first entity with a ['mount-point'] key, if any. *)
Fixpoint first_mount_point (entities : list entity) : option string :=
  match entities with
  | [] => None
  | info :: rest =>
      match mount_point info with
      | Some p => Some p
      | None => first_mount_point rest
      end
  end.

(** The two nested loops of [get_dmg_mount_point] over the current
    mounts. *)
Fixpoint scan_mounts (current_mounts : list image) (path : string)
  : option string :=
  match current_mounts with
  | [] => None
  | mount :: rest =>
      if String.eqb (image_path mount) path then
        match first_mount_point (system_entities mount) with
        | Some p => Some p
        | None => scan_mounts rest path
        end
      else scan_mounts rest path
  end.

Definition get_dmg_mount_point (path : string) : M (option string) :=
  current_mounts <- hdiutil_info ;;
  ret (scan_mounts current_mounts path).

(** [[d for d in output['system-entities'] if 'mount-point' in d][0]
    ['mount-point']] *)
Definition attached_mount_point (entities : list entity) : result string :=
  match first_mount_point entities with
  | Some p => Ok p
  | None => Raise IndexError
  end.

Definition mount_dmg (path : string) : M string :=
  mount_point <- get_dmg_mount_point path ;;
  if Py.truthy_opt mount_point then
    ret (match mount_point with Some p => p | None => EmptyString end)
  else
    output <- try_except (hdiutil_attach path)
                (raise (ProcessorError ("Could not mount " ++ path))) ;;
    lift (attached_mount_point output).

Definition unmount_dmg (path : string) : M unit :=
  hdiutil_detach path.

(** [self.get_plist_key(path, key)]: neither class defines a method of
    that name and the base class [Processor] has none, so looking the
    attribute up on [self] raises [AttributeError] before anything is
    read. *)
Definition get_plist_key (path key : string) : M string :=
  raise AttributeError.

(** [plistlib.readPlist(path)] followed by [info['Assets'][0]['OSVersion']] *)
Definition read_asset_version (info_plist_path : string) : M string :=
  fun w =>
    (match asset_plist (fs w) info_plist_path with
     | None => Raise (OSError "readPlist")
     | Some info =>
         match Assets info with
         | None => Raise KeyError
         | Some assets =>
             match assets with
             | [] => Raise IndexError
             | a :: _ =>
                 match OSVersion a with
                 | None => Raise KeyError
                 | Some v => Ok v
                 end
             end
         end
     end, w).

(** The three paths that [get_os_version] builds. *)
Definition installinfo_plist (app_path : string) : string :=
  Py.path_join app_path ["Contents/SharedSupport/InstallInfo.plist"].

Definition sharedsupport_dmg (app_path : string) : string :=
  Py.path_join app_path ["Contents/SharedSupport/SharedSupport.dmg"].

Definition info_plist_path (mountpoint : string) : string :=
  Py.path_join mountpoint
    ["com_apple_MobileAsset_MacSoftwareUpdate";
     "com_apple_MobileAsset_MacSoftwareUpdate.xml"].

Definition get_os_version (app_path : string) : M string :=
  has_info <- os_path_isfile (installinfo_plist app_path) ;;
  if has_info then
    get_plist_key (installinfo_plist app_path) "System Image Info:version"
  else
    has_dmg <- os_path_isfile (sharedsupport_dmg app_path) ;;
    if has_dmg then
      mountpoint <- mount_dmg (sharedsupport_dmg app_path) ;;
      if Py.truthy mountpoint then
        try_finally
          (try_except (read_asset_version (info_plist_path mountpoint))
                      (ret EmptyString))
          (unmount_dmg mountpoint)
      else ret EmptyString
    else ret EmptyString.

(** The loop of [get_local_installer] over the directory listing. *)
Fixpoint scan_installers (dir : string) (items : list string)
  (version : string) : M (option string) :=
  match items with
  | [] => ret None
  | item :: rest =>
      let item_path := Py.path_join dir [item] in
      let startosinstall_path :=
        Py.path_join item_path ["Contents/Resources/startosinstall"] in
      found <- os_path_exists startosinstall_path ;;
      if found then
        local_version <- get_os_version item_path ;;
        same <- lift (LooseVersion.eq local_version version) ;;
        if same then ret (Some item_path)
        else scan_installers dir rest version
      else scan_installers dir rest version
  end.

Definition get_local_installer (dir version : string) : M (option string) :=
  items <- os_listdir dir ;;
  scan_installers dir items version.

End Installer.

(** ** The catalog listing *)

Module Catalog.

(** An update record: the dictionary with keys ["name"], ["version"] and
    ["size"]. The size is an [int] in [DownloadMacOS] and a [str] in
    [macOSReleaseProvider]. *)
Record update (S : Type) : Type := {
  name : string;
  version : string;
  size : S
}.

Arguments name {S} u.
Arguments version {S} u.
Arguments size {S} u.

(** [[s.split(':')[1].strip() for s in line.split(',')]], the same in both
    processors. *)
Definition update_info (line : string) : result (list string) :=
  map_result
    (fun s => rbind (Py.getitem (Py.split ":"%char s) 1)
                    (fun v => Ok (Py.strip v)))
    (Py.split ","%char line).

(** [subprocess.run([softwareupdate, --list-full-installers], stdout=PIPE)]
    and the decoded output; the exit status is part of the outcome. *)
Definition softwareupdate_list : M (Z * string) :=
  fun w =>
    (match catalog w with
     | LaunchFailed e => Raise e
     | Completed rc out => Ok (rc, out)
     end, log_event Softwareupdate_list w).

(** The parsing loop: every line with the marker is parsed and appended. *)
Section Loop.
Context {S : Type} (make : string -> result (update S)).

Fixpoint parse_lines (lines : list string) (update_list : list (update S))
  : result (list (update S)) :=
  match lines with
  | [] => Ok update_list
  | line :: rest =>
      if Py.contains "Version" line then
        match make line with
        | Ok u => parse_lines rest (update_list ++ [u])
        | Raise e => Raise e
        end
      else parse_lines rest update_list
  end.
End Loop.

End Catalog.

(** ** [DownloadMacOS.py] *)

Module DownloadMacOS.

Import Catalog.

Definition mount_dmg := Installer.mount_dmg.
Definition unmount_dmg := Installer.unmount_dmg.
Definition get_os_version := Installer.get_os_version.
Definition get_local_installer := Installer.get_local_installer.

(** The dictionary built from one line: the size is the number before the
    trailing [K]s, times 1000. *)
Definition make_update (line : string) : result (update Z) :=
  (let? info := update_info line in
   let? n := Py.getitem info 0 in
   let? v := Py.getitem info 1 in
   let? s := Py.getitem info 2 in
   let? k := Py.int (Py.rstrip_K s) in
   Ok {| name := n; version := v; size := k * 1000 |})%res.

Definition json_of_update (u : update Z) : list (string * string) :=
  [("name", Py.json_str (name u));
   ("version", Py.json_str (version u));
   ("size", Py.str_of_int (size u))].

Definition get_update : M (update Z) :=
  result <- try_wrap softwareupdate_list ;;
  update_list <-
    lift (parse_lines make_update (Py.split Py.newline (snd result)) []) ;;
  match update_list with
  | [] => raise (ProcessorError "No updates have been found")
  | _ =>
      let update_list := Py.sorted_reverse (@version Z) update_list in
      update <- lift (Py.getitem update_list 0) ;;
      verbosity <- gets (fun w => verbose (env w)) ;;
      (if 2 <=? verbosity then
         output ("The following updates have been found: "
                 ++ Py.json_list_of_dicts (map json_of_update update_list))
       else ret tt) ;;
      output ("Latest version found is " ++ name update ++ " "
              ++ version update) ;;
      ret update
  end.

Definition download_macos (update : update Z) : M string :=
  try_wrap (run_cmd (Softwareupdate_fetch (version update))) ;;
  installer <- get_local_installer "/Applications" (version update) ;;
  match installer with
  | Some p =>
      if Py.truthy p then ret p
      else raise (ProcessorError
             "Download was not successful or cannot find downloaded item")
  | None =>
      raise (ProcessorError
        "Download was not successful or cannot find downloaded item")
  end.

(** The keys that [main] writes, the [output_variables] of the processor.
    The size is an [int] here, so these keys are kept in a record of their
    own, which [main] threads beside the world; [main] reads none of
    them. *)
Record Outputs : Type := {
  out_version : option string;
  out_pathname : option string;
  out_release : option string;
  out_size : option Z;
  out_changed : option bool
}.

Definition with_out_changed (b : bool) (o : Outputs) : Outputs :=
  {| out_version := out_version o; out_pathname := out_pathname o;
     out_release := out_release o; out_size := out_size o;
     out_changed := Some b |}.

(** The four assignments that end [main]. *)
Definition with_out_result (installer : string) (update : update Z)
  (o : Outputs) : Outputs :=
  {| out_version := Some (version update);
     out_pathname := Some installer;
     out_release := Some (name update);
     out_size := Some (size update);
     out_changed := out_changed o |}.

Definition main (o : Outputs) (w : World) : result unit * Outputs * World :=
  match (output "Querying software update for macOS installers" ;;
         get_update) w with
  | (Raise e, w) => (Raise e, o, w)
  | (Ok update, w) =>
      let o := with_out_changed false o in
      match (output ("Checking " ++ Py.dquote ++ "/Applications" ++ Py.dquote
                     ++ " for the correct installer") ;;
             get_local_installer "/Applications" (version update)) w with
      | (Raise e, w) => (Raise e, o, w)
      | (Ok installer, w) =>
          if Py.truthy_opt installer then
            let found :=
              match installer with Some p => p | None => EmptyString end in
            match output ("Version already on system at " ++ found) w with
            | (_, w) => (Ok tt, with_out_result found update o, w)
            end
          else
            let o := with_out_changed true o in
            match (output ("Downloading macOS " ++ name update ++ " "
                           ++ version update ++ " (Size: "
                           ++ Py.str_of_int (size update) ++ ")") ;;
                   download_macos update) w with
            | (Raise e, w) => (Raise e, o, w)
            | (Ok installer, w) =>
                (Ok tt, with_out_result installer update o, w)
            end
      end
  end.

End DownloadMacOS.

(** ** [macOSReleaseProvider.py] *)

Module macOSReleaseProvider.

Import Catalog.

(** The dictionary built from one line: the size is kept as written. *)
Definition make_update (line : string) : result (update string) :=
  (let? info := update_info line in
   let? n := Py.getitem info 0 in
   let? v := Py.getitem info 1 in
   let? s := Py.getitem info 2 in
   Ok {| name := n; version := v; size := s |})%res.

Definition json_of_update (u : update string) : list (string * string) :=
  [("name", Py.json_str (name u));
   ("version", Py.json_str (version u));
   ("size", Py.json_str (size u))].

Definition get_update : M (update string) :=
  result <- try_wrap softwareupdate_list ;;
  update_list <-
    lift (parse_lines make_update (Py.split Py.newline (snd result)) []) ;;
  match update_list with
  | [] => raise (ProcessorError "Could not receive or parse updates")
  | _ =>
      let update_list := Py.sorted_reverse (@version string) update_list in
      update <- lift (Py.getitem update_list 0) ;;
      verbosity <- gets (fun w => verbose (env w)) ;;
      (if 3 <=? verbosity then
         output ("The following updates have been found: "
                 ++ Py.json_list_of_dicts (map json_of_update update_list))
       else ret tt) ;;
      output ("Latest version found is " ++ name update ++ " "
              ++ version update) ;;
      ret update
  end.

Definition main : M unit :=
  output "Querying software update for macOS installers" ;;
  update <- get_update ;;
  set_key (with_version (Catalog.version update)) ;;
  set_key (with_release (Catalog.name update)) ;;
  set_key (with_size (Catalog.size update)).

End macOSReleaseProvider.

(** ** [macOSDownloader.py] *)

Module macOSDownloader.

Definition mount_dmg := Installer.mount_dmg.
Definition unmount_dmg := Installer.unmount_dmg.
Definition get_os_version := Installer.get_os_version.
Definition get_local_installer := Installer.get_local_installer.

Definition download_macos : M string :=
  target <- gets (fun w => version (env w)) ;;
  try_wrap (run_cmd (Softwareupdate_fetch target)) ;;
  target <- gets (fun w => version (env w)) ;;
  installer <- get_local_installer "/Applications" target ;;
  match installer with
  | Some p =>
      if Py.truthy p then ret p
      else raise (ProcessorError
             "Download was not successful or cannot find downloaded item")
  | None =>
      raise (ProcessorError
        "Download was not successful or cannot find downloaded item")
  end.

(** The two paths that [main] builds from its inputs. *)
Definition cache_path (e : Env) : string :=
  Py.path_join (RECIPE_CACHE_DIR e) ["downloads"; version e].

Definition installer_cache_path (e : Env) : string :=
  Py.path_join (cache_path e) ["Install " ++ release e ++ ".app"].

Definition main : M unit :=
  e <- gets env ;;
  let cache_path := cache_path e in
  let installer_cache_path := installer_cache_path e in
  set_key (with_cache_dir cache_path) ;;
  set_key (with_pathname installer_cache_path) ;;
  set_key (with_changed false) ;;
  cached <- os_path_exists installer_cache_path ;;
  if cached then
    output ("Using chached version at " ++ installer_cache_path)
  else
    output ("No cached installer found. Checking " ++ Py.dquote
            ++ "/Applications" ++ Py.dquote ++ " for the correct installer") ;;
    set_key (with_changed true) ;;
    target <- gets (fun w => version (env w)) ;;
    installer <- get_local_installer "/Applications" target ;;
    installer <-
      (if Py.truthy_opt installer then
         let found := match installer with Some p => p | None => EmptyString end in
         output ("Version already on system at " ++ found) ;;
         ret found
       else
         e <- gets env ;;
         output ("Downloading macOS " ++ release e ++ " " ++ version e
                 ++ " (Size: " ++ size e ++ ")") ;;
         installer <- download_macos ;;
         e <- gets env ;;
         set_key (with_summary
           ("New version of macOS has been downloaded",
            [("release", release e);
             ("version", version e);
             ("download_path",
              match pathname e with Some p => p | None => EmptyString end)])) ;;
         ret installer) ;;
    output "Creating copy for cache" ;;
    os_makedirs (Py.path_join cache_path []) ;;
    shutil_copytree installer installer_cache_path.

End macOSDownloader.

(** ** The specification's own notions *)

Module Spec.

(** Dotted-numeric-component comparison, as the specification words it:
    the version is cut at the dots, every component is read as a number,
    the components are compared left to right, and a missing trailing
    component counts as zero. It is undefined ([None]) when a component is
    not a number. *)
Definition components (v : string) : option (list Z) :=
  match map_result Py.int (Py.split "."%char v) with
  | Ok l => Some l
  | Raise _ => None
  end.

(** Nothing against [b]: every missing component counts as zero. *)
Fixpoint compare_missing (b : list Z) : comparison :=
  match b with
  | [] => Eq
  | y :: b' =>
      match Z.compare 0 y with Eq => compare_missing b' | c => c end
  end.

Fixpoint compare_components (a b : list Z) : comparison :=
  match a with
  | [] => compare_missing b
  | x :: a' =>
      match b with
      | [] =>
          match Z.compare x 0 with Eq => compare_components a' [] | c => c end
      | y :: b' =>
          match Z.compare x y with Eq => compare_components a' b' | c => c end
      end
  end.

Definition dotted_compare (v1 v2 : string) : option comparison :=
  match components v1, components v2 with
  | Some a, Some b => Some (compare_components a b)
  | _, _ => None
  end.

(** [v1] is greater than or equal to [v2] under dotted comparison. *)
Definition dotted_ge (v1 v2 : string) : bool :=
  match dotted_compare v1 v2 with
  | Some Lt | None => false
  | Some _ => true
  end.

(** The lines of a listing that carry the marker. *)
Definition version_lines (stdout : string) : list string :=
  filter (Py.contains "Version") (Py.split Py.newline stdout).

(** Whether a character occurs in a string. *)
Fixpoint has_char (c : ascii) (s : string) : bool :=
  match s with
  | EmptyString => false
  | String d r => (Ascii.eqb d c || has_char c r)%bool
  end.

(** A well-shaped catalog line: at least three comma-separated segments,
    each of them with a colon. *)
Definition well_shaped (line : string) : bool :=
  let segments := Py.split ","%char line in
  ((3 <=? length segments)%nat && forallb (has_char ":"%char) segments)%bool.

(** The value of the third segment: the text between its first and second
    colon, trimmed. *)
Definition third_value (line : string) : string :=
  Py.strip
    (nth 1 (Py.split ":"%char (nth 2 (Py.split ","%char line) EmptyString))
         EmptyString).

(** A decimal integer as text, told from its characters alone: an optional
    sign, then one or more groups of decimal digits joined by single
    underscores, the whole possibly between blanks. *)
Definition decimal_digit (c : ascii) : bool :=
  existsb (Ascii.eqb c)
    ["0"; "1"; "2"; "3"; "4"; "5"; "6"; "7"; "8"; "9"]%char.

(** Tab, line feed, vertical tab, form feed, carriage return, space, next
    line and no-break space. *)
Definition blank (c : ascii) : bool :=
  existsb (fun n => Ascii.eqb c (ascii_of_nat n))
    [9; 10; 11; 12; 13; 32; 133; 160]%nat.

Fixpoint all_chars (p : ascii -> bool) (s : string) : bool :=
  match s with
  | EmptyString => true
  | String c r => (p c && all_chars p r)%bool
  end.

Definition digit_group (g : string) : bool :=
  (negb (String.eqb g EmptyString) && all_chars decimal_digit g)%bool.

Definition unsigned_part (s : string) : string :=
  match s with
  | EmptyString => EmptyString
  | String c r =>
      if (Ascii.eqb c "+"%char || Ascii.eqb c "-"%char)%bool then r else s
  end.

Definition decimal_integer (s : string) : bool :=
  forallb digit_group
    (Py.split "_"%char
       (unsigned_part (Py.rstrip_by blank (Py.lstrip_by blank s)))).

(** Well-shaped for the byte-converting variant: moreover the third value
    without its trailing [K] is a decimal integer. *)
Definition well_shaped_sized (line : string) : bool :=
  (well_shaped line && decimal_integer (Py.rstrip_K (third_value line)))%bool.

(** The command failed: it could not be executed, or it exited with a
    non-zero status. *)
Definition command_failed (o : run_outcome) : bool :=
  match o with
  | LaunchFailed _ => true
  | Completed rc _ => negb (rc =? 0)
  end.

(** A trace that holds a download or a copy. *)
Definition downloads_or_copies (evs : list event) : bool :=
  existsb (fun ev =>
             match ev with
             | Softwareupdate_fetch _ | Copytree _ _ => true
             | _ => false
             end) evs.


(** A trace that holds a mount or an unmount. *)
Definition mounts_or_unmounts (evs : list event) : bool :=
  existsb (fun ev =>
             match ev with
             | Hdiutil_attach _ | Hdiutil_detach _ => true
             | _ => false
             end) evs.


(** The nested asset version of a mounted support image: the [OSVersion]
    of the first asset of the descriptor under the mount point, if the
    descriptor can be read and has one. *)
Definition nested_version (f : FS) (mountpoint : string) : option string :=
  match asset_plist f (Installer.info_plist_path mountpoint) with
  | Some {| Assets := Some (a :: _) |} => OSVersion a
  | _ => None
  end.

(** The images that remain listed once a mount point is detached. *)
Definition without_mount (mountpoint : string) (imgs : list image)
  : list image :=
  filter (fun i => negb (existsb (mounted_at mountpoint) (system_entities i)))
         imgs.

(** The world after a run of the cache manager that found its cache
    entry: the three outputs are set, one line is logged, and nothing else
    has happened. *)
Definition cache_hit (w : World) : World :=
  log_event
    (Output ("Using chached version at "
             ++ macOSDownloader.installer_cache_path (env w)))
    (set_env
       (with_changed false
          (with_pathname (macOSDownloader.installer_cache_path (env w))
             (with_cache_dir (macOSDownloader.cache_path (env w)) (env w))))
       w).

(** The events that a computation adds to the trace of a world. *)
Definition new_events {A} (c : M A) (w : World) : list event :=
  skipn (length (trace w)) (trace (snd (c w))).

(** The inputs of the cache manager. *)
Definition same_inputs (e e' : Env) : Prop :=
  RECIPE_CACHE_DIR e = RECIPE_CACHE_DIR e'
  /\ version e = version e'
  /\ release e = release e'.

(** A logged line, as opposed to an external command. *)
Definition is_output (ev : event) : bool :=
  match ev with
  | Output _ => true
  | _ => false
  end.

(** The record of the combined downloader and the record of the standalone
    resolver stand for the same offer: same name, same version, and the
    integer size is the raw size without its trailing [K]s, times 1000. *)
Definition same_offer (u : Catalog.update Z) (u' : Catalog.update string)
  : Prop :=
  Catalog.name u = Catalog.name u'
  /\ Catalog.version u = Catalog.version u'
  /\ exists k, Py.int (Py.rstrip_K (Catalog.size u')) = Ok k
               /\ Catalog.size u = k * 1000.

(** A string that does not start with a character to strip. *)
Definition starts_clean (p : ascii -> bool) (s : string) : bool :=
  match s with
  | EmptyString => true
  | String c _ => negb (p c)
  end.

(** A clean field: no comma, no colon, and no whitespace at either end. *)
Definition clean_field (x : string) : bool :=
  (negb (has_char ","%char x) && negb (has_char ":"%char x)
   && String.eqb (Py.strip x) x)%bool.

(** The utility lists an image with this path that has a mount point. *)
Definition listed_with_mount (path : string) (imgs : list image) : bool :=
  existsb (fun i =>
             (String.eqb (image_path i) path
              && existsb (fun e => match mount_point e with
                                   | Some _ => true
                                   | None => false
                                   end) (system_entities i))%bool) imgs.

(** The marker file of an installer bundle in a directory. *)
Definition startosinstall_path (dir item : string) : string :=
  Py.path_join (Py.path_join dir [item])
    ["Contents/Resources/startosinstall"].

(** No entry of the list is an installer bundle. *)
Definition no_installer_bundle (f : FS) (dir : string) (items : list string)
  : bool :=
  forallb (fun item => negb (path_exists f (startosinstall_path dir item)))
          items.

(** The commands of the disk-image utility. *)
Definition is_hdiutil (ev : event) : bool :=
  match ev with
  | Hdiutil_info | Hdiutil_attach _ | Hdiutil_detach _ => true
  | _ => false
  end.

(** The download command. *)
Definition is_fetch (ev : event) : bool :=
  match ev with
  | Softwareupdate_fetch _ => true
  | _ => false
  end.

(** What locating an installer may add to the trace. *)
Definition locating (ev : event) : bool :=
  (is_hdiutil ev || is_output ev)%bool.

(** The keys of [env] other than the summary of the download. *)
Definition env_core (e : Env)
  : string * Z * string * string * string
    * option string * option string * option bool :=
  (RECIPE_CACHE_DIR e, verbose e, version e, release e, size e,
   cache_dir e, pathname e, changed e).

(** The moments at which the applications directory is listed.

    In the cache manager, after a cache miss: the three keys are set, the
    miss is logged and [changed] is true when the directory is listed for
    the first time; it is listed again right after the download command. *)
Definition miss_scan_world (w : World) : World :=
  let e := env w in
  set_env
    (with_changed true
       (with_changed false
          (with_pathname (macOSDownloader.installer_cache_path e)
             (with_cache_dir (macOSDownloader.cache_path e) e))))
    (log_event
       (Output ("No cached installer found. Checking " ++ Py.dquote
                ++ "/Applications" ++ Py.dquote
                ++ " for the correct installer")) w).

Definition miss_fetch_world (w : World) : World :=
  after (Softwareupdate_fetch (version (env w)))
    (log_event
       (Output ("Downloading macOS " ++ release (env w) ++ " "
                ++ version (env w) ++ " (Size: " ++ size (env w) ++ ")"))
       (snd (Installer.get_local_installer "/Applications" (version (env w))
               (miss_scan_world w)))).

(** In the combined processor: after the resolution, and again right
    after the download command for the record [u]. *)
Definition resolved_scan_world (w : World) : World :=
  log_event
    (Output ("Checking " ++ Py.dquote ++ "/Applications" ++ Py.dquote
             ++ " for the correct installer"))
    (snd (DownloadMacOS.get_update
            (log_event
               (Output "Querying software update for macOS installers") w))).

Definition resolved_fetch_world (u : Catalog.update Z) (w : World) : World :=
  after (Softwareupdate_fetch (Catalog.version u))
    (log_event
       (Output ("Downloading macOS " ++ Catalog.name u ++ " "
                ++ Catalog.version u ++ " (Size: "
                ++ Py.str_of_int (Catalog.size u) ++ ")"))
       (snd (Installer.get_local_installer "/Applications"
               (Catalog.version u) (resolved_scan_world w)))).

End Spec.

(** ** Worlds used in the examples *)

Module Examples.

Definition nl : string := String Py.newline EmptyString.

Definition monterey_line : string :=
  "Title: macOS Monterey, Version: 12.3, Size: 9453092K".

Definition empty_fs : FS :=
  {| path_exists := fun _ => false;
     isfile := fun _ => false;
     listdir := fun _ => Raise FileNotFoundError;
     asset_plist := fun _ => None;
     dmg_entities := fun _ => [] |}.

Definition env0 : Env :=
  {| RECIPE_CACHE_DIR := "/cache"; verbose := 1;
     version := "12.3"; release := "macOS Monterey"; size := "9453092K";
     cache_dir := None; pathname := None; changed := None;
     macOSDownloader_summary_result := None |}.

(** Every command succeeds and leaves the file system as it is. *)
Definition calm : list event -> event -> FS -> option exn * FS :=
  fun _ _ f => (None, f).

(** A machine on which the catalog command has the given outcome. *)
Definition listing_world (o : run_outcome) : World :=
  {| env := env0; fs := empty_fs; images := []; catalog := o;
     react := calm; trace := [] |}.

(** A listing that offers 12.9 and 12.10. *)
Definition two_versions : string :=
  "Finding available software" ++ nl
  ++ "* Title: macOS Monterey, Version: 12.9, Size: 9453092K" ++ nl
  ++ "* Title: macOS Monterey, Version: 12.10, Size: 9453093K" ++ nl.

(** A listing without any offer. *)
Definition no_offer : string :=
  "Finding available software" ++ nl ++ "No new software available." ++ nl.

(** An installer bundle in the applications directory. *)
Definition installer_app : string :=
  "/Applications/Install macOS Monterey.app".

(** A bundle with the direct descriptor. *)
Definition legacy_fs : FS :=
  {| path_exists := fun _ => false;
     isfile := fun p => String.eqb p (Installer.installinfo_plist installer_app);
     listdir := fun _ => Raise FileNotFoundError;
     asset_plist := fun _ => None;
     dmg_entities := fun _ => [] |}.

Definition legacy_world : World :=
  {| env := env0; fs := legacy_fs; images := [];
     catalog := Completed 0 EmptyString; react := calm; trace := [] |}.

(** A bundle with the embedded support image only; [doc] is what reading
    the asset descriptor inside the mounted image gives. *)
Definition support_volume : string := "/Volumes/Shared Support".

Definition embedded_fs (doc : option asset_catalog) : FS :=
  {| path_exists := fun _ => false;
     isfile := fun p => String.eqb p (Installer.sharedsupport_dmg installer_app);
     listdir := fun _ => Raise FileNotFoundError;
     asset_plist := fun p =>
       if String.eqb p (Installer.info_plist_path support_volume)
       then doc else None;
     dmg_entities := fun p =>
       if String.eqb p (Installer.sharedsupport_dmg installer_app)
       then [{| dev_entry := "/dev/disk4"; mount_point := None |};
             {| dev_entry := "/dev/disk4s1";
                mount_point := Some support_volume |}]
       else [] |}.

Definition monterey_assets : asset_catalog :=
  {| Assets := Some [{| OSVersion := Some "12.3" |}] |}.

(** The forced detach fails; every other command succeeds. *)
Definition stuck : list event -> event -> FS -> option exn * FS :=
  fun _ ev f =>
    (match ev with
     | Hdiutil_detach _ => Some CalledProcessError
     | _ => None
     end, f).

Definition embedded_world (doc : option asset_catalog)
  (r : list event -> event -> FS -> option exn * FS) : World :=
  {| env := env0; fs := embedded_fs doc; images := [];
     catalog := Completed 0 EmptyString; react := r; trace := [] |}.

(** The applications directory holds the Monterey installer, whose version
    is in its embedded support image; nothing is cached yet. *)
Definition applications_fs : FS :=
  {| path_exists := fun p =>
       String.eqb p (Py.path_join installer_app
                       ["Contents/Resources/startosinstall"]);
     isfile := isfile (embedded_fs (Some monterey_assets));
     listdir := fun p =>
       if String.eqb p "/Applications"
       then Ok ["Safari.app"; "Install macOS Monterey.app"]
       else Raise FileNotFoundError;
     asset_plist := asset_plist (embedded_fs (Some monterey_assets));
     dmg_entities := dmg_entities (embedded_fs (Some monterey_assets)) |}.

Definition fresh_cache_world : World :=
  {| env := env0; fs := applications_fs; images := [];
     catalog := Completed 0 EmptyString; react := calm; trace := [] |}.

(** A listing that offers 12.9 twice, under two names, around 12.10. *)
Definition tied_versions : string :=
  "* Title: macOS Monterey, Version: 12.10, Size: 9453093K" ++ nl
  ++ "* Title: macOS Monterey A, Version: 12.9, Size: 9453092K" ++ nl
  ++ "* Title: macOS Monterey B, Version: 12.9, Size: 9453094K" ++ nl.

(** The support image of the installer is mounted already. *)
Definition premounted_world : World :=
  {| env := env0; fs := embedded_fs (Some monterey_assets);
     images :=
       [{| image_path := "/Users/Shared/other.dmg";
           system_entities :=
             [{| dev_entry := "/dev/disk3s1";
                 mount_point := Some "/Volumes/Other" |}] |};
        {| image_path := Installer.sharedsupport_dmg installer_app;
           system_entities :=
             [{| dev_entry := "/dev/disk4"; mount_point := None |};
              {| dev_entry := "/dev/disk4s1";
                 mount_point := Some support_volume |}] |}];
     catalog := Completed 0 EmptyString; react := calm; trace := [] |}.

(** The applications directory holds a bundle with the installer's marker
    but without any version metadata. *)
Definition bare_bundle_fs : FS :=
  {| path_exists := fun p =>
       String.eqb p (Spec.startosinstall_path "/Applications" "Install.app");
     isfile := fun _ => false;
     listdir := fun p =>
       if String.eqb p "/Applications"
       then Ok ["Install.app"; "Safari.app"]
       else Raise FileNotFoundError;
     asset_plist := fun _ => None;
     dmg_entities := fun _ => [] |}.

Definition bare_bundle_world : World :=
  {| env := env0; fs := bare_bundle_fs; images := [];
     catalog := Completed 0 EmptyString; react := calm; trace := [] |}.

(** The applications directory holds no installer at all. *)
Definition plain_apps_world : World :=
  {| env := env0;
     fs := {| path_exists := fun _ => false;
              isfile := fun _ => false;
              listdir := fun _ => Ok ["Safari.app"; "Mail.app"];
              asset_plist := fun _ => None;
              dmg_entities := fun _ => [] |};
     images := []; catalog := Completed 0 monterey_line; react := calm;
     trace := [] |}.

(** The catalog offers Monterey 12.3 and its installer is in the
    applications directory. *)
Definition combined_world : World :=
  set_catalog (Completed 0 monterey_line) fresh_cache_world.

Definition no_outputs : DownloadMacOS.Outputs :=
  {| DownloadMacOS.out_version := None; DownloadMacOS.out_pathname := None;
     DownloadMacOS.out_release := None; DownloadMacOS.out_size := None;
     DownloadMacOS.out_changed := None |}.

End Examples.

(** * Properties *)

(** ** The built-ins on small inputs *)

Example split_commas :
  Py.split ","%char "a:1, b:2,,c" = ["a:1"; " b:2"; ""; "c"].
Proof. reflexivity. Qed.

Example split_empty : Py.split ","%char "" = [""].
Proof. reflexivity. Qed.

Example strip_both : Py.strip "  12.3 " = "12.3".
Proof. reflexivity. Qed.

Example rstrip_K_all : Py.rstrip_K "12KK" = "12".
Proof. reflexivity. Qed.

Example int_plain : Py.int "9453092" = Ok 9453092.
Proof. reflexivity. Qed.

Example int_underscore : Py.int " -1_000 " = Ok (-1000).
Proof. reflexivity. Qed.

Example int_empty : Py.int "" = Raise ValueError.
Proof. reflexivity. Qed.

Example int_trailing_underscore : Py.int "1_" = Raise ValueError.
Proof. reflexivity. Qed.

Example int_no_break_space :
  Py.int (String (ascii_of_nat 160) "5 ") = Ok 5.
Proof. reflexivity. Qed.

Example int_unit_separator :
  Py.int (String "5" (String (ascii_of_nat 31) "")) = Raise ValueError
  /\ Py.strip (String "5" (String (ascii_of_nat 31) "")) = "5".
Proof. split; reflexivity. Qed.

Example join_plain :
  Py.path_join "/cache" ["downloads"; "12.3"] = "/cache/downloads/12.3".
Proof. reflexivity. Qed.

Example join_absolute : Py.path_join "/cache" ["/x"; "y"] = "/x/y".
Proof. reflexivity. Qed.

Example sorted_reverse_stable :
  Py.sorted_reverse fst [("b", 1); ("c", 2); ("b", 3); ("a", 4); ("c", 5)]
  = [("c", 2); ("c", 5); ("b", 1); ("b", 3); ("a", 4)].
Proof. reflexivity. Qed.

Example loose_version_components :
  LooseVersion.parse "12.10.1a-beta"
  = [LooseVersion.CInt 12; LooseVersion.CInt 10; LooseVersion.CInt 1;
     LooseVersion.CStr "a"; LooseVersion.CStr "-"; LooseVersion.CStr "beta"].
Proof. reflexivity. Qed.

Example loose_version_eq :
  LooseVersion.eq "12.03" "12.3" = Ok true
  /\ LooseVersion.eq "12.3" "12.3.0" = Ok false
  /\ LooseVersion.eq "" "12.3" = Raise AttributeError
  /\ LooseVersion.eq "12.a" "12.3" = Raise TypeError.
Proof. repeat split. Qed.

Example dotted_compare_12_9_12_10 :
  Spec.dotted_compare "12.9" "12.10" = Some Lt
  /\ Spec.dotted_compare "12.3" "12.3.0" = Some Eq
  /\ Py.str_lt "12.10" "12.9" = true.
Proof. repeat split. Qed.

(** ** The catalog resolver *)

Section CatalogFacts.

Import Catalog.

Context {S : Type} (make : string -> result (update S)).

(** Lines without the marker are skipped. *)
Lemma parse_lines_skip lines :
  forall acc,
    filter (Py.contains "Version") lines = [] ->
    parse_lines make lines acc = Ok acc.
Proof.
  induction lines as [|line rest IH]; intros acc Hf; simpl in *.
  - reflexivity.
  - destruct (Py.contains "Version" line); [discriminate | auto].
Qed.

(** A line with the marker that cannot be parsed aborts the loop. *)
Lemma parse_lines_raise lines :
  forall acc line,
    In line lines ->
    Py.contains "Version" line = true ->
    is_raise (make line) = true ->
    is_raise (parse_lines make lines acc) = true.
Proof.
  induction lines as [|l rest IH]; intros acc line Hin Hv Hr; simpl in *.
  - contradiction.
  - destruct Hin as [-> | Hin].
    + rewrite Hv. destruct (make line); [discriminate | reflexivity].
    + destruct (Py.contains "Version" l); [|eauto].
      destruct (make l); [eauto | reflexivity].
Qed.

(** The loop only raises what the parsing of a line raises. *)
Lemma parse_lines_raise_inv lines :
  forall acc e,
    parse_lines make lines acc = Raise e ->
    exists line, In line lines /\ Py.contains "Version" line = true
                 /\ make line = Raise e.
Proof.
  induction lines as [|l rest IH]; intros acc e H; simpl in *.
  - discriminate.
  - destruct (Py.contains "Version" l) eqn:Hv.
    + destruct (make l) as [u|e'] eqn:Hm.
      * destruct (IH _ _ H) as (line & ? & ? & ?). exists line; auto.
      * injection H as ->. exists l; auto.
    + destruct (IH _ _ H) as (line & ? & ? & ?). exists line; auto.
Qed.

End CatalogFacts.

Section CandidateFacts.

Import Catalog.

Context {S : Type} (make : string -> result (update S)).

(** The parsing loop is the parse of the marked lines, in the order of the
    listing, appended to what was collected before. *)
Lemma parse_lines_map_result lines :
  forall acc,
    parse_lines make lines acc
    = rbind (map_result make (filter (Py.contains "Version") lines))
            (fun l => Ok (acc ++ l)%list).
Proof.
  induction lines as [|line rest IH]; intros acc; simpl.
  - now rewrite app_nil_r.
  - destruct (Py.contains "Version" line); [|apply IH].
    simpl. destruct (make line) as [u|e]; [|reflexivity].
    rewrite IH. destruct (map_result make _) as [l|e]; simpl; [|reflexivity].
    now rewrite <- app_assoc.
Qed.

End CandidateFacts.

(** The candidates of [get_update] are the parses of the marked lines. *)
Lemma get_update_candidates_DownloadMacOS out :
  Catalog.parse_lines DownloadMacOS.make_update (Py.split Py.newline out) []
  = map_result DownloadMacOS.make_update (Spec.version_lines out).
Proof.
  rewrite parse_lines_map_result. unfold Spec.version_lines.
  destruct (map_result _ _); reflexivity.
Qed.

Lemma get_update_candidates_macOSReleaseProvider out :
  Catalog.parse_lines macOSReleaseProvider.make_update
    (Py.split Py.newline out) []
  = map_result macOSReleaseProvider.make_update (Spec.version_lines out).
Proof.
  rewrite parse_lines_map_result. unfold Spec.version_lines.
  destruct (map_result _ _); reflexivity.
Qed.

(** What [get_update] returns once the command has completed: the exit
    status plays no part. *)
Lemma DownloadMacOS_get_update_completed w rc out :
  catalog w = Completed rc out ->
  fst (DownloadMacOS.get_update w) =
  match Catalog.parse_lines DownloadMacOS.make_update
          (Py.split Py.newline out) [] with
  | Raise e => Raise e
  | Ok [] => Raise (ProcessorError "No updates have been found")
  | Ok (u :: l) =>
      Py.getitem (Py.sorted_reverse (@Catalog.version Z) (u :: l)) 0
  end.
Proof.
  intros Hc.
  unfold DownloadMacOS.get_update, bind, try_wrap, Catalog.softwareupdate_list,
    lift.
  rewrite Hc. cbn [snd fst].
  destruct (Catalog.parse_lines _ _ _) as [[|u l]|e]; try reflexivity.
  unfold raise, gets, output, modify, ret.
  destruct (Py.getitem _ 0); [|reflexivity].
  cbn [fst snd]. destruct (2 <=? _); reflexivity.
Qed.

Lemma macOSReleaseProvider_get_update_completed w rc out :
  catalog w = Completed rc out ->
  fst (macOSReleaseProvider.get_update w) =
  match Catalog.parse_lines macOSReleaseProvider.make_update
          (Py.split Py.newline out) [] with
  | Raise e => Raise e
  | Ok [] => Raise (ProcessorError "Could not receive or parse updates")
  | Ok (u :: l) =>
      Py.getitem (Py.sorted_reverse (@Catalog.version string) (u :: l)) 0
  end.
Proof.
  intros Hc.
  unfold macOSReleaseProvider.get_update, bind, try_wrap,
    Catalog.softwareupdate_list, lift.
  rewrite Hc. cbn [snd fst].
  destruct (Catalog.parse_lines _ _ _) as [[|u l]|e]; try reflexivity.
  unfold raise, gets, output, modify, ret.
  destruct (Py.getitem _ 0); [|reflexivity].
  cbn [fst snd]. destruct (3 <=? _); reflexivity.
Qed.

(** When the command cannot be executed, the exception is wrapped. *)
Lemma DownloadMacOS_get_update_launch_failed w err :
  catalog w = LaunchFailed err ->
  DownloadMacOS.get_update w
  = (Raise (ProcessorErrorFrom err), log_event Softwareupdate_list w).
Proof.
  intros Hc.
  unfold DownloadMacOS.get_update, bind, try_wrap, Catalog.softwareupdate_list.
  rewrite Hc. reflexivity.
Qed.

Lemma macOSReleaseProvider_get_update_launch_failed w err :
  catalog w = LaunchFailed err ->
  macOSReleaseProvider.get_update w
  = (Raise (ProcessorErrorFrom err), log_event Softwareupdate_list w).
Proof.
  intros Hc.
  unfold macOSReleaseProvider.get_update, bind, try_wrap,
    Catalog.softwareupdate_list.
  rewrite Hc. reflexivity.
Qed.

(** ** What the resolver selects *)

Lemma ascii_compare_lt_trans a b c :
  Ascii.compare a b = Lt -> Ascii.compare b c = Lt -> Ascii.compare a c = Lt.
Proof.
  unfold Ascii.compare. rewrite !N.compare_lt_iff. apply N.lt_trans.
Qed.

Lemma string_compare_lt_trans a :
  forall b c,
    String.compare a b = Lt -> String.compare b c = Lt ->
    String.compare a c = Lt.
Proof.
  induction a as [|x a IH]; intros [|y b] [|z c]; simpl; try congruence.
  destruct (Ascii.compare x y) eqn:Hxy; try discriminate.
  - apply Ascii.compare_eq_iff in Hxy as ->.
    destruct (Ascii.compare y z); try discriminate; auto. apply IH.
  - intros _. destruct (Ascii.compare y z) eqn:Hyz; try discriminate.
    + apply Ascii.compare_eq_iff in Hyz as <-. now rewrite Hxy.
    + intros _. now rewrite (ascii_compare_lt_trans _ _ _ Hxy Hyz).
Qed.

Lemma str_lt_irrefl a : Py.str_lt a a = false.
Proof.
  unfold Py.str_lt, String.ltb.
  pose proof (String.compare_antisym a a) as H.
  destruct (String.compare a a); simpl in H; congruence.
Qed.

Lemma str_lt_asym a b : Py.str_lt a b = true -> Py.str_lt b a = false.
Proof.
  unfold Py.str_lt, String.ltb. rewrite (String.compare_antisym b a).
  destruct (String.compare a b); simpl; congruence.
Qed.

(** [>=] on strings is transitive. *)
Lemma str_ge_trans a b c :
  Py.str_lt a b = false -> Py.str_lt b c = false -> Py.str_lt a c = false.
Proof.
  unfold Py.str_lt, String.ltb. intros Hab Hbc.
  destruct (String.compare a b) eqn:H1; try discriminate.
  - apply String.compare_eq_iff in H1 as ->. exact Hbc.
  - destruct (String.compare b c) eqn:H2; try discriminate.
    + apply String.compare_eq_iff in H2 as <-. now rewrite H1.
    + rewrite String.compare_antisym in H1, H2.
      assert (Hcb : String.compare c b = Lt)
        by (destruct (String.compare c b); simpl in H2; congruence).
      assert (Hba : String.compare b a = Lt)
        by (destruct (String.compare b a); simpl in H1; congruence).
      rewrite String.compare_antisym,
        (string_compare_lt_trans _ _ _ Hcb Hba).
      reflexivity.
Qed.

Section SortedFacts.

Context {A : Type} (key : A -> string).

(** The first element of the sorted list is in the list, and no key in the
    list is above its key. *)
Lemma sorted_reverse_head l x s :
  Py.sorted_reverse key l = x :: s ->
  In x l /\ forall y, In y l -> Py.str_lt (key x) (key y) = false.
Proof.
  revert x s. induction l as [|a t IH]; intros x s H; [discriminate|].
  cbn [Py.sorted_reverse fold_right] in H.
  change (fold_right (Py.insert_desc key) [] t)
    with (Py.sorted_reverse key t) in H.
  destruct (Py.sorted_reverse key t) as [|h r] eqn:Hs.
  - destruct t as [|b t'].
    + cbn in H. injection H as <- <-. split; [now left|].
      intros y [<- | []]. apply str_lt_irrefl.
    + cbn [Py.sorted_reverse fold_right] in Hs.
      destruct (fold_right (Py.insert_desc key) [] t') as [|h' r'];
        cbn in Hs; [discriminate|].
      destruct (Py.str_lt (key b) (key h')); discriminate.
  - destruct (IH _ _ eq_refl) as [Hin Hmax].
    cbn [Py.insert_desc] in H.
    destruct (Py.str_lt (key a) (key h)) eqn:Hlt; injection H as <- <-.
    + split; [now right|]. intros y [<- | Hy]; [|auto].
      now apply str_lt_asym.
    + split; [now left|]. intros y [<- | Hy]; [apply str_lt_irrefl|].
      eapply str_ge_trans; eauto.
Qed.

Lemma sorted_reverse_not_nil l : l <> [] -> Py.sorted_reverse key l <> [].
Proof.
  destruct l as [|a t]; [congruence|]. intros _.
  cbn [Py.sorted_reverse fold_right].
  destruct (fold_right (Py.insert_desc key) [] t) as [|h r]; cbn;
    [discriminate|].
  destruct (Py.str_lt (key a) (key h)); discriminate.
Qed.

End SortedFacts.

(** What both resolvers select, on every listing: a parsed record whose
    version string no other candidate's version string exceeds, in the
    order of strings. *)
Lemma DownloadMacOS_get_update_selects w rc out u :
  catalog w = Completed rc out ->
  fst (DownloadMacOS.get_update w) = Ok u ->
  exists update_list,
    Catalog.parse_lines DownloadMacOS.make_update
      (Py.split Py.newline out) [] = Ok update_list
    /\ In u update_list
    /\ forall y, In y update_list ->
                 Py.str_lt (Catalog.version u) (Catalog.version y) = false.
Proof.
  intros Hc. rewrite (DownloadMacOS_get_update_completed _ Hc).
  destruct (Catalog.parse_lines _ _ _) as [[|a t]|e]; try discriminate.
  unfold Py.getitem.
  destruct (Py.sorted_reverse (@Catalog.version Z) (a :: t)) as [|x s] eqn:Hs;
    [discriminate|].
  cbn. intros H. injection H as <-.
  exists (a :: t). split; [reflexivity|].
  eapply sorted_reverse_head; eauto.
Qed.

Lemma macOSReleaseProvider_get_update_selects w rc out u :
  catalog w = Completed rc out ->
  fst (macOSReleaseProvider.get_update w) = Ok u ->
  exists update_list,
    Catalog.parse_lines macOSReleaseProvider.make_update
      (Py.split Py.newline out) [] = Ok update_list
    /\ In u update_list
    /\ forall y, In y update_list ->
                 Py.str_lt (Catalog.version u) (Catalog.version y) = false.
Proof.
  intros Hc. rewrite (macOSReleaseProvider_get_update_completed _ Hc).
  destruct (Catalog.parse_lines _ _ _) as [[|a t]|e]; try discriminate.
  unfold Py.getitem.
  destruct (Py.sorted_reverse (@Catalog.version string) (a :: t))
    as [|x s] eqn:Hs; [discriminate|].
  cbn. intros H. injection H as <-.
  exists (a :: t). split; [reflexivity|].
  eapply sorted_reverse_head; eauto.
Qed.

(** C8. The catalog line
    [Title: macOS Monterey, Version: 12.3, Size: 9453092K] parses to the
    record with name [macOS Monterey] and version [12.3]; its size is the
    integer 9453092000 in the combined downloader and the raw string
    [9453092K] in the standalone resolver. A listing made of that line
    resolves to that record. *)
Theorem catalog_line_example :
  DownloadMacOS.make_update Examples.monterey_line
  = Ok {| Catalog.name := "macOS Monterey"; Catalog.version := "12.3";
          Catalog.size := 9453092000 |}
  /\ macOSReleaseProvider.make_update Examples.monterey_line
     = Ok {| Catalog.name := "macOS Monterey"; Catalog.version := "12.3";
             Catalog.size := "9453092K" |}
  /\ (forall w rc,
        fst (DownloadMacOS.get_update
               (set_catalog (Completed rc Examples.monterey_line) w))
        = Ok {| Catalog.name := "macOS Monterey"; Catalog.version := "12.3";
                Catalog.size := 9453092000 |})
  /\ (forall w rc,
        fst (macOSReleaseProvider.get_update
               (set_catalog (Completed rc Examples.monterey_line) w))
        = Ok {| Catalog.name := "macOS Monterey"; Catalog.version := "12.3";
                Catalog.size := "9453092K" |}).
Proof.
  repeat split.
  - intros w rc.
    rewrite (@DownloadMacOS_get_update_completed _ rc Examples.monterey_line)
      by reflexivity.
    reflexivity.
  - intros w rc.
    rewrite (@macOSReleaseProvider_get_update_completed _ rc
               Examples.monterey_line) by reflexivity.
    reflexivity.
Qed.

(** C9. When the output of the catalog listing has no line with the marker
    [Version], resolution fails with a [ProcessorError] that says that no
    update was found, in both processors, and returns no record. *)
Theorem no_version_line_not_found w rc out :
  catalog w = Completed rc out ->
  Spec.version_lines out = [] ->
  DownloadMacOS.get_update w
  = (Raise (ProcessorError "No updates have been found"),
     log_event Softwareupdate_list w)
  /\ macOSReleaseProvider.get_update w
     = (Raise (ProcessorError "Could not receive or parse updates"),
        log_event Softwareupdate_list w).
Proof.
  intros Hc Hv. unfold Spec.version_lines in Hv.
  unfold DownloadMacOS.get_update, macOSReleaseProvider.get_update, bind,
    try_wrap, Catalog.softwareupdate_list, lift.
  rewrite Hc. cbn [snd fst].
  rewrite !parse_lines_skip by assumption.
  split; reflexivity.
Qed.

Lemma no_version_line_not_found_witness :
  DownloadMacOS.get_update
    (Examples.listing_world (Completed 0 Examples.no_offer))
  = (Raise (ProcessorError "No updates have been found"),
     log_event Softwareupdate_list
       (Examples.listing_world (Completed 0 Examples.no_offer)))
  /\ macOSReleaseProvider.get_update
       (Examples.listing_world (Completed 0 Examples.no_offer))
     = (Raise (ProcessorError "Could not receive or parse updates"),
        log_event Softwareupdate_list
          (Examples.listing_world (Completed 0 Examples.no_offer))).
Proof.
  apply (@no_version_line_not_found
           (Examples.listing_world (Completed 0 Examples.no_offer))
           0 Examples.no_offer); reflexivity.
Defined.

(** C1, at the listing that offers 12.9 and 12.10. Both processors sort the
    candidates by the version string itself, so they select 12.9, which is
    below 12.10 under dotted-numeric-component comparison: the record
    returned is not the greatest one. *)
Theorem lexical_sort_selects_12_9 :
  fst (DownloadMacOS.get_update
         (Examples.listing_world (Completed 0 Examples.two_versions)))
  = Ok {| Catalog.name := "macOS Monterey"; Catalog.version := "12.9";
          Catalog.size := 9453092000 |}
  /\ fst (macOSReleaseProvider.get_update
            (Examples.listing_world (Completed 0 Examples.two_versions)))
     = Ok {| Catalog.name := "macOS Monterey"; Catalog.version := "12.9";
             Catalog.size := "9453092K" |}
  /\ Spec.version_lines Examples.two_versions
     = ["* Title: macOS Monterey, Version: 12.9, Size: 9453092K";
        "* Title: macOS Monterey, Version: 12.10, Size: 9453093K"]
  /\ Spec.dotted_ge "12.9" "12.10" = false
  /\ Spec.dotted_compare "12.10" "12.9" = Some Gt.
Proof. repeat split. Qed.

(** C3, as stated, fails: a catalog command that exits with status 1 and
    prints an offer yields a record in both processors. *)
Lemma nonzero_exit_still_resolves :
  Spec.command_failed (Completed 1 Examples.monterey_line) = true
  /\ fst (DownloadMacOS.get_update
            (Examples.listing_world (Completed 1 Examples.monterey_line)))
     = Ok {| Catalog.name := "macOS Monterey"; Catalog.version := "12.3";
             Catalog.size := 9453092000 |}
  /\ fst (macOSReleaseProvider.get_update
            (Examples.listing_world (Completed 1 Examples.monterey_line)))
     = Ok {| Catalog.name := "macOS Monterey"; Catalog.version := "12.3";
             Catalog.size := "9453092K" |}.
Proof. repeat split. Qed.

(** ** The shape of a catalog line *)

Lemma split_not_nil sep s : Py.split sep s <> [].
Proof.
  destruct s as [|c r]; simpl; [discriminate|].
  destruct (Ascii.eqb c sep); [discriminate|].
  destruct (Py.split sep r); discriminate.
Qed.

(** [s.split(':')[1]] exists exactly when [s] has a colon. *)
Lemma getitem_split_second sep s :
  is_raise (Py.getitem (Py.split sep s) 1) = negb (Spec.has_char sep s).
Proof.
  unfold Py.getitem.
  induction s as [|c r IH]; simpl; [reflexivity|].
  destruct (Ascii.eqb c sep) eqn:Hc; simpl.
  - destruct (Py.split sep r) eqn:Hs; [now apply split_not_nil in Hs|].
    reflexivity.
  - destruct (Py.split sep r) as [|h t] eqn:Hs;
      [now apply split_not_nil in Hs|].
    simpl in *. exact IH.
Qed.

Lemma getitem_nth {A} (l : list A) i d :
  (i < length l)%nat -> Py.getitem l i = Ok (nth i l d).
Proof.
  intros H. unfold Py.getitem.
  rewrite (nth_error_nth' l d H). reflexivity.
Qed.

Lemma getitem_raise {A} (l : list A) i :
  (length l <= i)%nat -> Py.getitem l i = Raise IndexError.
Proof.
  intros H. unfold Py.getitem.
  apply nth_error_None in H. now rewrite H.
Qed.

Lemma getitem_raises_IndexError {A} (l : list A) i e :
  Py.getitem l i = Raise e -> e = IndexError.
Proof.
  unfold Py.getitem. destruct (nth_error l i); congruence.
Qed.

Lemma int_raises_ValueError s e : Py.int s = Raise e -> e = ValueError.
Proof.
  unfold Py.int.
  destruct (match Py.rstrip_by Py.int_space (Py.lstrip_by Py.int_space s) with
            | String "-"%char r => option_map Z.opp (Py.int_digits 0 false r)
            | String "+"%char r => Py.int_digits 0 false r
            | _ => Py.int_digits 0 false
                     (Py.rstrip_by Py.int_space (Py.lstrip_by Py.int_space s))
            end); congruence.
Qed.

(** *** What [int] accepts

    [int] reads a text exactly when the text is a decimal integer in the
    sense of the grammar: the parser and the grammar are written
    independently, the parser character by character with a flag, the
    grammar by splitting at the underscores. *)

Lemma blank_int_space c : Spec.blank c = Py.int_space c.
Proof.
  destruct c as [[] [] [] [] [] [] [] []]; reflexivity.
Qed.

Lemma decimal_digit_isdigit c : Spec.decimal_digit c = Py.isdigit c.
Proof.
  destruct c as [[] [] [] [] [] [] [] []]; reflexivity.
Qed.

Lemma lstrip_by_pointwise p q s :
  (forall c, p c = q c) -> Py.lstrip_by p s = Py.lstrip_by q s.
Proof.
  intros H. induction s as [|c r IH]; simpl; [reflexivity|].
  rewrite H, IH. reflexivity.
Qed.

Lemma rstrip_by_pointwise p q s :
  (forall c, p c = q c) -> Py.rstrip_by p s = Py.rstrip_by q s.
Proof.
  intros H. induction s as [|c r IH]; simpl; [reflexivity|].
  rewrite H, IH. reflexivity.
Qed.

Lemma isdigit_not_underscore c :
  Py.isdigit c = true -> Ascii.eqb c "_"%char = false.
Proof.
  destruct (Ascii.eqb_spec c "_"%char) as [->|]; [discriminate|reflexivity].
Qed.

Lemma int_digits_groups r : forall acc seen,
  match Py.int_digits acc seen r with Some _ => true | None => false end
  = match Py.split "_"%char r with
    | g :: gs =>
        (Spec.all_chars Spec.decimal_digit g
         && (seen || negb (String.eqb g EmptyString))
         && forallb Spec.digit_group gs)%bool
    | [] => false
    end.
Proof.
  induction r as [|c r IH]; intros acc seen.
  - simpl. now destruct seen.
  - cbn [Py.int_digits Py.split].
    destruct (Py.isdigit c) eqn:Hd.
    + rewrite (isdigit_not_underscore _ Hd), IH.
      destruct (Py.split "_"%char r) as [|g gs] eqn:Hs;
        [exfalso; exact (@split_not_nil _ _ Hs)|].
      cbn [Spec.all_chars String.eqb negb].
      rewrite decimal_digit_isdigit, Hd.
      now rewrite !Bool.orb_true_r.
    + destruct (Ascii.eqb c "_"%char) eqn:Hu.
      * destruct seen.
        -- rewrite IH.
           destruct (Py.split "_"%char r) as [|g gs] eqn:Hs;
             [exfalso; exact (@split_not_nil _ _ Hs)|].
           cbn [Spec.all_chars String.eqb negb forallb orb andb].
           unfold Spec.digit_group.
           now rewrite (Bool.andb_comm (Spec.all_chars _ g)).
        -- destruct (Py.split "_"%char r) as [|g gs]; reflexivity.
      * destruct (Py.split "_"%char r) as [|g gs];
          cbn [Spec.all_chars]; rewrite decimal_digit_isdigit, Hd; reflexivity.
Qed.

Lemma int_digits_groups_unsigned r :
  match Py.int_digits 0 false r with Some _ => true | None => false end
  = forallb Spec.digit_group (Py.split "_"%char r).
Proof.
  rewrite int_digits_groups.
  destruct (Py.split "_"%char r) as [|g gs] eqn:Hs;
    [exfalso; exact (@split_not_nil _ _ Hs)|].
  cbn [forallb orb]. unfold Spec.digit_group.
  now rewrite (Bool.andb_comm (Spec.all_chars _ g)).
Qed.

Lemma int_accepts_decimal_integers s :
  negb (is_raise (Py.int s)) = Spec.decimal_integer s.
Proof.
  unfold Py.int, Spec.decimal_integer.
  rewrite (lstrip_by_pointwise Spec.blank Py.int_space s blank_int_space).
  rewrite (rstrip_by_pointwise Spec.blank Py.int_space _ blank_int_space).
  destruct (Py.rstrip_by Py.int_space (Py.lstrip_by Py.int_space s))
    as [|c r].
  - reflexivity.
  - destruct (Ascii.eqb_spec c "+"%char) as [->|Hp].
    + cbn [Spec.unsigned_part Ascii.eqb Bool.eqb orb].
      rewrite <- int_digits_groups_unsigned.
      now destruct (Py.int_digits 0 false r).
    + destruct (Ascii.eqb_spec c "-"%char) as [->|Hm].
      * cbn [Spec.unsigned_part Ascii.eqb Bool.eqb orb].
        rewrite <- int_digits_groups_unsigned.
        now destruct (Py.int_digits 0 false r).
      * unfold Spec.unsigned_part.
        destruct (Ascii.eqb_spec c "+"%char); [contradiction|].
        destruct (Ascii.eqb_spec c "-"%char); [contradiction|].
        cbn [orb]. rewrite <- int_digits_groups_unsigned.
        destruct c as [[] [] [] [] [] [] [] []];
          try (exfalso; apply Hp; reflexivity);
          try (exfalso; apply Hm; reflexivity);
          now destruct (Py.int_digits 0 false (String _ r)).
Qed.

Section MapResult.

Context {A B : Type} (f : A -> result B).

Lemma map_result_is_raise l :
  is_raise (map_result f l) = negb (forallb (fun x => negb (is_raise (f x))) l).
Proof.
  induction l as [|x t IH]; simpl; [reflexivity|].
  destruct (f x); simpl; [|reflexivity].
  destruct (map_result f t); simpl in *; exact IH.
Qed.

Lemma forallb_pointwise (p q : A -> bool) l :
  (forall x, p x = q x) -> forallb p l = forallb q l.
Proof.
  intros H. induction l as [|x t IH]; simpl; [reflexivity|].
  now rewrite H, IH.
Qed.

Lemma map_result_length l ys :
  map_result f l = Ok ys -> length ys = length l.
Proof.
  revert ys. induction l as [|x t IH]; simpl; intros ys H.
  - now injection H as <-.
  - destruct (f x); [|discriminate].
    destruct (map_result f t); [|discriminate].
    injection H as <-. simpl. f_equal. now apply IH.
Qed.

Lemma map_result_nth l ys i x :
  map_result f l = Ok ys ->
  nth_error l i = Some x ->
  exists y, f x = Ok y /\ nth_error ys i = Some y.
Proof.
  revert ys i. induction l as [|a t IH]; simpl; intros ys i H Hi.
  - destruct i; discriminate.
  - destruct (f a) as [b|] eqn:Hf; [|discriminate].
    destruct (map_result f t) as [bs|]; [|discriminate].
    injection H as <-. destruct i as [|i]; simpl in *.
    + injection Hi as <-. eauto.
    + eapply IH; eauto.
Qed.

Lemma map_result_raises l e :
  map_result f l = Raise e -> exists x, In x l /\ f x = Raise e.
Proof.
  induction l as [|a t IH]; simpl; intros H; [discriminate|].
  destruct (f a) as [b|e'] eqn:Hf.
  - destruct (map_result f t); [discriminate|].
    destruct (IH H) as (x & ? & ?). eauto.
  - injection H as ->. eauto.
Qed.

End MapResult.

(** The comprehension succeeds exactly when every segment has a colon. *)
Lemma update_info_is_raise line :
  is_raise (Catalog.update_info line)
  = negb (forallb (Spec.has_char ":"%char) (Py.split ","%char line)).
Proof.
  unfold Catalog.update_info. rewrite map_result_is_raise.
  f_equal. apply forallb_pointwise. intros s.
  pose proof (getitem_split_second ":"%char s) as H.
  destruct (Py.getitem (Py.split ":"%char s) 1);
    destruct (Spec.has_char ":"%char s); simpl in *; congruence.
Qed.

Lemma update_info_raises_IndexError line e :
  Catalog.update_info line = Raise e -> e = IndexError.
Proof.
  unfold Catalog.update_info. intros H.
  apply map_result_raises in H as (s & _ & H).
  destruct (Py.getitem (Py.split ":"%char s) 1) eqn:Hg; simpl in H.
  - discriminate.
  - injection H as <-. eapply getitem_raises_IndexError; eauto.
Qed.

(** The third field of a parsed line is the third value of the line. *)
Lemma update_info_third line info :
  Catalog.update_info line = Ok info ->
  (3 <= length info)%nat ->
  nth 2 info EmptyString = Spec.third_value line.
Proof.
  intros H Hlen. unfold Catalog.update_info in H.
  pose proof (map_result_length _ _ H) as Hl.
  assert (Hseg : nth_error (Py.split ","%char line) 2
                 = Some (nth 2 (Py.split ","%char line) EmptyString))
    by (apply nth_error_nth'; lia).
  destruct (map_result_nth _ _ _ H Hseg) as (y & Hy & Hn).
  rewrite (nth_error_nth _ _ _ Hn).
  unfold Spec.third_value.
  set (seg := nth 2 (Py.split ","%char line) EmptyString) in *.
  unfold Py.getitem in Hy.
  destruct (nth_error (Py.split ":"%char seg) 1) as [v|] eqn:Hv;
    simpl in Hy; [|discriminate].
  injection Hy as <-. now rewrite (nth_error_nth _ _ _ Hv).
Qed.

(** In the standalone resolver a line parses exactly when it is
    well-shaped. *)
Lemma macOSReleaseProvider_make_update_is_raise line :
  is_raise (macOSReleaseProvider.make_update line)
  = negb (Spec.well_shaped line).
Proof.
  unfold macOSReleaseProvider.make_update, Spec.well_shaped.
  pose proof (update_info_is_raise line) as Hr.
  destruct (Catalog.update_info line) as [info|e] eqn:Hi;
    cbn [rbind is_raise] in *.
  - assert (Hall : forallb (Spec.has_char ":"%char) (Py.split ","%char line)
                   = true)
      by (destruct (forallb _ _); [reflexivity | discriminate]).
    rewrite Hall, andb_true_r.
    rewrite <- (map_result_length _ _ Hi).
    destruct (Nat.leb_spec 3 (length info)) as [Hlen|Hlen].
    + rewrite !(getitem_nth _ EmptyString) by lia. reflexivity.
    + destruct info as [|a [|b [|c t]]]; simpl in Hlen; try lia; reflexivity.
  - assert (Hall : forallb (Spec.has_char ":"%char) (Py.split ","%char line)
                   = false)
      by (destruct (forallb _ _); [discriminate | reflexivity]).
    now rewrite Hall, andb_false_r.
Qed.

(** In the combined downloader a line parses exactly when it is
    well-shaped and its size is a decimal integer. *)
Lemma DownloadMacOS_make_update_is_raise line :
  is_raise (DownloadMacOS.make_update line)
  = negb (Spec.well_shaped_sized line).
Proof.
  unfold DownloadMacOS.make_update, Spec.well_shaped_sized, Spec.well_shaped.
  rewrite <- int_accepts_decimal_integers.
  pose proof (update_info_is_raise line) as Hr.
  destruct (Catalog.update_info line) as [info|e] eqn:Hi;
    cbn [rbind is_raise] in *.
  - assert (Hall : forallb (Spec.has_char ":"%char) (Py.split ","%char line)
                   = true)
      by (destruct (forallb _ _); [reflexivity | discriminate]).
    rewrite Hall, andb_true_r.
    rewrite <- (map_result_length _ _ Hi).
    destruct (Nat.leb_spec 3 (length info)) as [Hlen|Hlen].
    + rewrite !(getitem_nth _ EmptyString) by lia. cbn [rbind].
      rewrite (update_info_third _ Hi Hlen).
      destruct (Py.int _); reflexivity.
    + destruct info as [|a [|b [|c t]]]; simpl in Hlen; try lia; reflexivity.
  - assert (Hall : forallb (Spec.has_char ":"%char) (Py.split ","%char line)
                   = false)
      by (destruct (forallb _ _); [discriminate | reflexivity]).
    now rewrite Hall, andb_false_r.
Qed.

Lemma macOSReleaseProvider_make_update_raises line e :
  macOSReleaseProvider.make_update line = Raise e -> e = IndexError.
Proof.
  unfold macOSReleaseProvider.make_update. intros H.
  destruct (Catalog.update_info line) as [info|e'] eqn:Hi; simpl in H.
  - destruct (Py.getitem info 0) eqn:H0; simpl in H;
      [|injection H as <-; eapply getitem_raises_IndexError; eauto].
    destruct (Py.getitem info 1) eqn:H1; simpl in H;
      [|injection H as <-; eapply getitem_raises_IndexError; eauto].
    destruct (Py.getitem info 2) eqn:H2; simpl in H;
      [discriminate|injection H as <-; eapply getitem_raises_IndexError; eauto].
  - injection H as <-. eapply update_info_raises_IndexError; eauto.
Qed.

Lemma DownloadMacOS_make_update_raises line e :
  DownloadMacOS.make_update line = Raise e ->
  e = IndexError \/ e = ValueError.
Proof.
  unfold DownloadMacOS.make_update. intros H.
  destruct (Catalog.update_info line) as [info|e'] eqn:Hi; simpl in H.
  - destruct (Py.getitem info 0) eqn:H0; simpl in H;
      [|injection H as <-; left; eapply getitem_raises_IndexError; eauto].
    destruct (Py.getitem info 1) eqn:H1; simpl in H;
      [|injection H as <-; left; eapply getitem_raises_IndexError; eauto].
    destruct (Py.getitem info 2) eqn:H2; simpl in H;
      [|injection H as <-; left; eapply getitem_raises_IndexError; eauto].
    destruct (Py.int _) eqn:H3; simpl in H;
      [discriminate|injection H as <-; right; eapply int_raises_ValueError; eauto].
  - injection H as <-. left. eapply update_info_raises_IndexError; eauto.
Qed.

(** C10. Parsing is total only on well-shaped lines. A line with the marker
    [Version] parses exactly when it splits into at least three
    comma-separated segments that all hold a colon (and, in the combined
    downloader, when its third value without the trailing [K] is a decimal
    integer: an optional sign and groups of digits joined by single
    underscores, possibly between blanks). When the output holds a line with
    the marker that is not of that shape, [get_update] does not skip it: it
    raises [IndexError] (or [ValueError], for the size), which is not a
    [ProcessorError]. *)
Theorem malformed_version_line_raises w rc out line :
  catalog w = Completed rc out ->
  In line (Py.split Py.newline out) ->
  Py.contains "Version" line = true ->
  is_raise (macOSReleaseProvider.make_update line)
  = negb (Spec.well_shaped line)
  /\ is_raise (DownloadMacOS.make_update line)
     = negb (Spec.well_shaped_sized line)
  /\ (Spec.well_shaped line = false ->
      fst (macOSReleaseProvider.get_update w) = Raise IndexError)
  /\ (Spec.well_shaped_sized line = false ->
      fst (DownloadMacOS.get_update w) = Raise IndexError
      \/ fst (DownloadMacOS.get_update w) = Raise ValueError).
Proof.
  intros Hc Hin Hv.
  split; [apply macOSReleaseProvider_make_update_is_raise|].
  split; [apply DownloadMacOS_make_update_is_raise|].
  split; intros Hshape.
  - rewrite (macOSReleaseProvider_get_update_completed _ Hc).
    assert (Hr : is_raise (Catalog.parse_lines macOSReleaseProvider.make_update
                             (Py.split Py.newline out) []) = true).
    { eapply parse_lines_raise; eauto.
      now rewrite macOSReleaseProvider_make_update_is_raise, Hshape. }
    destruct (Catalog.parse_lines _ _ _) as [l|e] eqn:Hp; [discriminate|].
    apply parse_lines_raise_inv in Hp as (l' & _ & _ & Hm).
    now rewrite (macOSReleaseProvider_make_update_raises _ Hm).
  - rewrite (DownloadMacOS_get_update_completed _ Hc).
    assert (Hr : is_raise (Catalog.parse_lines DownloadMacOS.make_update
                             (Py.split Py.newline out) []) = true).
    { eapply parse_lines_raise; eauto.
      now rewrite DownloadMacOS_make_update_is_raise, Hshape. }
    destruct (Catalog.parse_lines _ _ _) as [l|e] eqn:Hp; [discriminate|].
    apply parse_lines_raise_inv in Hp as (l' & _ & _ & Hm).
    destruct (DownloadMacOS_make_update_raises _ Hm) as [-> | ->]; auto.
Qed.

Lemma malformed_version_line_raises_witness :
  fst (macOSReleaseProvider.get_update
         (Examples.listing_world
            (Completed 0 "Title: macOS Monterey, Version 12.3")))
  = Raise IndexError
  /\ (fst (DownloadMacOS.get_update
             (Examples.listing_world
                (Completed 0 "Title: macOS, Version: 12.3, Size: 9.4G")))
      = Raise IndexError
      \/ fst (DownloadMacOS.get_update
                (Examples.listing_world
                   (Completed 0 "Title: macOS, Version: 12.3, Size: 9.4G")))
         = Raise ValueError).
Proof.
  split.
  - apply (proj1 (proj2 (proj2
      (@malformed_version_line_raises
         (Examples.listing_world
            (Completed 0 "Title: macOS Monterey, Version 12.3"))
         0 "Title: macOS Monterey, Version 12.3"
         "Title: macOS Monterey, Version 12.3"
         eq_refl (or_introl eq_refl) eq_refl)))).
    reflexivity.
  - apply (proj2 (proj2 (proj2
      (@malformed_version_line_raises
         (Examples.listing_world
            (Completed 0 "Title: macOS, Version: 12.3, Size: 9.4G"))
         0 "Title: macOS, Version: 12.3, Size: 9.4G"
         "Title: macOS, Version: 12.3, Size: 9.4G"
         eq_refl (or_introl eq_refl) eq_refl)))).
    reflexivity.
Defined.

(** ** The exit status of the catalog command *)

(** [map_result] gives no element only from no element. *)
Lemma map_result_nil {A B} (f : A -> result B) l :
  map_result f l = Ok [] -> l = [].
Proof.
  intros H. apply map_result_length in H.
  destruct l; [reflexivity | discriminate].
Qed.

(** What [get_update] raises once the command has completed: the
    [ProcessorError] of an empty candidate list when no line has the
    marker, and otherwise what the parsing of a line raised. *)
Lemma DownloadMacOS_get_update_raises w rc out e :
  catalog w = Completed rc out ->
  fst (DownloadMacOS.get_update w) = Raise e ->
  (Spec.version_lines out = []
   /\ e = ProcessorError "No updates have been found")
  \/ (Spec.version_lines out <> [] /\ (e = IndexError \/ e = ValueError)).
Proof.
  intros Hc H.
  rewrite (DownloadMacOS_get_update_completed _ Hc),
    get_update_candidates_DownloadMacOS in H.
  destruct (map_result DownloadMacOS.make_update (Spec.version_lines out))
    as [[|u l]|e'] eqn:Hm.
  - left. split; [now apply map_result_nil in Hm | congruence].
  - exfalso. unfold Py.getitem in H.
    destruct (Py.sorted_reverse (@Catalog.version Z) (u :: l)) as [|x s]
      eqn:Hs; [|discriminate].
    now apply sorted_reverse_not_nil in Hs.
  - right. injection H as <-.
    destruct (map_result_raises _ _ Hm) as (line & Hin & Hl).
    split; [intros Hnil; rewrite Hnil in Hin; contradiction|].
    exact (DownloadMacOS_make_update_raises _ Hl).
Qed.

Lemma macOSReleaseProvider_get_update_raises w rc out e :
  catalog w = Completed rc out ->
  fst (macOSReleaseProvider.get_update w) = Raise e ->
  (Spec.version_lines out = []
   /\ e = ProcessorError "Could not receive or parse updates")
  \/ (Spec.version_lines out <> [] /\ e = IndexError).
Proof.
  intros Hc H.
  rewrite (macOSReleaseProvider_get_update_completed _ Hc),
    get_update_candidates_macOSReleaseProvider in H.
  destruct (map_result macOSReleaseProvider.make_update
              (Spec.version_lines out)) as [[|u l]|e'] eqn:Hm.
  - left. split; [now apply map_result_nil in Hm | congruence].
  - exfalso. unfold Py.getitem in H.
    destruct (Py.sorted_reverse (@Catalog.version string) (u :: l))
      as [|x s] eqn:Hs; [|discriminate].
    now apply sorted_reverse_not_nil in Hs.
  - right. injection H as <-.
    destruct (map_result_raises _ _ Hm) as (line & Hin & Hl).
    split; [intros Hnil; rewrite Hnil in Hin; contradiction|].
    exact (macOSReleaseProvider_make_update_raises _ Hl).
Qed.

(** C3, amended. When the catalog command cannot be executed at all,
    [get_update] fails with a [ProcessorError] built from the exception,
    no record is produced and nothing else happens. The exit status of a
    command that did run is not inspected: the run is resolved from its
    output alone, as for status zero. So after a completed run, whatever
    its status, [get_update] fails with a [ProcessorError] exactly when the
    output holds no line with the marker [Version]: with such a line the
    outcome is a record, or the [IndexError] or [ValueError] of a line that
    does not parse. *)
Theorem failed_launch_is_fatal_exit_status_ignored w :
  (forall err,
     catalog w = LaunchFailed err ->
     DownloadMacOS.get_update w
     = (Raise (ProcessorErrorFrom err), log_event Softwareupdate_list w)
     /\ macOSReleaseProvider.get_update w
        = (Raise (ProcessorErrorFrom err), log_event Softwareupdate_list w)
     /\ is_ProcessorError (ProcessorErrorFrom err) = true)
  /\ (forall rc out,
        catalog w = Completed rc out ->
        fst (DownloadMacOS.get_update w)
        = fst (DownloadMacOS.get_update (set_catalog (Completed 0 out) w))
        /\ fst (macOSReleaseProvider.get_update w)
           = fst (macOSReleaseProvider.get_update
                    (set_catalog (Completed 0 out) w)))
  /\ (forall rc out,
        catalog w = Completed rc out ->
        ((exists e, fst (DownloadMacOS.get_update w) = Raise e
                    /\ is_ProcessorError e = true)
         <-> Spec.version_lines out = [])
        /\ ((exists e, fst (macOSReleaseProvider.get_update w) = Raise e
                       /\ is_ProcessorError e = true)
            <-> Spec.version_lines out = [])
        /\ (Spec.version_lines out <> [] ->
            (forall e, fst (DownloadMacOS.get_update w) = Raise e ->
                       e = IndexError \/ e = ValueError)
            /\ (forall e, fst (macOSReleaseProvider.get_update w) = Raise e ->
                          e = IndexError))).
Proof.
  split; [|split].
  - intros err Hc. repeat split.
    + now apply DownloadMacOS_get_update_launch_failed.
    + now apply macOSReleaseProvider_get_update_launch_failed.
  - intros rc out Hc. split.
    + rewrite (DownloadMacOS_get_update_completed _ Hc).
      now rewrite (@DownloadMacOS_get_update_completed
                     (set_catalog (Completed 0 out) w) 0 out eq_refl).
    + rewrite (macOSReleaseProvider_get_update_completed _ Hc).
      now rewrite (@macOSReleaseProvider_get_update_completed
                     (set_catalog (Completed 0 out) w) 0 out eq_refl).
  - intros rc out Hc.
    pose proof (fun e => @DownloadMacOS_get_update_raises w rc out e Hc) as Hd.
    pose proof (fun e => @macOSReleaseProvider_get_update_raises w rc out e Hc)
      as Hp.
    split; [|split].
    + split.
      * intros (e & He & Hpe).
        destruct (Hd e He) as [[Hnil _] | [_ [-> | ->]]];
          [exact Hnil | discriminate | discriminate].
      * intros Hnil.
        rewrite (DownloadMacOS_get_update_completed _ Hc),
          get_update_candidates_DownloadMacOS, Hnil.
        eexists. split; reflexivity.
    + split.
      * intros (e & He & Hpe).
        destruct (Hp e He) as [[Hnil _] | [_ ->]];
          [exact Hnil | discriminate].
      * intros Hnil.
        rewrite (macOSReleaseProvider_get_update_completed _ Hc),
          get_update_candidates_macOSReleaseProvider, Hnil.
        eexists. split; reflexivity.
    + intros Hne. split; intros e He.
      * destruct (Hd e He) as [[Hnil _] | [_ H]]; [contradiction | exact H].
      * destruct (Hp e He) as [[Hnil _] | [_ H]]; [contradiction | exact H].
Qed.

Lemma failed_launch_is_fatal_exit_status_ignored_witness :
  (DownloadMacOS.get_update
     (Examples.listing_world (LaunchFailed (OSError "No such file")))
   = (Raise (ProcessorErrorFrom (OSError "No such file")),
      log_event Softwareupdate_list
        (Examples.listing_world (LaunchFailed (OSError "No such file")))))
  /\ fst (DownloadMacOS.get_update
            (Examples.listing_world (Completed 1 Examples.monterey_line)))
     = fst (DownloadMacOS.get_update
              (set_catalog (Completed 0 Examples.monterey_line)
                 (Examples.listing_world
                    (Completed 1 Examples.monterey_line))))
  /\ (exists e,
        fst (DownloadMacOS.get_update
               (Examples.listing_world (Completed 1 Examples.no_offer)))
        = Raise e
        /\ is_ProcessorError e = true)
  /\ (forall e,
        fst (DownloadMacOS.get_update
               (Examples.listing_world
                  (Completed 1 "Title: macOS, Version: 12.3, Size: 9.4G")))
        = Raise e ->
        e = IndexError \/ e = ValueError).
Proof.
  split; [|split; [|split]].
  - apply (proj1 (failed_launch_is_fatal_exit_status_ignored
                    (Examples.listing_world
                       (LaunchFailed (OSError "No such file"))))
             (OSError "No such file") eq_refl).
  - apply (proj1 (proj2 (failed_launch_is_fatal_exit_status_ignored
                           (Examples.listing_world
                              (Completed 1 Examples.monterey_line))))
             1 Examples.monterey_line eq_refl).
  - apply (proj2 (proj1 (proj2 (proj2
             (failed_launch_is_fatal_exit_status_ignored
                (Examples.listing_world (Completed 1 Examples.no_offer))))
             1 Examples.no_offer eq_refl))).
    reflexivity.
  - apply (proj1 (proj2 (proj2 (proj2 (proj2
             (failed_launch_is_fatal_exit_status_ignored
                (Examples.listing_world
                   (Completed 1 "Title: macOS, Version: 12.3, Size: 9.4G"))))
             1 "Title: macOS, Version: 12.3, Size: 9.4G" eq_refl))
           ltac:(discriminate))).
Defined.

(** ** The disk-image helpers *)




(** The two ways in which [mount_dmg] returns a mount point: the image was
    listed with it, or it has just been attached. *)
Lemma mount_dmg_ok_inv path w mp w1 :
  Installer.mount_dmg path w = (Ok mp, w1) ->
  (Installer.scan_mounts (images w) path = Some mp
   /\ Py.truthy mp = true
   /\ w1 = after Hdiutil_info w)
  \/ (Py.truthy_opt (Installer.scan_mounts (images w) path) = false
      /\ exists ents,
           Installer.first_mount_point ents = Some mp
           /\ images w1
              = (images w ++ [{| image_path := path;
                                 system_entities := ents |}])%list
           /\ trace w1
              = (trace w ++ [Hdiutil_info; Hdiutil_attach path])%list).
Proof.
  unfold Installer.mount_dmg, Installer.get_dmg_mount_point, hdiutil_info,
    bind, run_cmd, gets, ret.
  destruct (fault_of Hdiutil_info w) as [e|]; [discriminate|].
  change (images (after Hdiutil_info w)) with (images w).
  destruct (Py.truthy_opt (Installer.scan_mounts (images w) path)) eqn:Ht.
  - intros H. injection H as <- <-. left.
    destruct (Installer.scan_mounts (images w) path) as [p|];
      [auto | discriminate].
  - intros H. right. split; [reflexivity|].
    revert H.
    unfold try_except, hdiutil_attach, bind, run_cmd, gets, modify, ret,
      raise, lift.
    destruct (fault_of (Hdiutil_attach path) (after Hdiutil_info w)) as [e|];
      [discriminate|].
    unfold Installer.attached_mount_point.
    destruct (Installer.first_mount_point _) as [q|] eqn:Hq; [|discriminate].
    intros H. injection H as <- <-.
    eexists. split; [exact Hq|]. cbn. rewrite <- app_assoc. auto.
Qed.

(** When the image is listed with a non-empty mount point, [mount_dmg]
    returns it after the query alone. *)
Lemma mount_dmg_listed path w mp :
  fault_of Hdiutil_info w = None ->
  Installer.scan_mounts (images w) path = Some mp ->
  Py.truthy mp = true ->
  Installer.mount_dmg path w = (Ok mp, after Hdiutil_info w).
Proof.
  intros Hr Hs Hp.
  unfold Installer.mount_dmg, Installer.get_dmg_mount_point, hdiutil_info,
    bind, run_cmd, gets, ret.
  rewrite Hr.
  change (images (after Hdiutil_info w)) with (images w).
  rewrite Hs. cbn [Py.truthy_opt]. now rewrite Hp.
Qed.



(** ** Version extraction *)

(** The branch of the direct descriptor ends in the failing lookup. *)
Lemma get_os_version_direct_descriptor w app_path :
  isfile (fs w) (Installer.installinfo_plist app_path) = true ->
  Installer.get_os_version app_path w = (Raise AttributeError, w).
Proof.
  intros Hf.
  unfold Installer.get_os_version, bind, os_path_isfile, gets,
    Installer.get_plist_key, raise.
  now rewrite Hf.
Qed.

(** C2. When the direct install-info descriptor exists in the bundle,
    [get_os_version] goes for the key [System Image Info:version] of the
    descriptor through [self.get_plist_key], a method that does not exist:
    the call raises [AttributeError] instead of returning the value. The
    rest is as stated: the machine is left untouched, nothing is mounted
    or unmounted and no command is run. *)
Theorem direct_descriptor_lookup_raises w app_path :
  isfile (fs w) (Installer.installinfo_plist app_path) = true ->
  Installer.get_os_version app_path w = (Raise AttributeError, w)
  /\ DownloadMacOS.get_os_version app_path w = (Raise AttributeError, w)
  /\ macOSDownloader.get_os_version app_path w = (Raise AttributeError, w)
  /\ is_ProcessorError AttributeError = false
  /\ Spec.mounts_or_unmounts
       (skipn (length (trace w))
              (trace (snd (Installer.get_os_version app_path w)))) = false.
Proof.
  intros Hf.
  pose proof (get_os_version_direct_descriptor _ _ Hf) as H.
  unfold DownloadMacOS.get_os_version, macOSDownloader.get_os_version.
  rewrite H. repeat split.
  cbn [snd]. now rewrite skipn_all.
Qed.

Lemma direct_descriptor_lookup_raises_witness :
  Installer.get_os_version Examples.installer_app Examples.legacy_world
  = (Raise AttributeError, Examples.legacy_world).
Proof.
  apply (proj1 (@direct_descriptor_lookup_raises
                  Examples.legacy_world Examples.installer_app eq_refl)).
Defined.

(** The guarded read of [get_os_version]: the nested version, or the empty
    string when the read fails; the machine is not touched. *)
Lemma guarded_read mountpoint w :
  try_except
    (Installer.read_asset_version (Installer.info_plist_path mountpoint))
    (ret EmptyString) w
  = (Ok (match Spec.nested_version (fs w) mountpoint with
         | Some v => v
         | None => EmptyString
         end), w).
Proof.
  unfold try_except, Installer.read_asset_version, Spec.nested_version, ret.
  destruct (asset_plist (fs w) (Installer.info_plist_path mountpoint))
    as [[[[|a l]|]]|]; try reflexivity.
  cbn [Assets]. destruct (OSVersion a); reflexivity.
Qed.

(** The nested read fails exactly when there is no nested version. *)
Lemma read_asset_version_raises mountpoint w :
  is_raise (fst (Installer.read_asset_version
                   (Installer.info_plist_path mountpoint) w))
  = match Spec.nested_version (fs w) mountpoint with
    | Some _ => false
    | None => true
    end.
Proof.
  unfold Installer.read_asset_version, Spec.nested_version.
  destruct (asset_plist (fs w) (Installer.info_plist_path mountpoint))
    as [[[[|a l]|]]|]; try reflexivity.
  cbn [Assets fst]. destruct (OSVersion a); reflexivity.
Qed.

(** [get_os_version] on a bundle with the embedded image only: it is the
    mount, then the guarded read, then the unmount. *)
Lemma get_os_version_embedded w app_path :
  isfile (fs w) (Installer.installinfo_plist app_path) = false ->
  isfile (fs w) (Installer.sharedsupport_dmg app_path) = true ->
  Installer.get_os_version app_path w
  = match Installer.mount_dmg (Installer.sharedsupport_dmg app_path) w with
    | (Raise e, w1) => (Raise e, w1)
    | (Ok mp, w1) =>
        if Py.truthy mp then
          match fault_of (Hdiutil_detach mp) w1 with
          | Some e => (Raise e, after (Hdiutil_detach mp) w1)
          | None =>
              (Ok (match Spec.nested_version (fs w1) mp with
                   | Some v => v
                   | None => EmptyString
                   end),
               set_images
                 (Spec.without_mount mp (images w1))
                 (after (Hdiutil_detach mp) w1))
          end
        else (Ok EmptyString, w1)
    end.
Proof.
  intros Hi Hd.
  unfold Installer.get_os_version, bind at 1 2, os_path_isfile, gets.
  rewrite Hi, Hd. unfold bind.
  destruct (Installer.mount_dmg _ w) as [[mp|e] w1]; [|reflexivity].
  destruct (Py.truthy mp); [|reflexivity].
  unfold try_finally. rewrite guarded_read.
  unfold Installer.unmount_dmg, hdiutil_detach, bind, run_cmd, modify.
  destruct (fault_of (Hdiutil_detach mp) w1); reflexivity.
Qed.

(** C4, as stated, fails: the nested read gives 12.3, the forced detach
    fails, and [get_os_version] raises the failure of the detach instead of
    returning 12.3. *)
Lemma failed_detach_is_fatal :
  Spec.nested_version
    (fs (Examples.embedded_world (Some Examples.monterey_assets)
           Examples.stuck))
    Examples.support_volume = Some "12.3"
  /\ fst (DownloadMacOS.unmount_dmg Examples.support_volume
            (snd (DownloadMacOS.mount_dmg
                    (Installer.sharedsupport_dmg Examples.installer_app)
                    (Examples.embedded_world (Some Examples.monterey_assets)
                       Examples.stuck))))
     = Raise CalledProcessError
  /\ fst (DownloadMacOS.get_os_version Examples.installer_app
            (Examples.embedded_world (Some Examples.monterey_assets)
               Examples.stuck))
     = Raise CalledProcessError
  /\ fst (DownloadMacOS.get_os_version Examples.installer_app
            (Examples.embedded_world (Some Examples.monterey_assets)
               Examples.calm))
     = Ok "12.3".
Proof. repeat split. Qed.

(** C4, amended. If the forced detach performed during the cleanup fails,
    the failure is not suppressed: [get_os_version] raises the exception of
    the detach in place of the result of the extraction, whatever that
    result was, and writes nothing to the log; the detach is the last
    thing it does. *)
Theorem failed_detach_propagates w app_path mp w1 e :
  isfile (fs w) (Installer.installinfo_plist app_path) = false ->
  isfile (fs w) (Installer.sharedsupport_dmg app_path) = true ->
  Installer.mount_dmg (Installer.sharedsupport_dmg app_path) w = (Ok mp, w1) ->
  Py.truthy mp = true ->
  fault_of (Hdiutil_detach mp) w1 = Some e ->
  Installer.get_os_version app_path w
  = (Raise e, after (Hdiutil_detach mp) w1)
  /\ fst (Installer.unmount_dmg mp w1) = Raise e
  /\ trace (snd (Installer.get_os_version app_path w))
     = (trace w1 ++ [Hdiutil_detach mp])%list
  /\ (trace w1 = (trace w ++ [Hdiutil_info])%list
      \/ trace w1
         = (trace w ++ [Hdiutil_info;
                        Hdiutil_attach
                          (Installer.sharedsupport_dmg app_path)])%list).
Proof.
  intros Hi Hd Hm Hp Hf.
  rewrite (get_os_version_embedded _ _ Hi Hd), Hm, Hp, Hf.
  repeat split.
  - unfold Installer.unmount_dmg, hdiutil_detach, bind, run_cmd.
    now rewrite Hf.
  - apply mount_dmg_ok_inv in Hm as [(_ & _ & ->) | (_ & ents & _ & _ & Ht)];
      [left; reflexivity | right; exact Ht].
Qed.

Lemma failed_detach_propagates_witness :
  Installer.get_os_version Examples.installer_app
    (Examples.embedded_world (Some Examples.monterey_assets) Examples.stuck)
  = (Raise CalledProcessError,
     after (Hdiutil_detach Examples.support_volume)
       (snd (Installer.mount_dmg
               (Installer.sharedsupport_dmg Examples.installer_app)
               (Examples.embedded_world (Some Examples.monterey_assets)
                  Examples.stuck)))).
Proof.
  apply (proj1 (@failed_detach_propagates
                  (Examples.embedded_world (Some Examples.monterey_assets)
                     Examples.stuck)
                  Examples.installer_app Examples.support_volume
                  (snd (Installer.mount_dmg
                          (Installer.sharedsupport_dmg Examples.installer_app)
                          (Examples.embedded_world
                             (Some Examples.monterey_assets) Examples.stuck)))
                  CalledProcessError
                  eq_refl eq_refl eq_refl eq_refl eq_refl)).
Defined.

(** C5, as stated, fails: the bundle has the embedded image only, the
    nested read fails, and so does the forced detach; [get_os_version]
    then raises to its caller instead of returning the empty string. *)
Lemma failed_read_then_failed_detach_raises :
  isfile (fs (Examples.embedded_world None Examples.stuck))
    (Installer.installinfo_plist Examples.installer_app) = false
  /\ isfile (fs (Examples.embedded_world None Examples.stuck))
       (Installer.sharedsupport_dmg Examples.installer_app) = true
  /\ is_raise
       (fst (Installer.read_asset_version
               (Installer.info_plist_path Examples.support_volume)
               (snd (Installer.mount_dmg
                       (Installer.sharedsupport_dmg Examples.installer_app)
                       (Examples.embedded_world None Examples.stuck)))))
     = true
  /\ fst (Installer.get_os_version Examples.installer_app
            (Examples.embedded_world None Examples.stuck))
     = Raise CalledProcessError
  /\ fst (Installer.get_os_version Examples.installer_app
            (Examples.embedded_world None Examples.stuck))
     <> Ok EmptyString.
Proof. repeat split. discriminate. Qed.

(** C5, amended. For a bundle without the direct descriptor and with the
    embedded support image, [get_os_version] first mounts the image, and a
    failure of the mount is raised to the caller. Once the image is mounted
    at a non-empty mount point, the unmount is invoked exactly once, as the
    last step, whether the nested read succeeds or fails; and when that
    unmount succeeds, the result is the nested asset version, or the empty
    string on any failure of the nested read, and the image is no longer
    listed. (A mount point that is the empty string counts as no mount: the
    result is the empty string and nothing is unmounted.) *)
Theorem embedded_image_read_between_mount_and_unmount w app_path :
  isfile (fs w) (Installer.installinfo_plist app_path) = false ->
  isfile (fs w) (Installer.sharedsupport_dmg app_path) = true ->
  (forall e w1,
     Installer.mount_dmg (Installer.sharedsupport_dmg app_path) w
     = (Raise e, w1) ->
     Installer.get_os_version app_path w = (Raise e, w1))
  /\ (forall mp w1,
        Installer.mount_dmg (Installer.sharedsupport_dmg app_path) w
        = (Ok mp, w1) ->
        Py.truthy mp = true ->
        trace (snd (Installer.get_os_version app_path w))
        = (trace w1 ++ [Hdiutil_detach mp])%list
        /\ (fault_of (Hdiutil_detach mp) w1 = None ->
            fst (Installer.get_os_version app_path w)
            = Ok (match Spec.nested_version (fs w1) mp with
                  | Some v => v
                  | None => EmptyString
                  end)
            /\ (is_raise (fst (Installer.read_asset_version
                                 (Installer.info_plist_path mp) w1)) = true ->
                fst (Installer.get_os_version app_path w) = Ok EmptyString)
            /\ images (snd (Installer.get_os_version app_path w))
               = Spec.without_mount mp (images w1)))
  /\ (forall mp w1,
        Installer.mount_dmg (Installer.sharedsupport_dmg app_path) w
        = (Ok mp, w1) ->
        Py.truthy mp = false ->
        Installer.get_os_version app_path w = (Ok EmptyString, w1)).
Proof.
  intros Hi Hd. rewrite (get_os_version_embedded _ _ Hi Hd).
  split; [|split].
  - intros e w1 Hm. now rewrite Hm.
  - intros mp w1 Hm Hp. rewrite Hm, Hp. split.
    + destruct (fault_of (Hdiutil_detach mp) w1); reflexivity.
    + intros Hf. rewrite Hf. repeat split.
      intros Hr. rewrite read_asset_version_raises in Hr.
      cbn [fst]. destruct (Spec.nested_version (fs w1) mp);
        [discriminate | reflexivity].
  - intros mp w1 Hm Hp. now rewrite Hm, Hp.
Qed.

Lemma embedded_image_read_between_mount_and_unmount_witness :
  trace (snd (Installer.get_os_version Examples.installer_app
                (Examples.embedded_world None Examples.calm)))
  = [Hdiutil_info;
     Hdiutil_attach (Installer.sharedsupport_dmg Examples.installer_app);
     Hdiutil_detach Examples.support_volume]
  /\ fst (Installer.get_os_version Examples.installer_app
            (Examples.embedded_world None Examples.calm))
     = Ok EmptyString.
Proof.
  destruct (proj1 (proj2 (@embedded_image_read_between_mount_and_unmount
                            (Examples.embedded_world None Examples.calm)
                            Examples.installer_app eq_refl eq_refl))
              Examples.support_volume
              (snd (Installer.mount_dmg
                      (Installer.sharedsupport_dmg Examples.installer_app)
                      (Examples.embedded_world None Examples.calm)))
              eq_refl eq_refl) as [Ht Hok].
  split.
  - exact Ht.
  - exact (proj1 (proj2 (Hok eq_refl)) eq_refl).
Defined.

(** ** The cache manager *)

Create HintDb env_stable.

Lemma env_stable_ret {A} (a : A) : env_stable (ret a).
Proof. intros w; reflexivity. Qed.

Lemma env_stable_raise {A} e : env_stable (@raise A e).
Proof. intros w; reflexivity. Qed.

Lemma env_stable_lift {A} (r : result A) : env_stable (lift r).
Proof. intros w; reflexivity. Qed.

Lemma env_stable_gets {A} (f : World -> A) : env_stable (gets f).
Proof. intros w; reflexivity. Qed.

Lemma env_stable_output msg : env_stable (output msg).
Proof. intros w; reflexivity. Qed.

Lemma env_stable_run_cmd ev : env_stable (run_cmd ev).
Proof. intros w; reflexivity. Qed.

Lemma env_stable_listdir p : env_stable (os_listdir p).
Proof. intros w; reflexivity. Qed.

Lemma env_stable_get_plist_key p k : env_stable (Installer.get_plist_key p k).
Proof. intros w; reflexivity. Qed.

Lemma env_stable_read_asset_version p :
  env_stable (Installer.read_asset_version p).
Proof. intros w; reflexivity. Qed.

Lemma env_stable_bind {A B} (c : M A) (k : A -> M B) :
  env_stable c -> (forall a, env_stable (k a)) -> env_stable (bind c k).
Proof.
  intros Hc Hk w. unfold bind. specialize (Hc w).
  destruct (c w) as [[a|e] w']; cbn [snd] in *; [|exact Hc].
  now rewrite Hk.
Qed.

Lemma env_stable_try_except {A} (body handler : M A) :
  env_stable body -> env_stable handler ->
  env_stable (try_except body handler).
Proof.
  intros Hb Hh w. unfold try_except. specialize (Hb w).
  destruct (body w) as [[a|e] w']; cbn [snd] in *; [exact Hb|].
  now rewrite Hh.
Qed.

Lemma env_stable_try_wrap {A} (body : M A) :
  env_stable body -> env_stable (try_wrap body).
Proof.
  intros Hb w. unfold try_wrap. specialize (Hb w).
  destruct (body w) as [[a|e] w']; exact Hb.
Qed.

Lemma env_stable_try_finally {A B} (body : M A) (cleanup : M B) :
  env_stable body -> env_stable cleanup ->
  env_stable (try_finally body cleanup).
Proof.
  intros Hb Hc w. unfold try_finally. specialize (Hb w).
  destruct (body w) as [r w']. specialize (Hc w').
  destruct (cleanup w') as [[b|e] w'']; cbn [snd] in *; congruence.
Qed.

#[local] Hint Resolve env_stable_ret env_stable_raise env_stable_lift
  env_stable_gets env_stable_output env_stable_run_cmd env_stable_listdir
  env_stable_get_plist_key env_stable_read_asset_version
  env_stable_try_except env_stable_try_wrap env_stable_try_finally
  : env_stable.

(** Splits a computation along its binds and branches. *)
Ltac env_stable_step :=
  match goal with
  | |- env_stable (bind _ _) => apply env_stable_bind; [|intros ?]
  | |- env_stable (if ?b then _ else _) => destruct b
  | |- env_stable (match ?o with Some _ => _ | None => _ end) => destruct o
  | |- env_stable _ => solve [auto with env_stable]
  end.

Lemma env_stable_hdiutil_info : env_stable hdiutil_info.
Proof. unfold hdiutil_info. repeat env_stable_step. Qed.

Lemma env_stable_hdiutil_attach p : env_stable (hdiutil_attach p).
Proof.
  unfold hdiutil_attach. repeat env_stable_step. intros w; reflexivity.
Qed.

Lemma env_stable_hdiutil_detach p : env_stable (hdiutil_detach p).
Proof.
  unfold hdiutil_detach. repeat env_stable_step. intros w; reflexivity.
Qed.

Lemma env_stable_makedirs p : env_stable (os_makedirs p).
Proof.
  unfold os_makedirs. repeat env_stable_step. intros w; reflexivity.
Qed.

Lemma env_stable_copytree src dst : env_stable (shutil_copytree src dst).
Proof.
  unfold shutil_copytree. repeat env_stable_step. intros w; reflexivity.
Qed.

#[local] Hint Resolve env_stable_hdiutil_info env_stable_hdiutil_attach
  env_stable_hdiutil_detach env_stable_makedirs env_stable_copytree
  : env_stable.

Lemma env_stable_mount_dmg p : env_stable (Installer.mount_dmg p).
Proof.
  unfold Installer.mount_dmg, Installer.get_dmg_mount_point.
  repeat env_stable_step.
Qed.

Lemma env_stable_unmount_dmg p : env_stable (Installer.unmount_dmg p).
Proof. unfold Installer.unmount_dmg. auto with env_stable. Qed.

#[local] Hint Resolve env_stable_mount_dmg env_stable_unmount_dmg
  : env_stable.

Lemma env_stable_get_os_version app_path :
  env_stable (Installer.get_os_version app_path).
Proof.
  unfold Installer.get_os_version, os_path_isfile.
  repeat env_stable_step.
Qed.

#[local] Hint Resolve env_stable_get_os_version : env_stable.

Lemma env_stable_scan_installers dir items target :
  env_stable (Installer.scan_installers dir items target).
Proof.
  induction items as [|item rest IH]; cbn [Installer.scan_installers].
  - auto with env_stable.
  - unfold os_path_exists. repeat env_stable_step; exact IH.
Qed.

#[local] Hint Resolve env_stable_scan_installers : env_stable.

Lemma env_stable_get_local_installer dir target :
  env_stable (Installer.get_local_installer dir target).
Proof.
  unfold Installer.get_local_installer. repeat env_stable_step.
Qed.

#[local] Hint Resolve env_stable_get_local_installer : env_stable.

Lemma env_stable_download_macos : env_stable macOSDownloader.download_macos.
Proof.
  unfold macOSDownloader.download_macos, macOSDownloader.get_local_installer.
  repeat env_stable_step.
Qed.

(** With the cache entry in place, [main] sets its outputs, logs one line
    and stops. *)
Lemma main_cache_hit w :
  path_exists (fs w) (macOSDownloader.installer_cache_path (env w)) = true ->
  macOSDownloader.main w = (Ok tt, Spec.cache_hit w).
Proof.
  intros Hc.
  unfold macOSDownloader.main, os_path_exists, set_key, output, bind, gets,
    modify.
  cbn [fs env set_env]. rewrite Hc. reflexivity.
Qed.

Lemma bind_ok_inv {A B} (c : M A) (k : A -> M B) w b w1 :
  bind c k w = (Ok b, w1) ->
  exists a w', c w = (Ok a, w') /\ k a w' = (Ok b, w1).
Proof.
  unfold bind. destruct (c w) as [[a|e] w']; [eauto | discriminate].
Qed.

Lemma env_stable_run {A} (c : M A) w r w' :
  env_stable c -> c w = (r, w') -> env w' = env w.
Proof. intros Hs Hc. specialize (Hs w). now rewrite Hc in Hs. Qed.

(** A copy that completes leaves its target in place. *)
Lemma copytree_ok src dst w w1 :
  shutil_copytree src dst w = (Ok tt, w1) ->
  env w1 = env w
  /\ path_exists (fs w1) dst = true
  /\ trace w1 = (trace w ++ [Copytree src dst])%list.
Proof.
  unfold shutil_copytree, bind, run_cmd, modify.
  destruct (fault_of (Copytree src dst) w); [discriminate|].
  intros H. injection H as <-. cbn. now rewrite String.eqb_refl.
Qed.

(** Without the cache entry, a run of [main] that completes has copied the
    installer: the entry exists afterwards, the inputs are as before, and
    [changed] is set. *)
Lemma main_cache_miss w w1 :
  path_exists (fs w) (macOSDownloader.installer_cache_path (env w)) = false ->
  macOSDownloader.main w = (Ok tt, w1) ->
  changed (env w1) = Some true
  /\ Spec.same_inputs (env w1) (env w)
  /\ path_exists (fs w1) (macOSDownloader.installer_cache_path (env w)) = true
  /\ exists src,
       last (trace w1) (Output EmptyString)
       = Copytree src (macOSDownloader.installer_cache_path (env w)).
Proof.
  intros Hc H. unfold macOSDownloader.main in H.
  apply bind_ok_inv in H as (e & w0 & He & H).
  unfold gets in He. injection He as <- <-.
  apply bind_ok_inv in H as (u1 & w2 & H1 & H).
  unfold set_key, modify in H1. injection H1 as _ <-.
  apply bind_ok_inv in H as (u2 & w3 & H2 & H).
  unfold set_key, modify in H2. injection H2 as _ <-.
  apply bind_ok_inv in H as (u3 & w4 & H3 & H).
  unfold set_key, modify in H3. injection H3 as _ <-.
  apply bind_ok_inv in H as (cached & w5 & H4 & H).
  unfold os_path_exists, gets in H4. cbn [fs set_env] in H4.
  rewrite Hc in H4. injection H4 as <- <-.
  apply bind_ok_inv in H as (u4 & w6 & H5 & H).
  unfold output, modify in H5. injection H5 as _ <-.
  apply bind_ok_inv in H as (u5 & w7 & H6 & H).
  unfold set_key, modify in H6. injection H6 as _ <-.
  apply bind_ok_inv in H as (target & w8 & H7 & H).
  unfold gets in H7. injection H7 as <- <-.
  apply bind_ok_inv in H as (found & w9 & Hg & H).
  unfold macOSDownloader.get_local_installer in Hg.
  apply (@env_stable_run _ _ _ _ _ (env_stable_get_local_installer _ _))
    in Hg.
  cbn [env set_env log_event] in Hg.
  apply bind_ok_inv in H as (installer & w10 & Hi & H).
  assert (He : changed (env w10) = Some true
               /\ Spec.same_inputs (env w10) (env w)).
  { destruct (Py.truthy_opt found).
    - apply bind_ok_inv in Hi as (u6 & w11 & H8 & Hi).
      unfold output, modify in H8. injection H8 as _ <-.
      unfold ret in Hi. injection Hi as _ <-.
      cbn [env log_event]. rewrite Hg. now repeat split.
    - apply bind_ok_inv in Hi as (e' & w11 & H8 & Hi).
      unfold gets in H8. injection H8 as <- <-.
      apply bind_ok_inv in Hi as (u6 & w12 & H9 & Hi).
      unfold output, modify in H9. injection H9 as _ <-.
      apply bind_ok_inv in Hi as (p & w13 & Hd & Hi).
      apply (@env_stable_run _ _ _ _ _ env_stable_download_macos) in Hd.
      cbn [env log_event] in Hd.
      apply bind_ok_inv in Hi as (e'' & w14 & H10 & Hi).
      unfold gets in H10. injection H10 as <- <-.
      apply bind_ok_inv in Hi as (u7 & w15 & H11 & Hi).
      unfold set_key, modify in H11. injection H11 as _ <-.
      unfold ret in Hi. injection Hi as _ <-.
      cbn [env set_env]. rewrite Hd, Hg. now repeat split. }
  destruct He as [Hch Hin].
  apply bind_ok_inv in H as (u8 & w11 & H12 & H).
  unfold output, modify in H12. injection H12 as _ <-.
  apply bind_ok_inv in H as (u9 & w12 & Hmk & H).
  apply (@env_stable_run _ _ _ _ _ (env_stable_makedirs _)) in Hmk.
  cbn [env log_event] in Hmk.
  apply copytree_ok in H as (Henv & Hex & Htr).
  rewrite Henv, Hmk. repeat split; try assumption; try apply Hin.
  exists installer. rewrite Htr. apply last_last.
Qed.

Lemma skipn_length_app {A} (l l' : list A) : skipn (length l) (l ++ l') = l'.
Proof. induction l as [|x t IH]; simpl; auto. Qed.

Lemma installer_cache_path_same_inputs e e' :
  Spec.same_inputs e e' ->
  macOSDownloader.installer_cache_path e
  = macOSDownloader.installer_cache_path e'.
Proof.
  intros (Hr & Hv & Hl).
  unfold macOSDownloader.installer_cache_path, macOSDownloader.cache_path.
  now rewrite Hr, Hv, Hl.
Qed.

(** What a run that finds its cache entry adds to the trace. *)
Lemma cache_hit_new_events w :
  macOSDownloader.main w = (Ok tt, Spec.cache_hit w) ->
  Spec.new_events macOSDownloader.main w
  = [Output ("Using chached version at "
             ++ macOSDownloader.installer_cache_path (env w))].
Proof.
  intros H. unfold Spec.new_events. rewrite H.
  cbn [snd Spec.cache_hit log_event set_env trace].
  apply skipn_length_app.
Qed.

(** C6. If the versioned cached bundle path exists, [main] returns at once
    with that path and [changed] false: it only logs one line, and neither
    downloads nor copies. Consequently, when a run that starts without the
    cache entry completes, it ends with [changed] true, and the next run
    for the same version and release ends with [changed] false without any
    download or copy. *)
Theorem cache_entry_short_circuits w :
  (path_exists (fs w) (macOSDownloader.installer_cache_path (env w)) = true ->
   macOSDownloader.main w = (Ok tt, Spec.cache_hit w)
   /\ changed (env (Spec.cache_hit w)) = Some false
   /\ pathname (env (Spec.cache_hit w))
      = Some (macOSDownloader.installer_cache_path (env w))
   /\ Spec.downloads_or_copies (Spec.new_events macOSDownloader.main w)
      = false)
  /\ (path_exists (fs w) (macOSDownloader.installer_cache_path (env w))
      = false ->
      forall w1,
        macOSDownloader.main w = (Ok tt, w1) ->
        changed (env w1) = Some true
        /\ Spec.same_inputs (env w1) (env w)
        /\ macOSDownloader.main w1 = (Ok tt, Spec.cache_hit w1)
        /\ changed (env (Spec.cache_hit w1)) = Some false
        /\ pathname (env (Spec.cache_hit w1))
           = Some (macOSDownloader.installer_cache_path (env w))
        /\ Spec.downloads_or_copies (Spec.new_events macOSDownloader.main w1)
           = false).
Proof.
  split.
  - intros Hc. pose proof (main_cache_hit _ Hc) as Hm.
    repeat split; try assumption.
    rewrite (cache_hit_new_events Hm). reflexivity.
  - intros Hc w1 H1.
    destruct (main_cache_miss _ Hc H1) as (Hch & Hin & Hex & _).
    pose proof (installer_cache_path_same_inputs Hin) as Hp.
    rewrite <- Hp in Hex.
    pose proof (main_cache_hit _ Hex) as Hm.
    repeat split; try assumption; try apply Hin.
    + change (Some (macOSDownloader.installer_cache_path (env w1))
              = Some (macOSDownloader.installer_cache_path (env w))).
      now rewrite Hp.
    + rewrite (cache_hit_new_events Hm). reflexivity.
Qed.

Lemma cache_entry_short_circuits_witness :
  changed (env (snd (macOSDownloader.main Examples.fresh_cache_world)))
  = Some true
  /\ macOSDownloader.main
       (snd (macOSDownloader.main Examples.fresh_cache_world))
     = (Ok tt,
        Spec.cache_hit
          (snd (macOSDownloader.main Examples.fresh_cache_world)))
  /\ changed
       (env (Spec.cache_hit
               (snd (macOSDownloader.main Examples.fresh_cache_world))))
     = Some false
  /\ Spec.downloads_or_copies
       (Spec.new_events macOSDownloader.main
          (snd (macOSDownloader.main Examples.fresh_cache_world)))
     = false.
Proof.
  assert (Hc : path_exists (fs Examples.fresh_cache_world)
                 (macOSDownloader.installer_cache_path
                    (env Examples.fresh_cache_world)) = false)
    by (vm_compute; reflexivity).
  assert (Hm : macOSDownloader.main Examples.fresh_cache_world
               = (Ok tt,
                  snd (macOSDownloader.main Examples.fresh_cache_world)))
    by (vm_compute; reflexivity).
  destruct (proj2 (cache_entry_short_circuits Examples.fresh_cache_world)
              Hc _ Hm)
    as (H1 & _ & H2 & H3 & _ & H4).
  exact (conj H1 (conj H2 (conj H3 H4))).
Defined.

(** * Further properties of the processors *)

(** ** The candidates of the resolver *)

Lemma map_result_all_ok {A B} (f : A -> result B) l :
  forallb (fun x => negb (is_raise (f x))) l = true ->
  exists ys, map_result f l = Ok ys /\ length ys = length l.
Proof.
  intros H. pose proof (map_result_is_raise f l) as Hr. rewrite H in Hr.
  destruct (map_result f l) as [ys|e] eqn:Hm; [|discriminate].
  exists ys. split; [reflexivity|]. eapply map_result_length; eauto.
Qed.

Lemma map_result_In {A B} (f : A -> result B) l ys y :
  map_result f l = Ok ys -> In y ys -> exists x, In x l /\ f x = Ok y.
Proof.
  revert ys. induction l as [|a t IH]; simpl; intros ys H Hin.
  - injection H as <-. contradiction.
  - destruct (f a) as [b|] eqn:Hf; [|discriminate].
    destruct (map_result f t) as [bs|]; [|discriminate].
    injection H as <-. destruct Hin as [<- | Hin]; [eauto|].
    destruct (IH _ eq_refl Hin) as (x & ? & ?). eauto.
Qed.

Section SortedOrder.

Context {A : Type} (key : A -> string).

(** The element that comes first after sorting is the first of the list
    among those with the greatest key: everything listed before it has a
    strictly smaller key. *)
Lemma sorted_reverse_head_first l x s :
  Py.sorted_reverse key l = x :: s ->
  exists pre post,
    l = (pre ++ x :: post)%list
    /\ forall y, In y pre -> Py.str_lt (key y) (key x) = true.
Proof.
  revert x s. induction l as [|a t IH]; intros x s H; [discriminate|].
  cbn [Py.sorted_reverse fold_right] in H.
  change (fold_right (Py.insert_desc key) [] t)
    with (Py.sorted_reverse key t) in H.
  destruct (Py.sorted_reverse key t) as [|h r] eqn:Hs.
  - cbn in H. injection H as <- <-. exists [], t. split; [reflexivity|].
    intros y [].
  - destruct (IH _ _ eq_refl) as (pre & post & Ht & Hpre).
    cbn [Py.insert_desc] in H.
    destruct (Py.str_lt (key a) (key h)) eqn:Hlt;
      injection H as Hx _; subst x.
    + exists (a :: pre), post. split; [now rewrite Ht|].
      intros y [<- | Hy]; auto.
    + exists [], t. split; [reflexivity|].
      intros y [].
Qed.

End SortedOrder.

Lemma well_shaped_sized_well_shaped line :
  Spec.well_shaped_sized line = true -> Spec.well_shaped line = true.
Proof.
  unfold Spec.well_shaped_sized. intros H.
  now apply andb_true_iff in H as [H _].
Qed.

(** X1. A listing resolves when it should: if the output of the catalog
    command holds at least one line with the marker and every such line is
    well-shaped, with a decimal size, then [get_update] returns a record in
    both processors, whatever the exit status. *)
Theorem get_update_resolves_well_shaped_listing w rc out :
  catalog w = Completed rc out ->
  Spec.version_lines out <> [] ->
  forallb Spec.well_shaped_sized (Spec.version_lines out) = true ->
  (exists u, fst (DownloadMacOS.get_update w) = Ok u)
  /\ (exists u', fst (macOSReleaseProvider.get_update w) = Ok u').
Proof.
  intros Hc Hne Hall. split.
  - rewrite (DownloadMacOS_get_update_completed _ Hc),
      get_update_candidates_DownloadMacOS.
    destruct (@map_result_all_ok _ _ DownloadMacOS.make_update
                (Spec.version_lines out)) as (ys & -> & Hlen).
    { rewrite <- Hall. apply forallb_pointwise. intros line.
      now rewrite DownloadMacOS_make_update_is_raise, negb_involutive. }
    destruct ys as [|a t].
    + destruct (Spec.version_lines out); [congruence | discriminate].
    + unfold Py.getitem.
      destruct (Py.sorted_reverse (@Catalog.version Z) (a :: t)) as [|x s]
        eqn:Hs; [|cbn; eauto].
      now apply sorted_reverse_not_nil in Hs.
  - rewrite (macOSReleaseProvider_get_update_completed _ Hc),
      get_update_candidates_macOSReleaseProvider.
    destruct (@map_result_all_ok _ _ macOSReleaseProvider.make_update
                (Spec.version_lines out)) as (ys & -> & Hlen).
    { rewrite forallb_forall in Hall. apply forallb_forall. intros line Hin.
      rewrite macOSReleaseProvider_make_update_is_raise, negb_involutive.
      apply well_shaped_sized_well_shaped. now apply Hall. }
    destruct ys as [|a t].
    + destruct (Spec.version_lines out); [congruence | discriminate].
    + unfold Py.getitem.
      destruct (Py.sorted_reverse (@Catalog.version string) (a :: t))
        as [|x s] eqn:Hs; [|cbn; eauto].
      now apply sorted_reverse_not_nil in Hs.
Qed.

Lemma get_update_resolves_well_shaped_listing_witness :
  (exists u,
     fst (DownloadMacOS.get_update
            (Examples.listing_world (Completed 0 Examples.two_versions)))
     = Ok u)
  /\ (exists u',
        fst (macOSReleaseProvider.get_update
               (Examples.listing_world (Completed 0 Examples.two_versions)))
        = Ok u').
Proof.
  apply (@get_update_resolves_well_shaped_listing
           (Examples.listing_world (Completed 0 Examples.two_versions))
           0 Examples.two_versions eq_refl);
    [discriminate | reflexivity].
Defined.

(** What [get_update] returns sits in the list of candidates between
    candidates with a strictly smaller version string and candidates whose
    version string is not greater. *)
Lemma first_greatest_candidate {S} (l : list (Catalog.update S)) u :
  Py.getitem (Py.sorted_reverse (@Catalog.version S) l) 0 = Ok u ->
  exists pre post,
    l = (pre ++ u :: post)%list
    /\ (forall y, In y pre ->
          Py.str_lt (Catalog.version y) (Catalog.version u) = true)
    /\ (forall y, In y post ->
          Py.str_lt (Catalog.version u) (Catalog.version y) = false).
Proof.
  unfold Py.getitem.
  destruct (Py.sorted_reverse (@Catalog.version S) l) as [|x s] eqn:Hs;
    [discriminate|].
  cbn. intros H. injection H as ->.
  destruct (sorted_reverse_head_first _ _ Hs) as (pre & post & Hl & Hpre).
  destruct (sorted_reverse_head _ _ Hs) as [_ Hmax].
  exists pre, post. repeat split; auto.
  intros y Hy. apply Hmax. rewrite Hl. apply in_or_app. right. now right.
Qed.

(** X2. Which candidate [get_update] returns. The candidates are the
    records of the lines with the marker, in the order of the listing; the
    record returned is the first one whose version string is the greatest
    in the order of strings: every candidate listed before it has a
    strictly smaller version string, and no candidate listed after it has a
    greater one. *)
Theorem get_update_returns_first_greatest w rc out :
  catalog w = Completed rc out ->
  (forall u,
     fst (DownloadMacOS.get_update w) = Ok u ->
     exists pre post,
       map_result DownloadMacOS.make_update (Spec.version_lines out)
       = Ok (pre ++ u :: post)%list
       /\ (forall y, In y pre ->
             Py.str_lt (Catalog.version y) (Catalog.version u) = true)
       /\ (forall y, In y post ->
             Py.str_lt (Catalog.version u) (Catalog.version y) = false))
  /\ (forall u,
        fst (macOSReleaseProvider.get_update w) = Ok u ->
        exists pre post,
          map_result macOSReleaseProvider.make_update (Spec.version_lines out)
          = Ok (pre ++ u :: post)%list
          /\ (forall y, In y pre ->
                Py.str_lt (Catalog.version y) (Catalog.version u) = true)
          /\ (forall y, In y post ->
                Py.str_lt (Catalog.version u) (Catalog.version y) = false)).
Proof.
  intros Hc. split; intros u.
  - rewrite (DownloadMacOS_get_update_completed _ Hc),
      get_update_candidates_DownloadMacOS.
    destruct (map_result _ _) as [[|a t]|e]; try discriminate.
    intros H. apply first_greatest_candidate in H
      as (pre & post & -> & Hpre & Hpost).
    exists pre, post. auto.
  - rewrite (macOSReleaseProvider_get_update_completed _ Hc),
      get_update_candidates_macOSReleaseProvider.
    destruct (map_result _ _) as [[|a t]|e]; try discriminate.
    intros H. apply first_greatest_candidate in H
      as (pre & post & -> & Hpre & Hpost).
    exists pre, post. auto.
Qed.

Lemma get_update_returns_first_greatest_witness :
  exists pre post,
    map_result DownloadMacOS.make_update
      (Spec.version_lines Examples.tied_versions)
    = Ok (pre ++ {| Catalog.name := "macOS Monterey A";
                    Catalog.version := "12.9";
                    Catalog.size := 9453092000 |} :: post)%list
    /\ (forall y, In y pre ->
          Py.str_lt (Catalog.version y) "12.9" = true)
    /\ (forall y, In y post ->
          Py.str_lt "12.9" (Catalog.version y) = false).
Proof.
  apply (proj1 (@get_update_returns_first_greatest
                  (Examples.listing_world (Completed 0 Examples.tied_versions))
                  0 Examples.tied_versions eq_refl)
           {| Catalog.name := "macOS Monterey A"; Catalog.version := "12.9";
              Catalog.size := 9453092000 |}).
  reflexivity.
Defined.

(** ** The two resolvers against each other *)

(** A line that the combined downloader parses is parsed by the standalone
    resolver too, to the same offer. *)
Lemma make_update_same_offer line u :
  DownloadMacOS.make_update line = Ok u ->
  exists u', macOSReleaseProvider.make_update line = Ok u'
             /\ Spec.same_offer u u'.
Proof.
  unfold DownloadMacOS.make_update, macOSReleaseProvider.make_update.
  destruct (Catalog.update_info line) as [info|]; [|discriminate].
  cbn [rbind].
  destruct (Py.getitem info 0) as [n|]; [|discriminate].
  destruct (Py.getitem info 1) as [v|]; [|discriminate].
  destruct (Py.getitem info 2) as [s|]; [|discriminate].
  cbn [rbind].
  destruct (Py.int (Py.rstrip_K s)) as [k|] eqn:Hk; [|discriminate].
  cbn [rbind]. intros H. injection H as <-.
  eexists. split; [reflexivity|].
  repeat split. cbn. eauto.
Qed.

Lemma map_result_Forall2 {A B C} (f : A -> result B) (g : A -> result C)
  (R : B -> C -> Prop) l :
  (forall x y, f x = Ok y -> exists y', g x = Ok y' /\ R y y') ->
  forall ys, map_result f l = Ok ys ->
             exists ys', map_result g l = Ok ys' /\ Forall2 R ys ys'.
Proof.
  intros Hfg. induction l as [|a t IH]; simpl; intros ys H.
  - injection H as <-. eauto.
  - destruct (f a) as [b|] eqn:Hf; [|discriminate].
    destruct (map_result f t) as [bs|]; [|discriminate].
    injection H as <-.
    destruct (Hfg _ _ Hf) as (c & -> & Hr).
    destruct (IH _ eq_refl) as (cs & -> & Hrs). eauto.
Qed.

Section SortedTogether.

Context {A B : Type} (keyA : A -> string) (keyB : B -> string)
  (R : A -> B -> Prop).
Hypothesis R_key : forall a b, R a b -> keyA a = keyB b.

(** Two lists that are related element by element, with equal keys, are
    sorted in the same way. *)
Lemma insert_desc_Forall2 a b l l' :
  R a b -> Forall2 R l l' ->
  Forall2 R (Py.insert_desc keyA a l) (Py.insert_desc keyB b l').
Proof.
  intros Hab H. induction H as [|x y l l' Hxy H IH]; simpl.
  - auto.
  - rewrite <- (R_key Hab), <- (R_key Hxy).
    destruct (Py.str_lt (keyA a) (keyA x)); auto.
Qed.

Lemma sorted_reverse_Forall2 l l' :
  Forall2 R l l' ->
  Forall2 R (Py.sorted_reverse keyA l) (Py.sorted_reverse keyB l').
Proof.
  intros H. induction H as [|x y l l' Hxy H IH]; simpl; [constructor|].
  now apply insert_desc_Forall2.
Qed.

End SortedTogether.

(** X3. The combined downloader and the standalone resolver agree: on the
    same output of the catalog command, whenever [DownloadMacOS.get_update]
    returns a record, [macOSReleaseProvider.get_update] returns the record
    of the same offer, with the same name and version; the integer size of
    the first is the raw size of the second without its trailing [K]s,
    times 1000. *)
Theorem get_update_variants_agree w rc out u :
  catalog w = Completed rc out ->
  fst (DownloadMacOS.get_update w) = Ok u ->
  exists u', fst (macOSReleaseProvider.get_update w) = Ok u'
             /\ Spec.same_offer u u'.
Proof.
  intros Hc.
  rewrite (DownloadMacOS_get_update_completed _ Hc),
    (macOSReleaseProvider_get_update_completed _ Hc),
    get_update_candidates_DownloadMacOS,
    get_update_candidates_macOSReleaseProvider.
  destruct (map_result DownloadMacOS.make_update _) as [l|e] eqn:Hl;
    [|discriminate].
  destruct (map_result_Forall2 _ macOSReleaseProvider.make_update
              Spec.same_offer _ make_update_same_offer Hl)
    as (l' & -> & Hrel).
  destruct l as [|a t]; [discriminate|].
  inversion Hrel as [|a0 a' t0 t' Ha Ht]; subst.
  assert (Hs : Forall2 Spec.same_offer
                 (Py.sorted_reverse (@Catalog.version Z) (a :: t))
                 (Py.sorted_reverse (@Catalog.version string) (a' :: t'))).
  { apply sorted_reverse_Forall2; [|assumption].
    intros x y (_ & Hv & _). exact Hv. }
  unfold Py.getitem.
  destruct Hs as [|x y s s' Hxy _]; [discriminate|].
  cbn. intros H. injection H as <-. eauto.
Qed.

Lemma get_update_variants_agree_witness :
  exists u',
    fst (macOSReleaseProvider.get_update
           (Examples.listing_world (Completed 0 Examples.tied_versions)))
    = Ok u'
    /\ Spec.same_offer
         {| Catalog.name := "macOS Monterey A"; Catalog.version := "12.9";
            Catalog.size := 9453092000 |} u'.
Proof.
  apply (@get_update_variants_agree
           (Examples.listing_world (Completed 0 Examples.tied_versions))
           0 Examples.tied_versions _ eq_refl).
  reflexivity.
Defined.

(** ** The fields of a parsed line *)

Lemma split_pieces_no_sep sep s piece :
  In piece (Py.split sep s) -> Spec.has_char sep piece = false.
Proof.
  revert piece. induction s as [|c r IH]; simpl; intros piece Hin.
  - destruct Hin as [<- | []]. reflexivity.
  - destruct (Ascii.eqb c sep) eqn:Hc.
    + destruct Hin as [<- | Hin]; [reflexivity | auto].
    + destruct (Py.split sep r) as [|h t] eqn:Hs;
        [now apply split_not_nil in Hs|].
      destruct Hin as [<- | Hin].
      * simpl. rewrite Hc. apply IH. now left.
      * apply IH. now right.
Qed.

Lemma split_pieces_sub sep d s piece :
  In piece (Py.split sep s) ->
  Spec.has_char d piece = true -> Spec.has_char d s = true.
Proof.
  revert piece. induction s as [|c r IH]; simpl; intros piece Hin Hd.
  - destruct Hin as [<- | []]. discriminate.
  - destruct (Ascii.eqb c sep) eqn:Hc.
    + destruct Hin as [<- | Hin]; [discriminate|].
      rewrite (IH _ Hin Hd). apply orb_true_r.
    + destruct (Py.split sep r) as [|h t] eqn:Hs;
        [now apply split_not_nil in Hs|].
      destruct Hin as [<- | Hin].
      * simpl in Hd. apply orb_true_iff in Hd as [Hd | Hd].
        -- now rewrite Hd.
        -- rewrite (IH h (or_introl eq_refl) Hd). apply orb_true_r.
      * rewrite (IH _ (or_intror Hin) Hd). apply orb_true_r.
Qed.

Lemma lstrip_by_sub p d s :
  Spec.has_char d (Py.lstrip_by p s) = true -> Spec.has_char d s = true.
Proof.
  induction s as [|c r IH]; simpl; [auto|].
  destruct (p c); [|auto].
  intros H. rewrite (IH H). apply orb_true_r.
Qed.

Lemma rstrip_by_sub p d s :
  Spec.has_char d (Py.rstrip_by p s) = true -> Spec.has_char d s = true.
Proof.
  induction s as [|c r IH]; simpl; [auto|].
  destruct (Py.rstrip_by p r) as [|e q].
  - destruct (p c); simpl; [discriminate|].
    rewrite orb_false_r. intros ->. reflexivity.
  - simpl in *. intros H. apply orb_true_iff in H as [H | H].
    + now rewrite H.
    + rewrite (IH H). apply orb_true_r.
Qed.

Lemma strip_sub d s :
  Spec.has_char d (Py.strip s) = true -> Spec.has_char d s = true.
Proof.
  unfold Py.strip. intros H.
  apply rstrip_by_sub in H. now apply lstrip_by_sub in H.
Qed.

Lemma lstrip_by_starts_clean p s : Spec.starts_clean p (Py.lstrip_by p s) = true.
Proof.
  induction s as [|c r IH]; simpl; [reflexivity|].
  destruct (p c) eqn:Hc; [exact IH|]. simpl. now rewrite Hc.
Qed.

Lemma lstrip_by_clean p s :
  Spec.starts_clean p s = true -> Py.lstrip_by p s = s.
Proof.
  destruct s as [|c r]; simpl; [reflexivity|].
  destruct (p c); [discriminate | reflexivity].
Qed.

Lemma rstrip_by_starts_clean p s :
  Spec.starts_clean p s = true -> Spec.starts_clean p (Py.rstrip_by p s) = true.
Proof.
  destruct s as [|c r]; simpl; [reflexivity|].
  intros Hc. destruct (Py.rstrip_by p r); [|exact Hc].
  destruct (p c) eqn:Hpc; [discriminate|]. simpl. now rewrite Hpc.
Qed.

Lemma rstrip_by_idempotent p s :
  Py.rstrip_by p (Py.rstrip_by p s) = Py.rstrip_by p s.
Proof.
  induction s as [|c r IH]; simpl; [reflexivity|].
  destruct (Py.rstrip_by p r) as [|e q] eqn:Hr.
  - destruct (p c) eqn:Hc; simpl; [reflexivity|]. now rewrite Hc.
  - cbn [Py.rstrip_by]. cbn [Py.rstrip_by] in IH. rewrite IH. reflexivity.
Qed.

Lemma strip_idempotent s : Py.strip (Py.strip s) = Py.strip s.
Proof.
  unfold Py.strip.
  rewrite (lstrip_by_clean Py.isspace
             (Py.rstrip_by Py.isspace (Py.lstrip_by Py.isspace s))).
  - apply rstrip_by_idempotent.
  - apply rstrip_by_starts_clean, lstrip_by_starts_clean.
Qed.

Lemma getitem_In {A} (l : list A) i x : Py.getitem l i = Ok x -> In x l.
Proof.
  unfold Py.getitem. destruct (nth_error l i) as [a|] eqn:H; [|discriminate].
  intros E. injection E as <-. eapply nth_error_In; eauto.
Qed.

(** Every field that the comprehension produces is clean. *)
Lemma update_info_clean line info x :
  Catalog.update_info line = Ok info -> In x info ->
  Spec.clean_field x = true.
Proof.
  unfold Catalog.update_info. intros H Hin.
  destruct (@map_result_In _ _ _ _ _ _ H Hin) as (seg & Hseg & Hx).
  destruct (Py.getitem (Py.split ":"%char seg) 1) as [v|] eqn:Hv;
    [|discriminate].
  cbn in Hx. injection Hx as <-. apply getitem_In in Hv.
  unfold Spec.clean_field.
  rewrite strip_idempotent, String.eqb_refl, andb_true_r.
  apply andb_true_iff. split; apply negb_true_iff.
  - destruct (Spec.has_char ","%char (Py.strip v)) eqn:Hc; [|reflexivity].
    apply strip_sub in Hc.
    apply (@split_pieces_sub _ _ _ _ Hv) in Hc.
    now rewrite (@split_pieces_no_sep _ _ _ Hseg) in Hc.
  - destruct (Spec.has_char ":"%char (Py.strip v)) eqn:Hc; [|reflexivity].
    apply strip_sub in Hc.
    now rewrite (@split_pieces_no_sep _ _ _ Hv) in Hc.
Qed.

(** X4. The name and the version of a parsed record (and the raw size, in
    the standalone resolver) are clean: they hold no comma and no colon, so
    a value is cut at its first colon, and no whitespace is left at either
    end. *)
Theorem parsed_fields_are_clean line :
  (forall u,
     DownloadMacOS.make_update line = Ok u ->
     Spec.clean_field (Catalog.name u) = true
     /\ Spec.clean_field (Catalog.version u) = true)
  /\ (forall u',
        macOSReleaseProvider.make_update line = Ok u' ->
        Spec.clean_field (Catalog.name u') = true
        /\ Spec.clean_field (Catalog.version u') = true
        /\ Spec.clean_field (Catalog.size u') = true).
Proof.
  split.
  - intros u.
    unfold DownloadMacOS.make_update.
    destruct (Catalog.update_info line) as [info|] eqn:Hi; [|discriminate].
    cbn [rbind].
    destruct (Py.getitem info 0) as [n|] eqn:Hn; [|discriminate].
    destruct (Py.getitem info 1) as [v|] eqn:Hv; [|discriminate].
    destruct (Py.getitem info 2) as [s|]; [|discriminate].
    cbn [rbind]. destruct (Py.int _); [|discriminate].
    cbn [rbind]. intros H. injection H as <-. cbn.
    split; eapply update_info_clean; eauto using getitem_In.
  - intros u'.
    unfold macOSReleaseProvider.make_update.
    destruct (Catalog.update_info line) as [info|] eqn:Hi; [|discriminate].
    cbn [rbind].
    destruct (Py.getitem info 0) as [n|] eqn:Hn; [|discriminate].
    destruct (Py.getitem info 1) as [v|] eqn:Hv; [|discriminate].
    destruct (Py.getitem info 2) as [s|] eqn:Hs; [|discriminate].
    cbn [rbind]. intros H. injection H as <-. cbn.
    repeat split; eapply update_info_clean; eauto using getitem_In.
Qed.

Lemma parsed_fields_are_clean_witness :
  Spec.clean_field "macOS" = true /\ Spec.clean_field "11.6" = true
  /\ Spec.clean_field "12G" = true.
Proof.
  apply (proj2 (parsed_fields_are_clean
                  "  Title :  macOS: Big Sur , Version:11.6 ,Size: 12G ")
           {| Catalog.name := "macOS"; Catalog.version := "11.6";
              Catalog.size := "12G" |}).
  reflexivity.
Defined.

(** What [get_update] leaves behind, in both processors. *)
Lemma get_update_footprint w :
  (env (snd (DownloadMacOS.get_update w)) = env w
   /\ fs (snd (DownloadMacOS.get_update w)) = fs w
   /\ images (snd (DownloadMacOS.get_update w)) = images w
   /\ exists logs,
        trace (snd (DownloadMacOS.get_update w))
        = (trace w ++ Softwareupdate_list :: logs)%list
        /\ forallb Spec.is_output logs = true)
  /\ (env (snd (macOSReleaseProvider.get_update w)) = env w
      /\ fs (snd (macOSReleaseProvider.get_update w)) = fs w
      /\ images (snd (macOSReleaseProvider.get_update w)) = images w
      /\ exists logs,
           trace (snd (macOSReleaseProvider.get_update w))
           = (trace w ++ Softwareupdate_list :: logs)%list
           /\ forallb Spec.is_output logs = true).
Proof.
  split.
  - unfold DownloadMacOS.get_update, bind, try_wrap,
      Catalog.softwareupdate_list, lift.
    destruct (catalog w) as [e|rc out]; cbn [snd fst].
    + repeat split. exists []. split; reflexivity.
    + destruct (Catalog.parse_lines _ _ _) as [[|u l]|e]; cbn [snd fst].
      * repeat split. exists []. split; reflexivity.
      * destruct (Py.getitem _ 0) as [x|e]; cbn [snd fst].
        -- unfold gets, output, modify, ret. cbn [fst snd].
           destruct (2 <=? _);
             cbn [fst snd env fs images trace log_event]; repeat split;
             rewrite <- !app_assoc; cbn [app]; eexists; split; reflexivity.
        -- repeat split. exists []. split; reflexivity.
      * repeat split. exists []. split; reflexivity.
  - unfold macOSReleaseProvider.get_update, bind, try_wrap,
      Catalog.softwareupdate_list, lift.
    destruct (catalog w) as [e|rc out]; cbn [snd fst].
    + repeat split. exists []. split; reflexivity.
    + destruct (Catalog.parse_lines _ _ _) as [[|u l]|e]; cbn [snd fst].
      * repeat split. exists []. split; reflexivity.
      * destruct (Py.getitem _ 0) as [x|e]; cbn [snd fst].
        -- unfold gets, output, modify, ret. cbn [fst snd].
           destruct (3 <=? _);
             cbn [fst snd env fs images trace log_event]; repeat split;
             rewrite <- !app_assoc; cbn [app]; eexists; split; reflexivity.
        -- repeat split. exists []. split; reflexivity.
      * repeat split. exists []. split; reflexivity.
Qed.

(** X5. [get_update] only asks the catalog: whatever the outcome, it runs
    the catalog command once, as the first thing, and then only logs; it
    runs no other command and leaves the [env] dictionary, the file system
    and the mounted images as they were. *)
Theorem get_update_only_queries_catalog w :
  (env (snd (DownloadMacOS.get_update w)) = env w
   /\ fs (snd (DownloadMacOS.get_update w)) = fs w
   /\ images (snd (DownloadMacOS.get_update w)) = images w
   /\ exists logs,
        trace (snd (DownloadMacOS.get_update w))
        = (trace w ++ Softwareupdate_list :: logs)%list
        /\ forallb Spec.is_output logs = true)
  /\ (env (snd (macOSReleaseProvider.get_update w)) = env w
      /\ fs (snd (macOSReleaseProvider.get_update w)) = fs w
      /\ images (snd (macOSReleaseProvider.get_update w)) = images w
      /\ exists logs,
           trace (snd (macOSReleaseProvider.get_update w))
           = (trace w ++ Softwareupdate_list :: logs)%list
           /\ forallb Spec.is_output logs = true).
Proof. exact (get_update_footprint w). Qed.

(** ** The mounts that the utility lists *)

Lemma first_mount_point_In ents mp :
  Installer.first_mount_point ents = Some mp ->
  exists e, In e ents /\ mount_point e = Some mp.
Proof.
  induction ents as [|e t IH]; simpl; [discriminate|].
  destruct (mount_point e) as [p|] eqn:He.
  - intros H. injection H as <-. eauto.
  - intros H. destruct (IH H) as (e' & ? & ?). eauto.
Qed.

Lemma first_mount_point_none ents :
  Installer.first_mount_point ents = None
  <-> existsb (fun e => match mount_point e with
                        | Some _ => true
                        | None => false
                        end) ents = false.
Proof.
  induction ents as [|e t IH]; simpl; [tauto|].
  destruct (mount_point e); simpl; [split; discriminate | exact IH].
Qed.

Lemma scan_mounts_In imgs path mp :
  Installer.scan_mounts imgs path = Some mp ->
  exists i e, In i imgs /\ image_path i = path
              /\ In e (system_entities i) /\ mount_point e = Some mp.
Proof.
  induction imgs as [|m t IH]; simpl; [discriminate|].
  destruct (String.eqb_spec (image_path m) path) as [Hp|Hp].
  - destruct (Installer.first_mount_point (system_entities m)) as [p|] eqn:Hf.
    + intros H. injection H as <-.
      destruct (first_mount_point_In _ Hf) as (e & ? & ?).
      exists m, e. auto.
    + intros H. destruct (IH H) as (i & e & ? & ? & ? & ?).
      exists i, e. auto.
  - intros H. destruct (IH H) as (i & e & ? & ? & ? & ?).
    exists i, e. auto.
Qed.

Lemma scan_mounts_none imgs path :
  Installer.scan_mounts imgs path = None
  <-> Spec.listed_with_mount path imgs = false.
Proof.
  unfold Spec.listed_with_mount.
  induction imgs as [|m t IH]; simpl; [tauto|].
  destruct (String.eqb (image_path m) path); simpl; [|exact IH].
  destruct (Installer.first_mount_point (system_entities m)) as [p|] eqn:Hf.
  - assert (He : existsb (fun e => match mount_point e with
                                   | Some _ => true
                                   | None => false
                                   end) (system_entities m) = true).
    { destruct (existsb _ (system_entities m)) eqn:Hex; [reflexivity|].
      apply first_mount_point_none in Hex. congruence. }
    rewrite He. simpl. split; discriminate.
  - apply first_mount_point_none in Hf. rewrite Hf. simpl. exact IH.
Qed.

(** X6. [get_dmg_mount_point] runs the query of the current mounts and
    nothing else. If the query fails, its exception is raised as it is.
    Otherwise the answer is [None] exactly when no listed image with that
    very path has an entity with a mount point, and a mount point that is
    returned belongs to an entity of a listed image with that path. *)
Theorem get_dmg_mount_point_reads_the_listing w path :
  (forall e,
     fault_of Hdiutil_info w = Some e ->
     Installer.get_dmg_mount_point path w = (Raise e, after Hdiutil_info w))
  /\ (fault_of Hdiutil_info w = None ->
      exists r,
        Installer.get_dmg_mount_point path w = (Ok r, after Hdiutil_info w)
        /\ (r = None <-> Spec.listed_with_mount path (images w) = false)
        /\ (forall mp, r = Some mp ->
              exists i e, In i (images w) /\ image_path i = path
                          /\ In e (system_entities i)
                          /\ mount_point e = Some mp))
  /\ images (after Hdiutil_info w) = images w
  /\ trace (after Hdiutil_info w) = (trace w ++ [Hdiutil_info])%list.
Proof.
  unfold Installer.get_dmg_mount_point, hdiutil_info, bind, run_cmd, gets, ret.
  repeat split.
  - intros e ->. reflexivity.
  - intros ->. change (images (after Hdiutil_info w)) with (images w).
    exists (Installer.scan_mounts (images w) path).
    split; [reflexivity|]. split.
    + apply scan_mounts_none.
    + intros mp. apply scan_mounts_In.
Qed.

Lemma get_dmg_mount_point_reads_the_listing_witness :
  exists r,
    Installer.get_dmg_mount_point
      (Installer.sharedsupport_dmg Examples.installer_app)
      Examples.premounted_world
    = (Ok r, after Hdiutil_info Examples.premounted_world)
    /\ (r = None
        <-> Spec.listed_with_mount
              (Installer.sharedsupport_dmg Examples.installer_app)
              (images Examples.premounted_world) = false).
Proof.
  destruct (proj1 (proj2 (get_dmg_mount_point_reads_the_listing
                            Examples.premounted_world
                            (Installer.sharedsupport_dmg
                               Examples.installer_app))) eq_refl)
    as (r & Hr & Hnone & _).
  exists r. split; assumption.
Defined.

(** ** How mounting fails *)

(** X7. The ways in which [mount_dmg] fails. A failure of the query of the
    current mounts is raised as it is. When the image is not listed with a
    mount point, a failure of the attach operation, whatever it is, becomes
    [ProcessorError "Could not mount <path>"]; and an attach that succeeds
    without reporting any mount point raises [IndexError], while the image
    stays attached. *)
Theorem mount_dmg_failures w path :
  (forall e,
     fault_of Hdiutil_info w = Some e ->
     Installer.mount_dmg path w = (Raise e, after Hdiutil_info w))
  /\ (fault_of Hdiutil_info w = None ->
      Py.truthy_opt (Installer.scan_mounts (images w) path) = false ->
      (forall e,
         fault_of (Hdiutil_attach path) (after Hdiutil_info w) = Some e ->
         Installer.mount_dmg path w
         = (Raise (ProcessorError ("Could not mount " ++ path)),
            after (Hdiutil_attach path) (after Hdiutil_info w)))
      /\ (fault_of (Hdiutil_attach path) (after Hdiutil_info w) = None ->
          Installer.first_mount_point
            (dmg_entities
               (fs (after (Hdiutil_attach path) (after Hdiutil_info w)))
               path) = None ->
          fst (Installer.mount_dmg path w) = Raise IndexError
          /\ images (snd (Installer.mount_dmg path w))
             = (images w
                ++ [{| image_path := path;
                       system_entities :=
                         dmg_entities
                           (fs (after (Hdiutil_attach path)
                                  (after Hdiutil_info w))) path |}])%list)).
Proof.
  unfold Installer.mount_dmg, Installer.get_dmg_mount_point, hdiutil_info,
    bind, run_cmd, gets, ret.
  split.
  - intros e ->. reflexivity.
  - intros -> Hs.
    change (images (after Hdiutil_info w)) with (images w). rewrite Hs.
    unfold try_except, hdiutil_attach, bind, run_cmd, gets, modify, ret,
      raise, lift, Installer.attached_mount_point.
    split.
    + intros e ->. reflexivity.
    + intros -> Hn. cbn [fst snd]. rewrite Hn. split; reflexivity.
Qed.

Lemma mount_dmg_failures_witness :
  Installer.mount_dmg "/tmp/broken.dmg"
    (Examples.embedded_world None
       (fun _ ev f =>
          (match ev with
           | Hdiutil_attach _ => Some CalledProcessError
           | _ => None
           end, f)))
  = (Raise (ProcessorError "Could not mount /tmp/broken.dmg"),
     after (Hdiutil_attach "/tmp/broken.dmg")
       (after Hdiutil_info
          (Examples.embedded_world None
             (fun _ ev f =>
                (match ev with
                 | Hdiutil_attach _ => Some CalledProcessError
                 | _ => None
                 end, f)))))
  /\ fst (Installer.mount_dmg "/tmp/empty.dmg"
            (Examples.embedded_world None Examples.calm))
     = Raise IndexError.
Proof.
  split.
  - apply (proj1 (proj2 (mount_dmg_failures
                           (Examples.embedded_world None
                              (fun _ ev f =>
                                 (match ev with
                                  | Hdiutil_attach _ => Some CalledProcessError
                                  | _ => None
                                  end, f)))
                           "/tmp/broken.dmg") eq_refl eq_refl)
             CalledProcessError eq_refl).
  - apply (proj2 (proj2 (mount_dmg_failures
                           (Examples.embedded_world None Examples.calm)
                           "/tmp/empty.dmg") eq_refl eq_refl)
             eq_refl eq_refl).
Defined.

(** ** The commands of version extraction *)

(** Whatever its outcome, [mount_dmg] has run the query, and at most the
    attach after it. *)
Lemma mount_dmg_trace path w :
  trace (snd (Installer.mount_dmg path w)) = (trace w ++ [Hdiutil_info])%list
  \/ trace (snd (Installer.mount_dmg path w))
     = (trace w ++ [Hdiutil_info; Hdiutil_attach path])%list.
Proof.
  unfold Installer.mount_dmg, Installer.get_dmg_mount_point, hdiutil_info,
    bind, run_cmd, gets, ret.
  destruct (fault_of Hdiutil_info w); [left; reflexivity|].
  destruct (Py.truthy_opt _); [left; reflexivity|].
  right.
  unfold try_except, hdiutil_attach, bind, run_cmd, gets, modify, ret,
    raise, lift.
  destruct (fault_of (Hdiutil_attach path) (after Hdiutil_info w));
    cbn [fst snd trace after log_event set_fs set_images];
    now rewrite <- app_assoc.
Qed.

(** X8. What [get_os_version] does to the machine, on every bundle and
    whatever happens: it leaves the [env] dictionary alone, and the
    commands it runs are nothing, or the query of the mounts, possibly
    followed by the attach of the bundle's support image, possibly
    followed by one detach. It never runs the catalog or the download
    command, never copies, and never logs. *)
Theorem get_os_version_commands w app_path :
  env (snd (Installer.get_os_version app_path w)) = env w
  /\ (Spec.new_events (Installer.get_os_version app_path) w = []
      \/ Spec.new_events (Installer.get_os_version app_path) w
         = [Hdiutil_info]
      \/ Spec.new_events (Installer.get_os_version app_path) w
         = [Hdiutil_info;
            Hdiutil_attach (Installer.sharedsupport_dmg app_path)]
      \/ (exists mp,
            Spec.new_events (Installer.get_os_version app_path) w
            = [Hdiutil_info; Hdiutil_detach mp])
      \/ (exists mp,
            Spec.new_events (Installer.get_os_version app_path) w
            = [Hdiutil_info;
               Hdiutil_attach (Installer.sharedsupport_dmg app_path);
               Hdiutil_detach mp])).
Proof.
  split; [apply env_stable_get_os_version|].
  unfold Spec.new_events.
  destruct (isfile (fs w) (Installer.installinfo_plist app_path)) eqn:Hi.
  - left. unfold Installer.get_os_version, bind, os_path_isfile, gets,
      Installer.get_plist_key.
    rewrite Hi. cbn [snd]. apply skipn_all.
  - destruct (isfile (fs w) (Installer.sharedsupport_dmg app_path)) eqn:Hd.
    + rewrite (get_os_version_embedded _ _ Hi Hd).
      pose proof (mount_dmg_trace (Installer.sharedsupport_dmg app_path) w)
        as Ht.
      destruct (Installer.mount_dmg _ w) as [[mp|e] w1]; cbn [snd] in Ht.
      * destruct (Py.truthy mp).
        -- assert (Hd' : trace (snd
                      match fault_of (Hdiutil_detach mp) w1 with
                      | Some e => (@Raise string e, after (Hdiutil_detach mp) w1)
                      | None =>
                          (Ok match Spec.nested_version (fs w1) mp with
                              | Some v => v
                              | None => EmptyString
                              end,
                           set_images (Spec.without_mount mp (images w1))
                             (after (Hdiutil_detach mp) w1))
                      end) = (trace w1 ++ [Hdiutil_detach mp])%list)
             by (destruct (fault_of (Hdiutil_detach mp) w1); reflexivity).
           rewrite Hd'.
           destruct Ht as [-> | ->]; rewrite <- app_assoc, skipn_length_app.
           ++ right. right. right. left. exists mp. reflexivity.
           ++ right. right. right. right. exists mp. reflexivity.
        -- cbn [snd].
           destruct Ht as [-> | ->]; rewrite skipn_length_app; auto.
      * cbn [snd].
        destruct Ht as [-> | ->]; rewrite skipn_length_app; auto.
    + left. unfold Installer.get_os_version, bind, os_path_isfile, gets, ret.
      rewrite Hi, Hd. cbn [snd]. apply skipn_all.
Qed.

(** X9. [get_os_version] unmounts what it did not mount. If the support
    image of the bundle is listed with a non-empty mount point before the
    call, the image is not attached again, the version is read under that
    mount point, and the mount point is detached all the same: after a
    detach that succeeds, no listed image is mounted there any more. *)
Theorem get_os_version_detaches_existing_mount w app_path mp :
  isfile (fs w) (Installer.installinfo_plist app_path) = false ->
  isfile (fs w) (Installer.sharedsupport_dmg app_path) = true ->
  fault_of Hdiutil_info w = None ->
  Installer.scan_mounts (images w) (Installer.sharedsupport_dmg app_path)
  = Some mp ->
  Py.truthy mp = true ->
  Spec.new_events (Installer.get_os_version app_path) w
  = [Hdiutil_info; Hdiutil_detach mp]
  /\ (fault_of (Hdiutil_detach mp) (after Hdiutil_info w) = None ->
      fst (Installer.get_os_version app_path w)
      = Ok (match Spec.nested_version (fs (after Hdiutil_info w)) mp with
            | Some v => v
            | None => EmptyString
            end)
      /\ images (snd (Installer.get_os_version app_path w))
         = Spec.without_mount mp (images w)
      /\ Installer.scan_mounts
           (images (snd (Installer.get_os_version app_path w)))
           (Installer.sharedsupport_dmg app_path) <> Some mp).
Proof.
  intros Hi Hd Hq Hs Hp. unfold Spec.new_events.
  rewrite (get_os_version_embedded _ _ Hi Hd),
    (mount_dmg_listed _ _ Hq Hs Hp), Hp.
  split.
  - destruct (fault_of (Hdiutil_detach mp) (after Hdiutil_info w));
      cbn [snd trace after log_event set_fs set_images];
      rewrite <- app_assoc; apply skipn_length_app.
  - intros ->. cbn [fst snd images after log_event set_fs set_images].
    repeat split.
    intros Hscan. apply scan_mounts_In in Hscan
      as (i & e & Hin & _ & He & Hmp).
    unfold Spec.without_mount in Hin. apply filter_In in Hin as [_ Hneg].
    apply negb_true_iff in Hneg.
    assert (Hex : existsb (mounted_at mp) (system_entities i) = true).
    { apply existsb_exists. exists e. split; [assumption|].
      unfold mounted_at. rewrite Hmp. apply String.eqb_refl. }
    congruence.
Qed.

Lemma get_os_version_detaches_existing_mount_witness :
  Spec.new_events (Installer.get_os_version Examples.installer_app)
    Examples.premounted_world
  = [Hdiutil_info; Hdiutil_detach Examples.support_volume]
  /\ fst (Installer.get_os_version Examples.installer_app
            Examples.premounted_world) = Ok "12.3".
Proof.
  destruct (@get_os_version_detaches_existing_mount
              Examples.premounted_world Examples.installer_app
              Examples.support_volume
              eq_refl eq_refl eq_refl eq_refl eq_refl) as [Hev Hok].
  split; [exact Hev | exact (proj1 (Hok eq_refl))].
Defined.

(** ** Locating an installer *)

(** Entries without the marker file are passed over, and the machine is
    not touched for them. *)
Lemma scan_installers_skip dir target w pre :
  forall rest,
    Spec.no_installer_bundle (fs w) dir pre = true ->
    Installer.scan_installers dir (pre ++ rest) target w
    = Installer.scan_installers dir rest target w.
Proof.
  unfold Spec.no_installer_bundle.
  induction pre as [|item pre IH]; intros rest H; [reflexivity|].
  cbn [forallb] in H. apply andb_true_iff in H as [Hm H].
  apply negb_true_iff in Hm. unfold Spec.startosinstall_path in Hm.
  cbn [app Installer.scan_installers]. unfold bind at 1, os_path_exists, gets.
  rewrite Hm. now apply IH.
Qed.

(** Without any entry that holds the marker file, nothing is found and
    nothing is run. *)
Lemma get_local_installer_no_bundle w dir target items :
  listdir (fs w) dir = Ok items ->
  Spec.no_installer_bundle (fs w) dir items = true ->
  Installer.get_local_installer dir target w = (Ok None, w).
Proof.
  unfold Installer.get_local_installer, bind, os_listdir.
  intros -> H.
  rewrite <- (app_nil_r items), (scan_installers_skip _ _ _ _ [] H).
  reflexivity.
Qed.

(** X10. A directory without any installer bundle: when no entry of the
    listing holds the marker file [Contents/Resources/startosinstall],
    [get_local_installer] returns [None], for every target version, and
    runs no command at all. A listing that fails raises its exception. *)
Theorem get_local_installer_none_without_bundles w dir target :
  (forall items,
     listdir (fs w) dir = Ok items ->
     Spec.no_installer_bundle (fs w) dir items = true ->
     Installer.get_local_installer dir target w = (Ok None, w))
  /\ (forall e,
        listdir (fs w) dir = Raise e ->
        Installer.get_local_installer dir target w = (Raise e, w)).
Proof.
  split.
  - intros items. apply get_local_installer_no_bundle.
  - unfold Installer.get_local_installer, bind, os_listdir.
    intros e ->. reflexivity.
Qed.

Lemma get_local_installer_none_without_bundles_witness :
  Installer.get_local_installer "/Applications" "12.3"
    Examples.plain_apps_world
  = (Ok None, Examples.plain_apps_world).
Proof.
  apply (proj1 (get_local_installer_none_without_bundles
                  Examples.plain_apps_world "/Applications" "12.3")
           ["Safari.app"; "Mail.app"]); reflexivity.
Defined.

(** X11. The first match wins. When the entries listed before [item] hold
    no marker file, [item] holds it, and the version extracted from [item]
    equals the target as a [LooseVersion], [get_local_installer] returns
    the path of [item] in the directory; the machine is as the extraction
    left it, so the entries listed after [item] are not inspected. *)
Theorem get_local_installer_first_match w dir target pre item post lv w1 :
  listdir (fs w) dir = Ok (pre ++ item :: post)%list ->
  Spec.no_installer_bundle (fs w) dir pre = true ->
  path_exists (fs w) (Spec.startosinstall_path dir item) = true ->
  Installer.get_os_version (Py.path_join dir [item]) w = (Ok lv, w1) ->
  LooseVersion.eq lv target = Ok true ->
  Installer.get_local_installer dir target w
  = (Ok (Some (Py.path_join dir [item])), w1).
Proof.
  intros Hl Hpre Hm Hv Heq.
  unfold Installer.get_local_installer, bind at 1, os_listdir.
  rewrite Hl, (scan_installers_skip _ _ _ _ _ Hpre).
  cbn [Installer.scan_installers]. unfold bind at 1, os_path_exists, gets.
  unfold Spec.startosinstall_path in Hm. rewrite Hm.
  unfold bind at 1. rewrite Hv. unfold bind, lift. now rewrite Heq.
Qed.

Lemma get_local_installer_first_match_witness :
  fst (Installer.get_local_installer "/Applications" "12.3"
         Examples.fresh_cache_world)
  = Ok (Some Examples.installer_app).
Proof.
  assert (Hv : Installer.get_os_version
                 (Py.path_join "/Applications" ["Install macOS Monterey.app"])
                 Examples.fresh_cache_world
               = (Ok "12.3",
                  snd (Installer.get_os_version Examples.installer_app
                         Examples.fresh_cache_world)))
    by (vm_compute; reflexivity).
  rewrite (@get_local_installer_first_match
             Examples.fresh_cache_world "/Applications" "12.3"
             ["Safari.app"] "Install macOS Monterey.app" [] "12.3" _
             eq_refl eq_refl eq_refl Hv eq_refl).
  reflexivity.
Defined.

(** The scan at the first entry that holds the marker file. *)
Lemma get_local_installer_at_first_bundle w dir target pre item post :
  listdir (fs w) dir = Ok (pre ++ item :: post)%list ->
  Spec.no_installer_bundle (fs w) dir pre = true ->
  path_exists (fs w) (Spec.startosinstall_path dir item) = true ->
  Installer.get_local_installer dir target w
  = bind (Installer.get_os_version (Py.path_join dir [item]))
      (fun local_version =>
         bind (lift (LooseVersion.eq local_version target))
           (fun same =>
              if same then ret (Some (Py.path_join dir [item]))
              else Installer.scan_installers dir post target)) w.
Proof.
  intros Hl Hpre Hm.
  unfold Installer.get_local_installer, bind at 1, os_listdir.
  rewrite Hl, (scan_installers_skip _ _ _ _ _ Hpre).
  cbn [Installer.scan_installers]. unfold bind at 1, os_path_exists, gets.
  unfold Spec.startosinstall_path in Hm. now rewrite Hm.
Qed.

(** The failing lookup is not caught on the way: the scan stops at the first
    installer bundle that has the direct descriptor. *)
Lemma get_local_installer_direct_descriptor w dir target pre item post :
  listdir (fs w) dir = Ok (pre ++ item :: post)%list ->
  Spec.no_installer_bundle (fs w) dir pre = true ->
  path_exists (fs w) (Spec.startosinstall_path dir item) = true ->
  isfile (fs w) (Installer.installinfo_plist (Py.path_join dir [item]))
  = true ->
  Installer.get_local_installer dir target w = (Raise AttributeError, w).
Proof.
  intros Hl Hpre Hm Hf.
  rewrite (@get_local_installer_at_first_bundle _ _ target _ _ _ Hl Hpre Hm).
  unfold bind at 1.
  now rewrite (get_os_version_direct_descriptor _ _ Hf).
Qed.

(** X12. A bundle without version metadata stops the scan. When the first
    entry with the marker file has neither the direct descriptor nor the
    embedded support image, its version is the empty string, of which
    [LooseVersion] has no [version] attribute: [get_local_installer] raises
    [AttributeError] instead of passing on to the next entry; it has run
    no command. The same happens for any bundle when the target version is
    the empty string. *)
Theorem get_local_installer_bare_bundle_raises w dir target pre item post :
  listdir (fs w) dir = Ok (pre ++ item :: post)%list ->
  Spec.no_installer_bundle (fs w) dir pre = true ->
  path_exists (fs w) (Spec.startosinstall_path dir item) = true ->
  (isfile (fs w) (Installer.installinfo_plist (Py.path_join dir [item]))
   = false ->
   isfile (fs w) (Installer.sharedsupport_dmg (Py.path_join dir [item]))
   = false ->
   Installer.get_local_installer dir target w = (Raise AttributeError, w))
  /\ (forall lv w1,
        Installer.get_os_version (Py.path_join dir [item]) w = (Ok lv, w1) ->
        target = EmptyString ->
        Installer.get_local_installer dir target w
        = (Raise AttributeError, w1)).
Proof.
  intros Hl Hpre Hm.
  rewrite (get_local_installer_at_first_bundle _ _ _ _ _ _ Hl Hpre Hm).
  split.
  - intros Hi Hd. unfold bind at 1.
    unfold Installer.get_os_version, bind at 1 2, os_path_isfile, gets, ret.
    rewrite Hi, Hd. reflexivity.
  - intros lv w1 Hv ->. unfold bind at 1. rewrite Hv.
    unfold bind, lift, LooseVersion.eq. cbn [LooseVersion.make Py.truthy].
    destruct (LooseVersion.make lv); reflexivity.
Qed.

Lemma get_local_installer_bare_bundle_raises_witness :
  Installer.get_local_installer "/Applications" "12.3"
    Examples.bare_bundle_world
  = (Raise AttributeError, Examples.bare_bundle_world).
Proof.
  apply (proj1 (@get_local_installer_bare_bundle_raises
                  Examples.bare_bundle_world "/Applications" "12.3"
                  [] "Install.app" ["Safari.app"]
                  eq_refl eq_refl eq_refl)); reflexivity.
Defined.

(** ** What a computation adds to the trace *)

Create HintDb emits.

Lemma emits_quiet {A} kind (c : M A) :
  (forall w, trace (snd (c w)) = trace w) -> emits kind c.
Proof.
  intros H w. exists []. rewrite H, app_nil_r. auto.
Qed.

Lemma emits_ret {A} kind (a : A) : emits kind (ret a).
Proof. now apply emits_quiet. Qed.

Lemma emits_raise {A} kind e : emits kind (@raise A e).
Proof. now apply emits_quiet. Qed.

Lemma emits_lift {A} kind (r : result A) : emits kind (lift r).
Proof. now apply emits_quiet. Qed.

Lemma emits_gets {A} kind (f : World -> A) : emits kind (gets f).
Proof. now apply emits_quiet. Qed.

Lemma emits_set_key kind f : emits kind (set_key f).
Proof. now apply emits_quiet. Qed.

Lemma emits_listdir kind p : emits kind (os_listdir p).
Proof. now apply emits_quiet. Qed.

Lemma emits_get_plist_key kind p k : emits kind (Installer.get_plist_key p k).
Proof. now apply emits_quiet. Qed.

Lemma emits_read_asset_version kind p :
  emits kind (Installer.read_asset_version p).
Proof. now apply emits_quiet. Qed.

Lemma emits_output (kind : event -> bool) msg :
  kind (Output msg) = true -> emits kind (output msg).
Proof.
  intros H w. exists [Output msg]. split; [reflexivity|].
  cbn. now rewrite H.
Qed.

Lemma emits_run_cmd (kind : event -> bool) ev :
  kind ev = true -> emits kind (run_cmd ev).
Proof.
  intros H w. exists [ev]. split; [reflexivity|]. cbn. now rewrite H.
Qed.

Lemma emits_bind {A B} kind (c : M A) (k : A -> M B) :
  emits kind c -> (forall a, emits kind (k a)) -> emits kind (bind c k).
Proof.
  intros Hc Hk w. unfold bind. destruct (Hc w) as (evs & Ht & Hp).
  destruct (c w) as [[a|e] w']; cbn [snd] in *; [|eauto].
  destruct (Hk a w') as (evs' & Ht' & Hp').
  exists (evs ++ evs')%list. rewrite Ht', Ht, app_assoc. split; [reflexivity|].
  now rewrite forallb_app, Hp, Hp'.
Qed.

Lemma emits_try_except {A} kind (body handler : M A) :
  emits kind body -> emits kind handler ->
  emits kind (try_except body handler).
Proof.
  intros Hb Hh w. unfold try_except. destruct (Hb w) as (evs & Ht & Hp).
  destruct (body w) as [[a|e] w']; cbn [snd] in *; [eauto|].
  destruct (Hh w') as (evs' & Ht' & Hp').
  exists (evs ++ evs')%list. rewrite Ht', Ht, app_assoc. split; [reflexivity|].
  now rewrite forallb_app, Hp, Hp'.
Qed.

Lemma emits_try_wrap {A} kind (body : M A) :
  emits kind body -> emits kind (try_wrap body).
Proof.
  intros Hb w. unfold try_wrap. destruct (Hb w) as (evs & Ht & Hp).
  destruct (body w) as [[a|e] w']; eauto.
Qed.

Lemma emits_try_finally {A B} kind (body : M A) (cleanup : M B) :
  emits kind body -> emits kind cleanup ->
  emits kind (try_finally body cleanup).
Proof.
  intros Hb Hc w. unfold try_finally. destruct (Hb w) as (evs & Ht & Hp).
  destruct (body w) as [r w']. cbn [snd] in *.
  destruct (Hc w') as (evs' & Ht' & Hp').
  exists (evs ++ evs')%list.
  destruct (cleanup w') as [[b|e] w'']; cbn [snd] in *;
    rewrite Ht', Ht, app_assoc; (split; [reflexivity|]);
    now rewrite forallb_app, Hp, Hp'.
Qed.

Lemma emits_weaken {A} (kind kind' : event -> bool) (c : M A) :
  (forall ev, kind ev = true -> kind' ev = true) ->
  emits kind c -> emits kind' c.
Proof.
  intros Hk Hc w. destruct (Hc w) as (evs & Ht & Hp).
  exists evs. split; [assumption|].
  rewrite forallb_forall in *. auto.
Qed.

#[local] Hint Resolve emits_ret emits_raise emits_lift emits_gets
  emits_set_key emits_listdir emits_get_plist_key emits_read_asset_version
  emits_try_except emits_try_wrap emits_try_finally : emits.

(** Splits a computation along its binds and branches. *)
Ltac emits_step :=
  match goal with
  | |- emits _ (bind _ _) => apply emits_bind; [|intros ?]
  | |- emits _ (try_except _ _) => apply emits_try_except
  | |- emits _ (try_wrap _) => apply emits_try_wrap
  | |- emits _ (try_finally _ _) => apply emits_try_finally
  | |- emits _ (if ?b then _ else _) => destruct b
  | |- emits _ (match ?o with Some _ => _ | None => _ end) => destruct o
  | |- emits _ (run_cmd _) => apply emits_run_cmd; reflexivity
  | |- emits _ (output _) => apply emits_output; reflexivity
  | |- emits _ (modify (fun w => set_images _ w)) =>
      apply emits_quiet; reflexivity
  | |- emits _ (modify (fun w => set_fs _ w)) =>
      apply emits_quiet; reflexivity
  | |- emits _ _ => solve [auto with emits]
  end.

Lemma emits_mount_dmg p : emits Spec.is_hdiutil (Installer.mount_dmg p).
Proof.
  unfold Installer.mount_dmg, Installer.get_dmg_mount_point, hdiutil_info,
    hdiutil_attach.
  repeat emits_step.
Qed.

Lemma emits_unmount_dmg p : emits Spec.is_hdiutil (Installer.unmount_dmg p).
Proof.
  unfold Installer.unmount_dmg, hdiutil_detach. repeat emits_step.
Qed.

#[local] Hint Resolve emits_mount_dmg emits_unmount_dmg : emits.

Lemma emits_get_os_version app_path :
  emits Spec.is_hdiutil (Installer.get_os_version app_path).
Proof.
  unfold Installer.get_os_version, os_path_isfile. repeat emits_step.
Qed.

#[local] Hint Resolve emits_get_os_version : emits.

Lemma emits_scan_installers dir items target :
  emits Spec.is_hdiutil (Installer.scan_installers dir items target).
Proof.
  induction items as [|item rest IH]; cbn [Installer.scan_installers].
  - auto with emits.
  - unfold os_path_exists. repeat emits_step; exact IH.
Qed.

#[local] Hint Resolve emits_scan_installers : emits.

Lemma emits_get_local_installer dir target :
  emits Spec.is_hdiutil (Installer.get_local_installer dir target).
Proof.
  unfold Installer.get_local_installer. repeat emits_step.
Qed.

(** X13. Locating an installer only drives the disk-image utility: every
    command that [get_local_installer] runs, for any directory, target and
    outcome, is a query, an attach or a detach of [hdiutil]; it never runs
    the catalog or the download command, never copies, never logs, and it
    leaves the [env] dictionary alone. *)
Theorem get_local_installer_only_hdiutil w dir target :
  env (snd (Installer.get_local_installer dir target w)) = env w
  /\ exists evs,
       trace (snd (Installer.get_local_installer dir target w))
       = (trace w ++ evs)%list
       /\ forallb Spec.is_hdiutil evs = true.
Proof.
  split.
  - apply env_stable_get_local_installer.
  - apply emits_get_local_installer.
Qed.

(** ** The download *)

(** A scan returns nothing but the path of an entry in the directory. *)
Lemma scan_installers_found dir target items :
  forall w p w1,
    Installer.scan_installers dir items target w = (Ok (Some p), w1) ->
    exists item, In item items /\ p = Py.path_join dir [item].
Proof.
  induction items as [|item rest IH]; intros w p w1 H.
  - discriminate.
  - cbn [Installer.scan_installers] in H.
    apply bind_ok_inv in H as (found & w2 & _ & H).
    destruct found.
    + apply bind_ok_inv in H as (lv & w3 & _ & H).
      apply bind_ok_inv in H as (same & w4 & _ & H).
      destruct same.
      * unfold ret in H. injection H as <- _. exists item. split; [now left|].
        reflexivity.
      * destruct (IH _ _ _ H) as (i & ? & ?). exists i. split; [now right|].
        assumption.
    + destruct (IH _ _ _ H) as (i & ? & ?). exists i. split; [now right|].
      assumption.
Qed.

(** A path that [get_local_installer] returns is that of an entry of the
    listing of the directory, taken when the function is called. *)
Lemma get_local_installer_found dir target w p w1 :
  Installer.get_local_installer dir target w = (Ok (Some p), w1) ->
  exists items item,
    listdir (fs w) dir = Ok items
    /\ In item items
    /\ p = Py.path_join dir [item].
Proof.
  unfold Installer.get_local_installer. intros H.
  apply bind_ok_inv in H as (items & w2 & Hl & H).
  unfold os_listdir in Hl. injection Hl as Hl _.
  destruct (scan_installers_found _ _ _ _ H) as (item & Hin & ->).
  exists items, item. auto.
Qed.

Lemma join_applications_truthy item :
  Py.truthy (Py.path_join "/Applications" [item]) = true.
Proof.
  unfold Py.path_join, Py.join2. cbn [fold_left].
  destruct (Py.startswith_sep item) eqn:Hs.
  - destruct item as [|c r]; [discriminate | reflexivity].
  - reflexivity.
Qed.

(** X14. The download. The two [download_macos] functions are the same
    computation when the record carries the version of the [env]. The
    download command is run first; only a failure to run it is fatal there,
    as a [ProcessorError] built from the exception, and then the
    applications directory is not even listed. Whether the download worked
    is judged by a new scan of the applications directory alone: without
    any installer bundle there, the outcome is
    [ProcessorError "Download was not successful or cannot find downloaded
    item"]; and a path that is returned is that of an entry of the
    applications directory, as listed after the download command. *)
Theorem download_macos_outcomes w (u : Catalog.update Z) :
  Catalog.version u = version (env w) ->
  macOSDownloader.download_macos w = DownloadMacOS.download_macos u w
  /\ (forall e,
        fault_of (Softwareupdate_fetch (version (env w))) w = Some e ->
        DownloadMacOS.download_macos u w
        = (Raise (ProcessorErrorFrom e),
           after (Softwareupdate_fetch (version (env w))) w))
  /\ (fault_of (Softwareupdate_fetch (version (env w))) w = None ->
      forall items,
        listdir (fs (after (Softwareupdate_fetch (version (env w))) w))
          "/Applications" = Ok items ->
        Spec.no_installer_bundle
          (fs (after (Softwareupdate_fetch (version (env w))) w))
          "/Applications" items = true ->
        DownloadMacOS.download_macos u w
        = (Raise (ProcessorError
                    "Download was not successful or cannot find downloaded item"),
           after (Softwareupdate_fetch (version (env w))) w))
  /\ (forall p w1,
        DownloadMacOS.download_macos u w = (Ok p, w1) ->
        fault_of (Softwareupdate_fetch (version (env w))) w = None
        /\ exists items item,
             listdir (fs (after (Softwareupdate_fetch (version (env w))) w))
               "/Applications" = Ok items
             /\ In item items
             /\ p = Py.path_join "/Applications" [item]).
Proof.
  intros Hv. split; [|split; [|split]].
  - unfold macOSDownloader.download_macos, DownloadMacOS.download_macos,
      macOSDownloader.get_local_installer, DownloadMacOS.get_local_installer,
      bind, gets, try_wrap, run_cmd.
    rewrite Hv.
    destruct (fault_of (Softwareupdate_fetch (version (env w))) w);
      reflexivity.
  - intros e He.
    unfold DownloadMacOS.download_macos, bind, try_wrap, run_cmd.
    rewrite Hv, He. reflexivity.
  - intros Hf items Hl Hn.
    unfold DownloadMacOS.download_macos, bind at 1, try_wrap, run_cmd.
    rewrite Hv, Hf. unfold bind, DownloadMacOS.get_local_installer.
    now rewrite (@get_local_installer_no_bundle _ _ _ _ Hl Hn).
  - intros p w1 H. unfold DownloadMacOS.download_macos in H.
    apply bind_ok_inv in H as (t & w2 & Hf & H).
    unfold try_wrap, run_cmd in Hf. rewrite Hv in Hf.
    destruct (fault_of (Softwareupdate_fetch (version (env w))) w);
      [discriminate|].
    injection Hf as _ <-.
    apply bind_ok_inv in H as (installer & w3 & Hg & H).
    unfold DownloadMacOS.get_local_installer in Hg.
    destruct installer as [q|]; [|discriminate].
    destruct (Py.truthy q); [|discriminate].
    unfold ret in H. injection H as <- _.
    split; [reflexivity|].
    exact (get_local_installer_found _ _ _ Hg).
Qed.

Lemma download_macos_outcomes_witness :
  macOSDownloader.download_macos Examples.plain_apps_world
  = DownloadMacOS.download_macos
      {| Catalog.name := "macOS Monterey"; Catalog.version := "12.3";
         Catalog.size := 9453092000 |}
      Examples.plain_apps_world
  /\ DownloadMacOS.download_macos
       {| Catalog.name := "macOS Monterey"; Catalog.version := "12.3";
          Catalog.size := 9453092000 |}
       Examples.plain_apps_world
     = (Raise (ProcessorError
                 "Download was not successful or cannot find downloaded item"),
        after (Softwareupdate_fetch "12.3") Examples.plain_apps_world).
Proof.
  destruct (@download_macos_outcomes Examples.plain_apps_world
              {| Catalog.name := "macOS Monterey"; Catalog.version := "12.3";
                 Catalog.size := 9453092000 |} eq_refl)
    as (Hsame & _ & Hnone & _).
  split; [exact Hsame|].
  exact (Hnone eq_refl ["Safari.app"; "Mail.app"] eq_refl eq_refl).
Defined.

(** ** The outputs of the cache manager *)

Lemma bind_ok_step {A B} (c : M A) (k : A -> M B) w a w' :
  c w = (Ok a, w') -> bind c k w = k a w'.
Proof. intros H. unfold bind. now rewrite H. Qed.

Lemma env_keeps_stable {A T} (view : Env -> T) (c : M A) :
  env_stable c -> env_keeps view c.
Proof. intros H w. now rewrite H. Qed.

Lemma env_keeps_bind {A B T} (view : Env -> T) (c : M A) (k : A -> M B) :
  env_keeps view c -> (forall a, env_keeps view (k a)) ->
  env_keeps view (bind c k).
Proof.
  intros Hc Hk w. unfold bind. specialize (Hc w).
  destruct (c w) as [[a|e] w']; cbn [snd] in *; [|exact Hc].
  now rewrite Hk.
Qed.

Lemma env_keeps_set_key {T} (view : Env -> T) f :
  (forall e, view (f e) = view e) -> env_keeps view (set_key f).
Proof. intros H w. cbn. apply H. Qed.

(** Once [changed] is set, the rest of [main] keeps every key but the
    summary of the download. *)
Lemma main_rest_keeps_core cache_path installer_cache_path :
  env_keeps Spec.env_core
    (bind (gets (fun w => version (env w)))
       (fun target =>
          bind (macOSDownloader.get_local_installer "/Applications" target)
            (fun installer =>
               bind
                 (if Py.truthy_opt installer then
                    bind (output ("Version already on system at "
                                  ++ match installer with
                                     | Some p => p
                                     | None => EmptyString
                                     end))
                      (fun _ => ret match installer with
                                    | Some p => p
                                    | None => EmptyString
                                    end)
                  else
                    bind (gets env)
                      (fun e =>
                         bind (output ("Downloading macOS " ++ release e
                                       ++ " " ++ version e ++ " (Size: "
                                       ++ size e ++ ")"))
                           (fun _ =>
                              bind macOSDownloader.download_macos
                                (fun installer =>
                                   bind (gets env)
                                     (fun e =>
                                        bind
                                          (set_key
                                             (with_summary
                                                ("New version of macOS has been downloaded",
                                                 [("release", release e);
                                                  ("version", version e);
                                                  ("download_path",
                                                   match pathname e with
                                                   | Some p => p
                                                   | None => EmptyString
                                                   end)])))
                                          (fun _ => ret installer))))))
                 (fun installer =>
                    bind (output "Creating copy for cache")
                      (fun _ =>
                         bind (os_makedirs (Py.path_join cache_path []))
                           (fun _ =>
                              shutil_copytree installer
                                installer_cache_path)))))).
Proof.
  repeat first
    [ solve [ apply env_keeps_stable;
              first [ apply env_stable_get_local_installer
                    | apply env_stable_download_macos
                    | auto with env_stable ] ]
    | apply env_keeps_set_key; reflexivity
    | match goal with
      | |- env_keeps _ (if ?b then _ else _) => destruct b
      end
    | apply env_keeps_bind; [|intros ?] ].
Qed.

(** X15. The outputs of the cache manager, whatever the outcome of the run
    (also when it fails): [cache_dir] and [pathname] are the two cache
    paths built from the inputs, [changed] is true exactly when the cached
    bundle path did not exist at the start, and the inputs are as they
    were. In particular a run that fails after a cache miss still leaves
    [changed] true and [pathname] on a path that was not created. *)
Theorem main_outputs_whatever_outcome w :
  cache_dir (env (snd (macOSDownloader.main w)))
  = Some (macOSDownloader.cache_path (env w))
  /\ pathname (env (snd (macOSDownloader.main w)))
     = Some (macOSDownloader.installer_cache_path (env w))
  /\ changed (env (snd (macOSDownloader.main w)))
     = Some (negb (path_exists (fs w)
                     (macOSDownloader.installer_cache_path (env w))))
  /\ Spec.same_inputs (env (snd (macOSDownloader.main w))) (env w)
  /\ size (env (snd (macOSDownloader.main w))) = size (env w).
Proof.
  destruct (path_exists (fs w) (macOSDownloader.installer_cache_path (env w)))
    eqn:Hc.
  - rewrite (main_cache_hit _ Hc). repeat split.
  - assert (Hcore :
      Spec.env_core (env (snd (macOSDownloader.main w)))
      = Spec.env_core
          (with_changed true
             (with_pathname (macOSDownloader.installer_cache_path (env w))
                (with_cache_dir (macOSDownloader.cache_path (env w))
                   (env w))))).
    { unfold macOSDownloader.main.
      erewrite bind_ok_step by reflexivity.
      erewrite bind_ok_step by reflexivity.
      erewrite bind_ok_step by reflexivity.
      erewrite bind_ok_step by reflexivity.
      erewrite bind_ok_step by reflexivity.
      cbn [fs env set_env]. rewrite Hc.
      erewrite bind_ok_step by reflexivity.
      erewrite bind_ok_step by reflexivity.
      rewrite main_rest_keeps_core. reflexivity. }
    unfold Spec.env_core in Hcore. cbn in Hcore.
    injection Hcore as Hr Hvb Hv Hl Hs Hcd Hp Hch.
    unfold Spec.same_inputs. repeat split; assumption.
Qed.

(** ** A run of the cache manager that fills the cache *)

Lemma emits_run {A} kind (c : M A) w r w' :
  emits kind c -> c w = (r, w') ->
  exists evs, trace w' = (trace w ++ evs)%list /\ forallb kind evs = true.
Proof. intros He Hc. specialize (He w). now rewrite Hc in He. Qed.

Lemma hdiutil_events_hold_no_fetch evs :
  forallb Spec.is_hdiutil evs = true -> existsb Spec.is_fetch evs = false.
Proof.
  induction evs as [|ev t IH]; simpl; [reflexivity|].
  intros H. apply andb_true_iff in H as [He Ht].
  rewrite (IH Ht). destruct ev; try discriminate; reflexivity.
Qed.

Lemma makedirs_ok p w w1 :
  os_makedirs p w = (Ok tt, w1) ->
  env w1 = env w /\ trace w1 = (trace w ++ [Makedirs p])%list.
Proof.
  unfold os_makedirs, bind, run_cmd, modify.
  destruct (fault_of (Makedirs p) w); [discriminate|].
  intros H. injection H as <-. split; reflexivity.
Qed.

(** A download that returns has run the download command first, then only
    the disk-image utility. *)
Lemma download_macos_ok w p w1 :
  macOSDownloader.download_macos w = (Ok p, w1) ->
  env w1 = env w
  /\ (exists items item,
        listdir (fs (after (Softwareupdate_fetch (version (env w))) w))
          "/Applications" = Ok items
        /\ In item items
        /\ p = Py.path_join "/Applications" [item])
  /\ exists evs,
       trace w1
       = (trace w ++ Softwareupdate_fetch (version (env w)) :: evs)%list
       /\ forallb Spec.is_hdiutil evs = true.
Proof.
  intros H. split; [|split].
  - apply (@env_stable_run _ _ _ _ _ env_stable_download_macos H).
  - unfold macOSDownloader.download_macos in H.
    apply bind_ok_inv in H as (t & w2 & Ht & H).
    unfold gets in Ht. injection Ht as <- <-.
    apply bind_ok_inv in H as (u & w3 & Hf & H).
    unfold try_wrap, run_cmd in Hf.
    destruct (fault_of (Softwareupdate_fetch (version (env w))) w);
      [discriminate|].
    injection Hf as _ <-.
    apply bind_ok_inv in H as (t' & w4 & Ht & H).
    unfold gets in Ht. injection Ht as _ <-.
    apply bind_ok_inv in H as (installer & w5 & Hg & H).
    unfold macOSDownloader.get_local_installer in Hg.
    destruct installer as [q|]; [|discriminate].
    destruct (Py.truthy q); [|discriminate].
    unfold ret in H. injection H as <- _.
    exact (get_local_installer_found _ _ _ Hg).
  - unfold macOSDownloader.download_macos in H.
    apply bind_ok_inv in H as (t & w2 & Ht & H).
    unfold gets in Ht. injection Ht as <- <-.
    apply bind_ok_inv in H as (u & w3 & Hf & H).
    unfold try_wrap, run_cmd in Hf.
    destruct (fault_of (Softwareupdate_fetch (version (env w))) w);
      [discriminate|].
    injection Hf as _ <-.
    apply bind_ok_inv in H as (t' & w4 & Ht & H).
    unfold gets in Ht. injection Ht as _ <-.
    apply bind_ok_inv in H as (installer & w5 & Hg & H).
    unfold macOSDownloader.get_local_installer in Hg.
    apply (@emits_run _ _ _ _ _ _ (emits_get_local_installer _ _)) in Hg
      as (evs & Htr & Hk).
    destruct installer as [q|]; [|discriminate].
    destruct (Py.truthy q); [|discriminate].
    unfold ret in H. injection H as _ <-.
    exists evs. split; [|assumption].
    rewrite Htr. cbn [trace after log_event set_fs].
    now rewrite <- app_assoc.
Qed.

(** X16. A run of the cache manager that starts without the cache entry
    and completes. Its commands end with the log line, the creation of the
    cache directory and the copy of an entry of the applications directory
    to the cached bundle path. Either the installer was found locally:
    the download command was not run, the summary of the download is as
    it was and the entry is one of the directory as it was listed at the
    start; or it was not: the download command was run, the summary
    records the release, the version and the cached bundle path, and the
    entry is one of the directory as it was listed right after the
    download command. *)
Theorem main_fills_the_cache w w1 :
  path_exists (fs w) (macOSDownloader.installer_cache_path (env w)) = false ->
  macOSDownloader.main w = (Ok tt, w1) ->
  exists items item evs,
    In item items
    /\ trace w1
       = (trace w ++ evs
          ++ [Output "Creating copy for cache";
              Makedirs (macOSDownloader.cache_path (env w));
              Copytree (Py.path_join "/Applications" [item])
                (macOSDownloader.installer_cache_path (env w))])%list
    /\ ((existsb Spec.is_fetch evs = false
         /\ macOSDownloader_summary_result (env w1)
            = macOSDownloader_summary_result (env w)
         /\ listdir (fs w) "/Applications" = Ok items)
        \/ (existsb Spec.is_fetch evs = true
            /\ macOSDownloader_summary_result (env w1)
               = Some ("New version of macOS has been downloaded",
                       [("release", release (env w));
                        ("version", version (env w));
                        ("download_path",
                         macOSDownloader.installer_cache_path (env w))])
            /\ listdir (fs (Spec.miss_fetch_world w)) "/Applications"
               = Ok items)).
Proof.
  intros Hc H. unfold macOSDownloader.main in H.
  apply bind_ok_inv in H as (e & w0 & He & H).
  unfold gets in He. injection He as <- <-.
  apply bind_ok_inv in H as (u1 & w2 & H1 & H).
  unfold set_key, modify in H1. injection H1 as _ <-.
  apply bind_ok_inv in H as (u2 & w3 & H2 & H).
  unfold set_key, modify in H2. injection H2 as _ <-.
  apply bind_ok_inv in H as (u3 & w4 & H3 & H).
  unfold set_key, modify in H3. injection H3 as _ <-.
  apply bind_ok_inv in H as (cached & w5 & H4 & H).
  unfold os_path_exists, gets in H4. cbn [fs set_env] in H4.
  rewrite Hc in H4. injection H4 as <- <-.
  apply bind_ok_inv in H as (u4 & w6 & H5 & H).
  unfold output, modify in H5. injection H5 as _ <-.
  apply bind_ok_inv in H as (u5 & w7 & H6 & H).
  unfold set_key, modify in H6. injection H6 as _ <-.
  apply bind_ok_inv in H as (target & w8 & H7 & H).
  unfold gets in H7. injection H7 as <- <-.
  apply bind_ok_inv in H as (found & w9 & Hg & H).
  unfold macOSDownloader.get_local_installer in Hg.
  pose proof (@env_stable_run _ _ _ _ _
                (env_stable_get_local_installer _ _) Hg) as Henv9.
  pose proof (@emits_run _ _ _ _ _ _ (emits_get_local_installer _ _) Hg)
    as (evs1 & Htr9 & Hk1).
  assert (Hw9 : snd (Installer.get_local_installer "/Applications"
                       (version (env w)) (Spec.miss_scan_world w)) = w9)
    by exact (f_equal snd Hg).
  cbn [env trace set_env log_event] in Henv9, Htr9.
  apply bind_ok_inv in H as (installer & w10 & Hi & H).
  apply bind_ok_inv in H as (u8 & w11 & H12 & H).
  unfold output, modify in H12. injection H12 as _ <-.
  apply bind_ok_inv in H as (u9 & w12 & Hmk & H).
  destruct u9. apply makedirs_ok in Hmk as (Henv12 & Htr12).
  apply copytree_ok in H as (Henv1 & _ & Htr1).
  cbn [env trace log_event] in Henv12, Htr12.
  change (Py.path_join (macOSDownloader.cache_path (env w)) [])
    with (macOSDownloader.cache_path (env w)) in Htr12.
  rewrite Htr1, Htr12, Henv1, Henv12.
  destruct (Py.truthy_opt found) eqn:Hfound.
  - apply bind_ok_inv in Hi as (u6 & w13 & H8 & Hi).
    unfold output, modify in H8. injection H8 as _ <-.
    unfold ret in Hi. injection Hi as <- <-.
    destruct found as [p|]; [|discriminate].
    destruct (get_local_installer_found _ _ _ Hg)
      as (items & item & Hl & Hin & ->).
    cbn [fs set_env log_event] in Hl.
    exists items, item.
    exists ([Output ("No cached installer found. Checking " ++ Py.dquote
                     ++ "/Applications" ++ Py.dquote
                     ++ " for the correct installer")]
            ++ evs1
            ++ [Output ("Version already on system at "
                        ++ Py.path_join "/Applications" [item])])%list.
    split; [exact Hin|]. split.
    + cbn [trace log_event]. rewrite Htr9.
      repeat rewrite <- app_assoc. reflexivity.
    + left. split; [|split].
      * rewrite !existsb_app, (hdiutil_events_hold_no_fetch _ Hk1).
        reflexivity.
      * cbn [env log_event]. now rewrite Henv9.
      * exact Hl.
  - apply bind_ok_inv in Hi as (e' & w13 & H8 & Hi).
    unfold gets in H8. injection H8 as <- <-.
    apply bind_ok_inv in Hi as (u6 & w14 & H9 & Hi).
    unfold output, modify in H9. injection H9 as _ <-.
    apply bind_ok_inv in Hi as (p & w15 & Hd & Hi).
    apply download_macos_ok in Hd
      as (Henv15 & (items & item & Hl & Hin & ->) & evs2 & Htr15 & Hk2).
    cbn [env trace log_event] in Henv15, Htr15, Hl.
    rewrite Henv9 in Hl. cbn [version release size with_changed
                               with_pathname with_cache_dir] in Hl.
    apply bind_ok_inv in Hi as (e'' & w16 & H10 & Hi).
    unfold gets in H10. injection H10 as <- <-.
    apply bind_ok_inv in Hi as (u7 & w17 & H11 & Hi).
    unfold set_key, modify in H11. injection H11 as _ <-.
    unfold ret in Hi. injection Hi as <- <-.
    exists items, item.
    exists ([Output ("No cached installer found. Checking " ++ Py.dquote
                     ++ "/Applications" ++ Py.dquote
                     ++ " for the correct installer")]
            ++ evs1
            ++ [Output ("Downloading macOS " ++ release (env w9) ++ " "
                        ++ version (env w9) ++ " (Size: " ++ size (env w9)
                        ++ ")")]
            ++ Softwareupdate_fetch (version (env w9)) :: evs2)%list.
    split; [exact Hin|]. split.
    + cbn [trace set_env log_event]. rewrite Htr15, Htr9.
      repeat rewrite <- app_assoc. reflexivity.
    + right. split; [|split].
      * rewrite !existsb_app. cbn. apply orb_true_r.
      * cbn [env set_env macOSDownloader_summary_result with_summary].
        rewrite Henv15, Henv9. reflexivity.
      * unfold Spec.miss_fetch_world. rewrite Hw9. exact Hl.
Qed.

Lemma main_fills_the_cache_witness :
  exists items item evs,
    In item items
    /\ trace (snd (macOSDownloader.main Examples.fresh_cache_world))
       = (trace Examples.fresh_cache_world ++ evs
          ++ [Output "Creating copy for cache";
              Makedirs "/cache/downloads/12.3";
              Copytree (Py.path_join "/Applications" [item])
                "/cache/downloads/12.3/Install macOS Monterey.app"])%list
    /\ ((existsb Spec.is_fetch evs = false
         /\ macOSDownloader_summary_result
              (env (snd (macOSDownloader.main Examples.fresh_cache_world)))
            = None
         /\ listdir (fs Examples.fresh_cache_world) "/Applications"
            = Ok items)
        \/ (existsb Spec.is_fetch evs = true
            /\ macOSDownloader_summary_result
                 (env (snd (macOSDownloader.main Examples.fresh_cache_world)))
               = Some ("New version of macOS has been downloaded",
                       [("release", "macOS Monterey");
                        ("version", "12.3");
                        ("download_path",
                         "/cache/downloads/12.3/Install macOS Monterey.app")])
            /\ listdir (fs (Spec.miss_fetch_world Examples.fresh_cache_world))
                 "/Applications"
               = Ok items)).
Proof.
  assert (Hc : path_exists (fs Examples.fresh_cache_world)
                 (macOSDownloader.installer_cache_path
                    (env Examples.fresh_cache_world)) = false)
    by (vm_compute; reflexivity).
  assert (Hm : macOSDownloader.main Examples.fresh_cache_world
               = (Ok tt,
                  snd (macOSDownloader.main Examples.fresh_cache_world)))
    by (vm_compute; reflexivity).
  exact (@main_fills_the_cache _ _ Hc Hm).
Defined.

(** ** Where the cache lives *)

Lemma string_app_assoc (a b c : string) : ((a ++ b) ++ c = a ++ (b ++ c))%string.
Proof. induction a as [|x a IH]; simpl; [reflexivity | now rewrite IH]. Qed.

Lemma prefix_app (a b : string) : String.prefix a (a ++ b) = true.
Proof.
  induction a as [|x a IH]; simpl; [now destruct b|].
  destruct (ascii_dec x x); [exact IH | congruence].
Qed.

(** A relative component is appended to the path. *)
Lemma join2_relative path b :
  Py.startswith_sep b = false -> exists s, Py.join2 path b = (path ++ s)%string.
Proof.
  intros H. unfold Py.join2. rewrite H.
  destruct (String.eqb path EmptyString || Py.endswith_sep path)%bool; eauto.
Qed.

(** X17. Where the cache lives. When the version does not start with a
    slash, the cache directory and the cached bundle path lie under
    [RECIPE_CACHE_DIR]: each has it as a prefix, and the cached bundle path
    has the cache directory as a prefix. When the version starts with a
    slash, the cache root is dropped: the cache directory is the version
    itself. *)
Theorem cache_paths_under_root e :
  (Py.startswith_sep (version e) = false ->
   String.prefix (RECIPE_CACHE_DIR e) (macOSDownloader.cache_path e) = true
   /\ String.prefix (macOSDownloader.cache_path e)
        (macOSDownloader.installer_cache_path e) = true
   /\ String.prefix (RECIPE_CACHE_DIR e)
        (macOSDownloader.installer_cache_path e) = true)
  /\ (Py.startswith_sep (version e) = true ->
      macOSDownloader.cache_path e = version e).
Proof.
  unfold macOSDownloader.installer_cache_path, macOSDownloader.cache_path,
    Py.path_join.
  cbn [fold_left]. split.
  - intros Hv.
    destruct (join2_relative (RECIPE_CACHE_DIR e) "downloads" eq_refl)
      as (s1 & ->).
    destruct (join2_relative (RECIPE_CACHE_DIR e ++ s1) (version e) Hv)
      as (s2 & ->).
    destruct (join2_relative ((RECIPE_CACHE_DIR e ++ s1) ++ s2)
                ("Install " ++ release e ++ ".app") eq_refl) as (s3 & ->).
    repeat split.
    + rewrite string_app_assoc. apply prefix_app.
    + apply prefix_app.
    + rewrite !string_app_assoc. apply prefix_app.
  - intros Hv. unfold Py.join2 at 1. now rewrite Hv.
Qed.

Lemma cache_paths_under_root_witness :
  String.prefix "/cache" (macOSDownloader.installer_cache_path Examples.env0)
  = true
  /\ macOSDownloader.cache_path (with_version "/tmp/x" Examples.env0)
     = "/tmp/x".
Proof.
  split.
  - apply (proj1 (cache_paths_under_root Examples.env0) eq_refl).
  - apply (proj2 (cache_paths_under_root
                    (with_version "/tmp/x" Examples.env0)) eq_refl).
Defined.

(** ** From the resolver to the cache manager *)

Lemma macOSReleaseProvider_main_unfold w :
  macOSReleaseProvider.main w
  = match macOSReleaseProvider.get_update
            (log_event
               (Output "Querying software update for macOS installers") w)
    with
    | (Ok u, w1) =>
        (Ok tt,
         set_env
           (with_size (Catalog.size u)
              (with_release (Catalog.name u)
                 (with_version (Catalog.version u) (env w1)))) w1)
    | (Raise e, w1) => (Raise e, w1)
    end.
Proof.
  unfold macOSReleaseProvider.main, bind, output, modify, set_key.
  destruct (macOSReleaseProvider.get_update _) as [[u|e] w1]; reflexivity.
Qed.

(** X18. The standalone resolver feeds the cache manager. When
    [macOSReleaseProvider.main] completes, the record that [get_update]
    returned is written to [version], [release] and [size], nothing else
    changes in [env], on disk or among the mounted images, and the cached
    bundle path of the cache manager is
    [RECIPE_CACHE_DIR/downloads/<version>/Install <name>.app] for that
    record. When it fails, [env] is as it was. *)
Theorem macOSReleaseProvider_main_feeds_cache_manager w :
  (forall w2,
     macOSReleaseProvider.main w = (Ok tt, w2) ->
     exists u,
       fst (macOSReleaseProvider.get_update
              (log_event
                 (Output "Querying software update for macOS installers") w))
       = Ok u
       /\ env w2
          = with_size (Catalog.size u)
              (with_release (Catalog.name u)
                 (with_version (Catalog.version u) (env w)))
       /\ macOSDownloader.installer_cache_path (env w2)
          = Py.path_join (RECIPE_CACHE_DIR (env w))
              ["downloads"; Catalog.version u;
               "Install " ++ Catalog.name u ++ ".app"]
       /\ fs w2 = fs w
       /\ images w2 = images w)
  /\ (forall e w2,
        macOSReleaseProvider.main w = (Raise e, w2) -> env w2 = env w).
Proof.
  pose proof (proj2 (get_update_footprint
                       (log_event
                          (Output "Querying software update for macOS installers")
                          w))) as (Henv & Hfs & Himg & _).
  rewrite macOSReleaseProvider_main_unfold.
  destruct (macOSReleaseProvider.get_update _) as [[u|e] w1];
    cbn [fst snd] in *.
  - split; [|discriminate].
    intros w2 H. injection H as <-.
    exists u. cbn [env fs images set_env].
    rewrite Henv, Hfs, Himg. repeat split.
  - split; [discriminate|].
    intros e' w2 H. injection H as _ <-. exact Henv.
Qed.

Lemma macOSReleaseProvider_main_feeds_cache_manager_witness :
  exists u,
    fst (macOSReleaseProvider.get_update
           (log_event
              (Output "Querying software update for macOS installers")
              (Examples.listing_world (Completed 0 Examples.two_versions))))
    = Ok u
    /\ macOSDownloader.installer_cache_path
         (env (snd (macOSReleaseProvider.main
                      (Examples.listing_world
                         (Completed 0 Examples.two_versions)))))
       = Py.path_join "/cache"
           ["downloads"; Catalog.version u;
            "Install " ++ Catalog.name u ++ ".app"].
Proof.
  destruct (proj1 (macOSReleaseProvider_main_feeds_cache_manager
                     (Examples.listing_world
                        (Completed 0 Examples.two_versions)))
              (snd (macOSReleaseProvider.main
                      (Examples.listing_world
                         (Completed 0 Examples.two_versions))))
              eq_refl) as (u & Hu & _ & Hp & _).
  exists u. split; assumption.
Defined.

(** ** The combined processor *)

Lemma outputs_hold_no_fetch evs :
  forallb Spec.is_output evs = true -> existsb Spec.is_fetch evs = false.
Proof.
  induction evs as [|ev t IH]; simpl; [reflexivity|].
  intros H. apply andb_true_iff in H as [He Ht].
  rewrite (IH Ht). destruct ev; try discriminate; reflexivity.
Qed.

(** A download that returns has run the download command first, then only
    the disk-image utility. *)
Lemma DownloadMacOS_download_macos_ok u w p w1 :
  DownloadMacOS.download_macos u w = (Ok p, w1) ->
  (exists items item,
     listdir (fs (after (Softwareupdate_fetch (Catalog.version u)) w))
       "/Applications" = Ok items
     /\ In item items
     /\ p = Py.path_join "/Applications" [item])
  /\ exists evs,
       trace w1
       = (trace w ++ Softwareupdate_fetch (Catalog.version u) :: evs)%list
       /\ forallb Spec.is_hdiutil evs = true.
Proof.
  intros H. unfold DownloadMacOS.download_macos in H.
  apply bind_ok_inv in H as (t & w2 & Hf & H).
  unfold try_wrap, run_cmd in Hf.
  destruct (fault_of (Softwareupdate_fetch (Catalog.version u)) w);
    [discriminate|].
  injection Hf as _ <-.
  apply bind_ok_inv in H as (installer & w5 & Hg & H).
  unfold DownloadMacOS.get_local_installer in Hg.
  pose proof (@emits_run _ _ _ _ _ _ (emits_get_local_installer _ _) Hg)
    as (evs & Htr & Hk).
  destruct installer as [q|]; [|discriminate].
  destruct (Py.truthy q); [|discriminate].
  unfold ret in H. injection H as <- <-.
  split; [exact (get_local_installer_found _ _ _ Hg)|].
  exists evs. split; [|assumption].
  rewrite Htr. cbn [trace after log_event set_fs].
  now rewrite <- app_assoc.
Qed.

(** X19. The outputs of the combined processor. When [DownloadMacOS.main]
    completes, [version], [release] and [size] are those of the record
    that [get_update] returned, [pathname] is an entry of the applications
    directory, and [changed] is true exactly when the download command was
    run during this run. The entry is one of the directory as it was
    listed at the start when nothing was downloaded, and as it was listed
    right after the download command otherwise. *)
Theorem DownloadMacOS_main_outputs o w o' w' :
  DownloadMacOS.main o w = (Ok tt, o', w') ->
  exists u items item evs,
    fst (DownloadMacOS.get_update
           (log_event
              (Output "Querying software update for macOS installers") w))
    = Ok u
    /\ DownloadMacOS.out_version o' = Some (Catalog.version u)
    /\ DownloadMacOS.out_release o' = Some (Catalog.name u)
    /\ DownloadMacOS.out_size o' = Some (Catalog.size u)
    /\ DownloadMacOS.out_pathname o'
       = Some (Py.path_join "/Applications" [item])
    /\ In item items
    /\ trace w' = (trace w ++ evs)%list
    /\ DownloadMacOS.out_changed o' = Some (existsb Spec.is_fetch evs)
    /\ listdir
         (fs (if existsb Spec.is_fetch evs
              then Spec.resolved_fetch_world u w else w))
         "/Applications"
       = Ok items.
Proof.
  unfold DownloadMacOS.main, bind at 1, output at 1, modify at 1.
  pose proof (proj1 (get_update_footprint
                       (log_event
                          (Output "Querying software update for macOS installers")
                          w))) as (_ & Hfs0 & _ & logs & Htr0 & Hlogs).
  unfold Spec.resolved_fetch_world, Spec.resolved_scan_world.
  destruct (DownloadMacOS.get_update _) as [[u|e] w1]; [|discriminate].
  cbn [fst snd trace fs log_event] in Htr0, Hfs0 |- *.
  unfold bind at 1, output at 1, modify at 1.
  destruct (DownloadMacOS.get_local_installer "/Applications"
              (Catalog.version u) _) as [[installer|e] w2] eqn:Hg;
    [|discriminate].
  unfold DownloadMacOS.get_local_installer in Hg.
  pose proof (@emits_run _ _ _ _ _ _ (emits_get_local_installer _ _) Hg)
    as (evs1 & Htr2 & Hk1).
  cbn [trace log_event] in Htr2.
  destruct (Py.truthy_opt installer) eqn:Hfound.
  - unfold output, modify. intros H. injection H as <- <-.
    destruct installer as [p|]; [|discriminate].
    destruct (get_local_installer_found _ _ _ Hg)
      as (items & item & Hl & Hin & ->).
    cbn [fs log_event] in Hl. rewrite Hfs0 in Hl.
    pose (evs := ((Output "Querying software update for macOS installers"
                   :: Softwareupdate_list :: logs)
                  ++ (Output ("Checking " ++ Py.dquote ++ "/Applications"
                              ++ Py.dquote ++ " for the correct installer")
                      :: evs1)
                  ++ [Output ("Version already on system at "
                              ++ Py.path_join "/Applications" [item])])%list).
    assert (Hno : existsb Spec.is_fetch evs = false).
    { unfold evs. rewrite !existsb_app. cbn [existsb Spec.is_fetch orb].
      now rewrite (hdiutil_events_hold_no_fetch _ Hk1),
        (outputs_hold_no_fetch _ Hlogs). }
    exists u, items, item, evs.
    do 6 (split; [first [reflexivity | exact Hin]|]).
    split; [|split].
    + cbn [trace log_event]. rewrite Htr2, Htr0. unfold evs.
      repeat rewrite <- app_assoc. reflexivity.
    + cbn [DownloadMacOS.out_changed DownloadMacOS.with_out_result
             DownloadMacOS.with_out_changed].
      now rewrite Hno.
    + rewrite Hno. exact Hl.
  - unfold bind at 1, output at 1, modify at 1.
    destruct (DownloadMacOS.download_macos u _) as [[p|e] w3] eqn:Hd;
      [|discriminate].
    intros H. injection H as <- <-.
    apply DownloadMacOS_download_macos_ok in Hd
      as ((items & item & Hl & Hin & ->) & evs2 & Htr3 & Hk2).
    cbn [trace log_event] in Htr3.
    pose (evs := ((Output "Querying software update for macOS installers"
                   :: Softwareupdate_list :: logs)
                  ++ (Output ("Checking " ++ Py.dquote ++ "/Applications"
                              ++ Py.dquote ++ " for the correct installer")
                      :: evs1)
                  ++ Output ("Downloading macOS " ++ Catalog.name u ++ " "
                             ++ Catalog.version u ++ " (Size: "
                             ++ Py.str_of_int (Catalog.size u) ++ ")")
                     :: Softwareupdate_fetch (Catalog.version u)
                     :: evs2)%list).
    assert (Hyes : existsb Spec.is_fetch evs = true).
    { unfold evs. rewrite !existsb_app. cbn [existsb Spec.is_fetch orb].
      now rewrite !orb_true_r. }
    exists u, items, item, evs.
    do 6 (split; [first [reflexivity | exact Hin]|]).
    split; [|split].
    + rewrite Htr3, Htr2, Htr0. unfold evs.
      repeat rewrite <- app_assoc. reflexivity.
    + cbn [DownloadMacOS.out_changed DownloadMacOS.with_out_result
             DownloadMacOS.with_out_changed].
      now rewrite Hyes.
    + rewrite Hyes. rewrite Hg. exact Hl.
Qed.

Lemma DownloadMacOS_main_outputs_witness :
  exists u items item evs,
    fst (DownloadMacOS.get_update
           (log_event
              (Output "Querying software update for macOS installers")
              Examples.combined_world))
    = Ok u
    /\ Some "12.3" = Some (Catalog.version u)
    /\ Some "macOS Monterey" = Some (Catalog.name u)
    /\ Some 9453092000 = Some (Catalog.size u)
    /\ Some Examples.installer_app
       = Some (Py.path_join "/Applications" [item])
    /\ In item items
    /\ trace (snd (DownloadMacOS.main Examples.no_outputs
                     Examples.combined_world))
       = (trace Examples.combined_world ++ evs)%list
    /\ Some false = Some (existsb Spec.is_fetch evs)
    /\ listdir
         (fs (if existsb Spec.is_fetch evs
              then Spec.resolved_fetch_world u Examples.combined_world
              else Examples.combined_world))
         "/Applications"
       = Ok items.
Proof.
  assert (Hm : DownloadMacOS.main Examples.no_outputs Examples.combined_world
               = (Ok tt,
                  {| DownloadMacOS.out_version := Some "12.3";
                     DownloadMacOS.out_pathname := Some Examples.installer_app;
                     DownloadMacOS.out_release := Some "macOS Monterey";
                     DownloadMacOS.out_size := Some 9453092000;
                     DownloadMacOS.out_changed := Some false |},
                  snd (DownloadMacOS.main Examples.no_outputs
                         Examples.combined_world)))
    by (vm_compute; reflexivity).
  exact (DownloadMacOS_main_outputs _ _ Hm).
Defined.

(** ** Lines that do not count *)

(** X20. Only the lines with the marker count. Two outputs of the catalog
    command with the same lines holding [Version], in the same order,
    resolve alike in both processors, whatever else they print and
    whatever their exit statuses: the same record, or the same
    exception. *)
Theorem get_update_ignores_other_lines w w' rc rc' out out' :
  catalog w = Completed rc out ->
  catalog w' = Completed rc' out' ->
  Spec.version_lines out = Spec.version_lines out' ->
  fst (DownloadMacOS.get_update w) = fst (DownloadMacOS.get_update w')
  /\ fst (macOSReleaseProvider.get_update w)
     = fst (macOSReleaseProvider.get_update w').
Proof.
  intros Hc Hc' Hl.
  rewrite (DownloadMacOS_get_update_completed _ Hc),
    (DownloadMacOS_get_update_completed _ Hc'),
    (macOSReleaseProvider_get_update_completed _ Hc),
    (macOSReleaseProvider_get_update_completed _ Hc'),
    !get_update_candidates_DownloadMacOS,
    !get_update_candidates_macOSReleaseProvider, Hl.
  split; reflexivity.
Qed.

Lemma get_update_ignores_other_lines_witness :
  fst (DownloadMacOS.get_update
         (Examples.listing_world (Completed 0 Examples.monterey_line)))
  = fst (DownloadMacOS.get_update
           (Examples.listing_world
              (Completed 1
                 ("Finding available software" ++ Examples.nl
                  ++ Examples.monterey_line ++ Examples.nl))))
  /\ fst (macOSReleaseProvider.get_update
            (Examples.listing_world (Completed 0 Examples.monterey_line)))
     = fst (macOSReleaseProvider.get_update
              (Examples.listing_world
                 (Completed 1
                    ("Finding available software" ++ Examples.nl
                     ++ Examples.monterey_line ++ Examples.nl)))).
Proof.
  apply (@get_update_ignores_other_lines
           (Examples.listing_world (Completed 0 Examples.monterey_line))
           (Examples.listing_world
              (Completed 1
                 ("Finding available software" ++ Examples.nl
                  ++ Examples.monterey_line ++ Examples.nl)))
           0 1 Examples.monterey_line
           ("Finding available software" ++ Examples.nl
            ++ Examples.monterey_line ++ Examples.nl)
           eq_refl eq_refl eq_refl).
Defined.
